(** * Legal Document PDF Converter: a shallow embedding of [pdf_converter.py]

    The program is glue around four libraries (PyPDF2, Pillow, img2pdf and
    pikepdf) and the operating system.  The embedding keeps the control flow
    of the source (existence checks, early returns, [try]/[except]/[finally],
    [sys.exit]) and threads an explicit world (file system and console) through
    it.  Every call that crosses the library boundary is a field of the class
    [Externals]: the theorems hold for every behaviour of the libraries. *)

From Stdlib Require Import ZArith Floats Uint63 Ascii.
From stdpp Require Import gmap strings list pretty.

Local Open Scope Z_scope.

(** ** Values *)

Definition bytes : Type := list Byte.byte.

(** Exceptions deriving from Python's [Exception] that the program can meet. *)
Inductive exception : Type :=
| KeyError (key : string)
| ZeroDivisionError
| OSError (msg : string)
| LibraryError (msg : string).

(** What a [raise] carries: an [Exception], or the [SystemExit] of
    [sys.exit], which derives from [BaseException] and so passes through
    [except Exception]. *)
Inductive raised : Type :=
| Exc (e : exception)
| SystemExit (code : Z).

Definition is_OSError (e : exception) : bool :=
  match e with OSError _ => true | _ => false end.

(** One call of [click.echo].  An f-string that interpolates [str(e)] or a
    float printed with [:.2f] keeps the interpolated value as it is. *)
Inductive line : Type :=
| Stdout (text : string)
| Stderr (text : string)
| StderrExc (text : string) (e : exception)
| StdoutFixed2 (text : string) (x : float) (suffix : string).

(** ** The file system *)

Record filesystem : Type := Filesystem {
  files : gmap string bytes;
  dirs : gset string
}.

(** The world a command runs in.  [temp_files] is the list object that
    [batch] binds to its local of that name: it is appended to inside the
    [try] and read in the [finally], also when an exception is under way. *)
Record world : Type := World {
  fs : filesystem;
  console : list line;
  temp_files : list string
}.

Definition set_file (p : string) (data : bytes) (f : filesystem) : filesystem :=
  {| files := <[p := data]> (files f); dirs := dirs f |}.

Definition del_file (p : string) (f : filesystem) : filesystem :=
  {| files := delete p (files f); dirs := dirs f |}.

Definition add_dir (d : string) (f : filesystem) : filesystem :=
  {| files := files f; dirs := {[d]} ∪ dirs f |}.

Definition del_dir (d : string) (f : filesystem) : filesystem :=
  {| files := files f; dirs := dirs f ∖ {[d]} |}.

(** [os.path.exists] *)
Definition path_exists (p : string) (f : filesystem) : bool :=
  bool_decide (is_Some (files f !! p)) || bool_decide (p ∈ dirs f).

(** The entries below directory [d]. *)
Definition below (d p : string) : bool := String.prefix (d +:+ "/") p.

Definition dir_empty (d : string) (f : filesystem) : bool :=
  forallb (λ p, negb (below d p)) (elements (dom (files f)))
  && forallb (λ p, negb (below d p)) (elements (dirs f)).

Fixpoint ends_with_sep (s : string) : bool :=
  match s with
  | EmptyString => false
  | String c EmptyString => bool_decide (c = "/"%char)
  | String _ s' => ends_with_sep s'
  end.

(** [os.path.join] of posixpath, for two components. *)
Definition path_join (a b : string) : string :=
  if String.prefix "/" b then b
  else if bool_decide (a = "") || ends_with_sep a then a +:+ b
  else a +:+ "/" +:+ b.

(** What a library call that writes a file did: the whole file, or an
    exception after nothing or after part of the file was written. *)
Inductive write_outcome : Type :=
| WriteOk (data : bytes)
| WriteFailed (partial : option bytes) (e : exception).

(** ** Images and PDF documents, as far as the program looks into them *)

Record image : Type := Image {
  mode : string;
  size : nat * nat;
  pixels : bytes
}.

(** A PDF object: the dictionary keys the program reads or writes, its stream
    data, and the rest of the dictionary. *)
Record pdfobj : Type := PdfObj {
  Subtype : option string;
  Filter : option string;
  DecodeParms : option bytes;
  stream_data : bytes;
  obj_entries : bytes
}.

Record resources : Type := Resources {
  XObject : option (list (string * nat));
  resource_entries : bytes
}.

Record page : Type := Page {
  page_Resources : option resources;
  page_entries : bytes
}.

(** A document: its pages in order and the table of indirect objects the
    pages' XObject tables point into.  Two pages may name the same object.
    The table holds the dictionaries and streams; a reference it does not
    hold stands for an object of another kind (a number, a name, null).
    [/Resources] and [/XObject] are dictionaries where a page has them. *)
Record pdf : Type := Pdf {
  pages : list page;
  objects : gmap nat pdfobj
}.

(** [obj.write(data, filter=f)]: pikepdf replaces the stream data and sets
    [/Filter] to [f] and [/DecodeParms] to the (absent) [decode_parms]. *)
Definition obj_write (data : bytes) (f : string) (o : pdfobj) : pdfobj :=
  {| Subtype := Subtype o; Filter := Some f; DecodeParms := None;
     stream_data := data; obj_entries := obj_entries o |}.

(** ** The library boundary *)

Class Externals : Type := {
  (* PyPDF2 *)
  Merger : Type;
  PdfMerger : Merger;
  merger_append : Merger → string → filesystem → exception + Merger;
  merger_write : Merger → string → filesystem → write_outcome;
  (* Pillow *)
  Image_open : bytes → exception + image;
  Image_new : string → nat * nat → Z * Z * Z → image;
  image_convert : image → string → exception + image;
  image_split : image → exception + list image;
  image_paste : image → image → option image → exception + image;
  image_save_jpeg : image → Z → bool → option (Z * Z) → exception + bytes;
  (* img2pdf, with the layout function of [get_layout_fun] *)
  img2pdf_convert : list bytes → exception + bytes;
  (* the builtin [open(path, "wb")] and [f.write] *)
  open_wb : string → filesystem → option exception;
  file_write : string → bytes → filesystem → option (nat * exception);
  (* pikepdf *)
  pikepdf_open : bytes → exception + pdf;
  read_bytes : pdfobj → exception + bytes;
  pdf_save : pdf → string → filesystem → write_outcome;
  (* os and tempfile *)
  mkdtemp : filesystem → exception + string;
  remove_denied : string → filesystem → bool;
  rmdir_denied : string → filesystem → bool
}.

(** ** Results of library calls *)

#[global] Instance result_ret : MRet (sum exception) := λ A a, inr a.

#[global] Instance result_bind : MBind (sum exception) := λ A B k r,
  match r with
  | inl e => inl e
  | inr a => k a
  end.

(** ** The monad of the program: state and exceptions *)

Inductive outcome (A : Type) : Type :=
| Return (a : A)
| Raise (r : raised).
Arguments Return {A} a.
Arguments Raise {A} r.

Definition M (A : Type) : Type := world → outcome A * world.

#[global] Instance M_ret : MRet M := λ A a w, (Return a, w).

#[global] Instance M_bind : MBind M := λ A B k m w,
  match m w with
  | (Return a, w') => k a w'
  | (Raise r, w') => (Raise r, w')
  end.

Definition raise {A} (r : raised) : M A := λ w, (Raise r, w).

Definition lift {A} (r : exception + A) : M A :=
  match r with
  | inl e => raise (Exc e)
  | inr a => mret a
  end.

Definition get_fs : M filesystem := λ w, (Return (fs w), w).

Definition put_fs (f : filesystem) : M unit :=
  λ w, (Return tt,
        {| fs := f; console := console w; temp_files := temp_files w |}).

(** [click.echo] *)
Definition echo (l : line) : M unit :=
  λ w, (Return tt,
        {| fs := fs w; console := console w ++ [l];
           temp_files := temp_files w |}).

Definition get_temp_files : M (list string) :=
  λ w, (Return (temp_files w), w).

Definition set_temp_files (l : list string) : M unit :=
  λ w, (Return tt, {| fs := fs w; console := console w; temp_files := l |}).

(** [sys.exit] *)
Definition sys_exit {A} (code : Z) : M A := raise (SystemExit code).

(** [try: body except Exception as e: handler e] *)
Definition try_except {A} (body : M A) (handler : exception → M A) : M A :=
  λ w,
    match body w with
    | (Raise (Exc e), w') => handler e w'
    | r => r
    end.

(** [try: body except OSError: pass] *)
Definition try_except_OSError (body : M unit) : M unit :=
  λ w,
    match body w with
    | (Raise (Exc e), w') =>
        if is_OSError e then (Return tt, w') else (Raise (Exc e), w')
    | r => r
    end.

(** [try: body finally: final] *)
Definition try_finally {A} (body : M A) (final : M unit) : M A :=
  λ w,
    match body w with
    | (r, w') =>
        match final w' with
        | (Return _, w'') => (r, w'')
        | (Raise r', w'') => (Raise r', w'')
        end
    end.

(** A [for] loop whose body cannot leave the function. *)
Fixpoint for_each {A} (l : list A) (body : A → M unit) : M unit :=
  match l with
  | [] => mret tt
  | x :: l' => body x;; for_each l' body
  end.

(** A [for] loop that updates a local object [b] at each element. *)
Fixpoint for_fold {A B} (body : B → A → M B) (l : list A) (b : B) : M B :=
  match l with
  | [] => mret b
  | x :: l' => b' ← body b x; for_fold body l' b'
  end.

(** The exit code of the process once the command has run. *)
Definition exit_code {A} (o : outcome A) : Z :=
  match o with
  | Return _ => 0
  | Raise (SystemExit c) => c
  | Raise (Exc _) => 1
  end.

Section Program.
Context `{Externals}.

(** ** Operating-system calls *)

Definition os_path_exists (p : string) : M bool :=
  f ← get_fs; mret (path_exists p f).

(** Applies what a writing library call did to the file at [p]. *)
Definition write_to (p : string) (o : filesystem → write_outcome) : M unit :=
  f ← get_fs;
  match o f with
  | WriteOk data => put_fs (set_file p data f)
  | WriteFailed (Some part) e => put_fs (set_file p part f);; raise (Exc e)
  | WriteFailed None e => raise (Exc e)
  end.

Definition read_file (p : string) : M bytes :=
  f ← get_fs;
  match files f !! p with
  | Some data => mret data
  | None => raise (Exc (OSError p))
  end.

(** [os.path.getsize] *)
Definition os_path_getsize (p : string) : M Z :=
  data ← read_file p; mret (Z.of_nat (length data)).

(** [os.remove] *)
Definition os_remove (p : string) : M unit :=
  f ← get_fs;
  if bool_decide (is_Some (files f !! p)) && negb (remove_denied p f)
  then put_fs (del_file p f)
  else raise (Exc (OSError p)).

(** [os.rmdir] *)
Definition os_rmdir (d : string) : M unit :=
  f ← get_fs;
  if bool_decide (d ∈ dirs f) && dir_empty d f && negb (rmdir_denied d f)
  then put_fs (del_dir d f)
  else raise (Exc (OSError d)).

(** [tempfile.mkdtemp] *)
Definition tempfile_mkdtemp : M string :=
  f ← get_fs;
  d ← lift (mkdtemp f);
  put_fs (add_dir d f);;
  mret d.

(** ** class PDFConverter *)

Record settings : Type := Settings {
  dpi : Z;
  jpeg_quality : Z;
  optimize_flag : bool
}.

Record converter : Type := Converter {
  quality : string;
  quality_settings : gmap string settings
}.

(** [PDFConverter.__init__]; [None] is the omitted argument. *)
Definition PDFConverter (quality : option string) : converter :=
  {| quality := default "high" quality;
     quality_settings :=
       <["high" := {| dpi := 300; jpeg_quality := 95; optimize_flag := true |}]>
       (<["medium" := {| dpi := 200; jpeg_quality := 85; optimize_flag := true |}]>
       (<["low" := {| dpi := 150; jpeg_quality := 75; optimize_flag := true |}]> ∅)) |}.

(** [self.quality_settings[self.quality]] *)
Definition get_settings (self : converter) : M settings :=
  match quality_settings self !! quality self with
  | Some s => mret s
  | None => raise (Exc (KeyError (quality self)))
  end.

(** *** merge_pdfs *)

(** The loop of [merge_pdfs] from the files still to add, and then the rest
    of the [try] body [after]; a missing file returns [False] at once. *)
Fixpoint merge_pdfs_from (merger : Merger) (todo : list string)
    (after : Merger → M bool) : M bool :=
  match todo with
  | [] => after merger
  | pdf_file :: todo' =>
      found ← os_path_exists pdf_file;
      if negb found then
        echo (Stderr ("Error: File not found: " +:+ pdf_file));;
        mret false
      else
        echo (Stdout ("Adding: " +:+ pdf_file));;
        f ← get_fs;
        merger' ← lift (merger_append merger pdf_file f);
        merge_pdfs_from merger' todo' after
  end.

(** [merger.close()] releases the merger's file handles and changes nothing
    that the program observes. *)
Definition merge_pdfs (self : converter) (input_files : list string)
    (output_file : string) : M bool :=
  try_except
    (merge_pdfs_from PdfMerger input_files (λ merger,
       write_to output_file (merger_write merger output_file);;
       echo (Stdout ("Successfully merged " +:+ pretty (length input_files)
                     +:+ " PDFs into " +:+ output_file));;
       mret true))
    (λ e, echo (StderrExc "Error merging PDFs: " e);; mret false).

(** *** image_to_pdf *)

(** Lines 101-107 and 171-177: an image with alpha or a palette is pasted on
    a white RGB canvas.  The mask is the last band when the image has more
    than three bands, and no mask otherwise; the two calls of [img.split()]
    in the mask expression return the same bands. *)
Definition to_rgb (img : image) : exception + image :=
  if bool_decide (mode img ∈ ["RGBA"; "LA"; "P"]) then
    let rgb_img := Image_new "RGB" (size img) (255, 255, 255) in
    img ← (if bool_decide (mode img = "P")
           then image_convert img "RGBA" else inr img);
    if bool_decide (mode img ∈ ["RGBA"; "LA"]) then
      bands ← image_split img;
      image_paste rgb_img img
        (if bool_decide (3 < length bands)%nat then last bands else None)
    else inr rgb_img
  else inr img.

(** The first loop of [image_to_pdf], and then the rest of the [try] body. *)
Fixpoint verify_exist (todo : list string) (after : M bool) : M bool :=
  match todo with
  | [] => after
  | img_file :: todo' =>
      found ← os_path_exists img_file;
      if negb found then
        echo (Stderr ("Error: File not found: " +:+ img_file));;
        mret false
      else verify_exist todo' after
  end.

(** The body of the second loop of [image_to_pdf]: the JPEG bytes appended
    to [processed_images]. *)
Definition process_image (s : settings) (img_file : string) : M bytes :=
  echo (Stdout ("Processing: " +:+ img_file));;
  data ← read_file img_file;
  img ← lift (Image_open data);
  img ← lift (to_rgb img);
  lift (image_save_jpeg img (jpeg_quality s) (optimize_flag s)
          (Some (dpi s, dpi s))).

Fixpoint process_images (s : settings) (image_files : list string)
    : M (list bytes) :=
  match image_files with
  | [] => mret []
  | img_file :: rest =>
      img_bytes ← process_image s img_file;
      processed_images ← process_images s rest;
      mret (img_bytes :: processed_images)
  end.

(** [with open(output_file, "wb") as f: f.write(data ())], where [data] is
    computed once the file is open. *)
Definition open_and_write (output_file : string) (data : exception + bytes)
    : M unit :=
  f ← get_fs;
  match open_wb output_file f with
  | Some e => raise (Exc e)
  | None =>
      put_fs (set_file output_file [] f);;
      content ← lift data;
      f' ← get_fs;
      match file_write output_file content f' with
      | None => put_fs (set_file output_file content f')
      | Some (n, e) =>
          put_fs (set_file output_file (take n content) f');;
          raise (Exc e)
      end
  end.

Definition image_to_pdf (self : converter) (image_files : list string)
    (output_file : string) : M bool :=
  try_except
    (verify_exist image_files (
       settings ← get_settings self;
       processed_images ← process_images settings image_files;
       open_and_write output_file (img2pdf_convert processed_images);;
       echo (Stdout ("Successfully converted "
                     +:+ pretty (length image_files)
                     +:+ " images to " +:+ output_file));;
       mret true))
    (λ e, echo (StderrExc "Error converting images to PDF: " e);; mret false).

(** *** optimize_pdf *)

Definition is_image (o : pdfobj) : bool :=
  bool_decide (Subtype o = Some "/Image").

(** The body of the inner [try]: the object to write back, if any. *)
Definition recompress (s : settings) (obj : pdfobj)
    : exception + option pdfobj :=
  raw_image ← read_bytes obj;
  if bool_decide (1024 < length raw_image)%nat then
    img ← Image_open raw_image;
    img ← to_rgb img;
    img_bytes ← image_save_jpeg img (jpeg_quality s) (optimize_flag s) None;
    inr (Some (obj_write img_bytes "/DCTDecode" obj))
  else inr None.

Definition warning (name : string) (img_error : exception) : line :=
  StderrExc ("Warning: Could not optimize image " +:+ name +:+ ": ") img_error.

(** What pikepdf raises for [key in obj] when [obj] is neither a dictionary
    nor a stream. *)
Definition not_a_dictionary : exception :=
  LibraryError "pikepdf.Object is not a Dictionary or Stream".

(** The body of [for name in xobjects], on the document's object table.
    The test of line 161 stands before the inner [try]: what it raises on an
    entry that is no dictionary leaves the loops. *)
Definition optimize_xobject (s : settings) (objs : gmap nat pdfobj)
    (entry : string * nat) : M (gmap nat pdfobj) :=
  match objs !! entry.2 with
  | None => raise (Exc not_a_dictionary)
  | Some obj =>
      if is_image obj then
        try_except
          (written ← lift (recompress s obj);
           mret (match written with
                 | Some obj' => <[entry.2 := obj']> objs
                 | None => objs
                 end))
          (λ img_error, echo (warning entry.1 img_error);; mret objs)
      else mret objs
  end.

(** The body of [for page in pdf.pages]. *)
Definition optimize_page (s : settings) (objs : gmap nat pdfobj) (pg : page)
    : M (gmap nat pdfobj) :=
  match page_Resources pg with
  | Some res =>
      match XObject res with
      | Some xobjects => for_fold (optimize_xobject s) xobjects objs
      | None => mret objs
      end
  | None => mret objs
  end.

(** The loops inside [with pikepdf.open(input_file) as pdf], up to the save. *)
Definition optimize_images (s : settings) (doc : pdf) : M pdf :=
  objs ← for_fold (optimize_page s) (pages doc) (objects doc);
  mret {| pages := pages doc; objects := objs |}.

(** Python's [/] on integers, in binary64.  The conversion is that of
    CPython for integers below 2^53 in absolute value, which a file size is;
    there [a / b] is the division of the converted operands. *)
Definition float_of_Z (z : Z) : float :=
  match z with
  | Zneg _ => PrimFloat.opp (PrimFloat.of_uint63 (Uint63.of_Z (- z)))
  | _ => PrimFloat.of_uint63 (Uint63.of_Z z)
  end.

Definition true_div (a b : Z) : exception + float :=
  if bool_decide (b = 0) then inl ZeroDivisionError
  else inr (PrimFloat.div (float_of_Z a) (float_of_Z b)).

(** [((original_size - optimized_size) / original_size) * 100] *)
Definition reduction_of (original_size optimized_size : Z)
    : exception + float :=
  ratio ← true_div (original_size - optimized_size) original_size;
  inr (PrimFloat.mul ratio (float_of_Z 100)).

Definition optimize_pdf (self : converter) (input_file output_file : string)
    : M bool :=
  try_except
    (found ← os_path_exists input_file;
     if negb found then
       echo (Stderr ("Error: File not found: " +:+ input_file));;
       mret false
     else
       echo (Stdout ("Optimizing: " +:+ input_file));;
       settings ← get_settings self;
       data ← read_file input_file;
       doc ← lift (pikepdf_open data);
       doc' ← optimize_images settings doc;
       write_to output_file (pdf_save doc' output_file);;
       original_size ← os_path_getsize input_file;
       optimized_size ← os_path_getsize output_file;
       reduction ← lift (reduction_of original_size optimized_size);
       echo (Stdout "Successfully optimized PDF:");;
       original_kb ← lift (true_div original_size 1024);
       echo (StdoutFixed2 "  Original size: " original_kb " KB");;
       optimized_kb ← lift (true_div optimized_size 1024);
       echo (StdoutFixed2 "  Optimized size: " optimized_kb " KB");;
       echo (StdoutFixed2 "  Reduction: " reduction "%");;
       mret true)
    (λ e, echo (StderrExc "Error optimizing PDF: " e);; mret false).

(** ** The commands *)

(** What click does with an argument it refuses: a usage message on standard
    error and exit code 2, before the command's function is called. *)
Definition usage_error {A} (param : string) : M A :=
  echo (Stderr ("Error: Invalid value for " +:+ param));;
  sys_exit 2.

(** [type=click.Path(exists=True)] on every value of a parameter *)
Definition click_Path_exists (param : string) (values : list string) : M unit :=
  for_each values (λ p,
    found ← os_path_exists p;
    if found : bool then mret tt else usage_error param).

(** [type=click.Choice(choices), default=default] *)
Definition click_Choice (param : string) (choices : list string)
    (default : string) (value : option string) : M string :=
  match value with
  | None => mret default
  | Some v =>
      if bool_decide (v ∈ choices) then mret v else usage_error param
  end.

Definition click_quality : option string → M string :=
  click_Choice "'-q' / '--quality'" ["high"; "medium"; "low"] "high".

(** [nargs=-1, required=True] *)
Definition click_required (param : string) (values : list string) : M unit :=
  match values with
  | [] => usage_error param
  | _ => mret tt
  end.

Definition merge (input_files : list string) (output : string) : M unit :=
  let converter := PDFConverter None in
  success ← merge_pdfs converter input_files output;
  sys_exit (if success : bool then 0 else 1).

Definition convert (image_files : list string) (output : string)
    (quality : string) : M unit :=
  let converter := PDFConverter (Some quality) in
  success ← image_to_pdf converter image_files output;
  sys_exit (if success : bool then 0 else 1).

Definition optimize (input_file output : string) (quality : string) : M unit :=
  let converter := PDFConverter (Some quality) in
  success ← optimize_pdf converter input_file output;
  sys_exit (if success : bool then 0 else 1).

(** The [finally] block of [batch]. *)
Definition batch_cleanup (temp_dir : string) : M unit :=
  temp_files ← get_temp_files;
  for_each temp_files (λ temp_file,
    found ← os_path_exists temp_file;
    if found : bool then try_except_OSError (os_remove temp_file)
    else mret tt);;
  try_except_OSError (os_rmdir temp_dir).

Definition batch (image_files pdf_files : list string) (output : string)
    (quality : string) : M unit :=
  let converter := PDFConverter (Some quality) in
  set_temp_files [];;
  temp_dir ← tempfile_mkdtemp;
  (if bool_decide (image_files = []) && bool_decide (pdf_files = []) then
     echo (Stderr
       "Error: At least one image file or PDF file must be provided");;
     sys_exit 1
   else mret tt);;
  try_finally
    ((if negb (bool_decide (image_files = [])) then
        let temp_img_pdf := path_join temp_dir "temp_images.pdf" in
        ok ← image_to_pdf converter image_files temp_img_pdf;
        (if negb ok then sys_exit 1 else mret tt);;
        temp_files ← get_temp_files;
        set_temp_files (temp_files ++ [temp_img_pdf])
      else mret tt);;
     temp_files ← get_temp_files;
     let all_pdfs := temp_files ++ pdf_files in
     let temp_merged := path_join temp_dir "temp_merged.pdf" in
     ok ← merge_pdfs converter all_pdfs temp_merged;
     (if negb ok then sys_exit 1 else mret tt);;
     temp_files ← get_temp_files;
     set_temp_files (temp_files ++ [temp_merged]);;
     ok ← optimize_pdf converter temp_merged output;
     (if negb ok then sys_exit 1 else mret tt);;
     echo (Stdout (String "010"%char "Batch processing complete: "
                   +:+ output));;
     sys_exit 0)
    (batch_cleanup temp_dir).

(** The commands as click runs them: the declared parameters are checked in
    the order of their decorators' declaration, then the function is called. *)
Definition cli_merge (input_files : list string) (output : string) : M unit :=
  click_required "'INPUT_FILES...'" input_files;;
  click_Path_exists "'INPUT_FILES...'" input_files;;
  merge input_files output.

Definition cli_convert (image_files : list string) (output : string)
    (quality : option string) : M unit :=
  click_required "'IMAGE_FILES...'" image_files;;
  click_Path_exists "'IMAGE_FILES...'" image_files;;
  quality ← click_quality quality;
  convert image_files output quality.

Definition cli_optimize (input_file output : string)
    (quality : option string) : M unit :=
  click_Path_exists "'INPUT_FILE'" [input_file];;
  quality ← click_quality quality;
  optimize input_file output quality.

Definition cli_batch (image_files pdf_files : list string) (output : string)
    (quality : option string) : M unit :=
  click_Path_exists "'[IMAGE_FILES]...'" image_files;;
  click_Path_exists "'--pdf'" pdf_files;;
  quality ← click_quality quality;
  batch image_files pdf_files output quality.

End Program.

(** * Vocabulary of the statements *)

(** The table of presets. *)
Definition presets : list (string * settings) :=
  [ ("high", {| dpi := 300; jpeg_quality := 95; optimize_flag := true |});
    ("medium", {| dpi := 200; jpeg_quality := 85; optimize_flag := true |});
    ("low", {| dpi := 150; jpeg_quality := 75; optimize_flag := true |}) ].

(** The world after the lines [ls] were printed. *)
Definition say (ls : list line) (w : world) : world :=
  {| fs := fs w; console := console w ++ ls; temp_files := temp_files w |}.

(** A run that click ended with a usage error: exit code 2, nothing written. *)
Definition rejected (r : outcome unit * world) (w : world) : Prop :=
  r.1 = Raise (SystemExit 2) ∧ fs r.2 = fs w ∧ temp_files r.2 = temp_files w.

(** [p in s] on strings *)
Fixpoint contains (p s : string) : bool :=
  String.prefix p s ||
  match s with
  | EmptyString => false
  | String _ s' => contains p s'
  end.

Definition exception_text (e : exception) : string :=
  match e with
  | KeyError key => key
  | ZeroDivisionError => "division by zero"
  | OSError msg => msg
  | LibraryError msg => msg
  end.

(** The line [l] names the path [p]. *)
Definition mentions (p : string) (l : line) : bool :=
  match l with
  | Stdout text | Stderr text => contains p text
  | StderrExc text e => contains p text || contains p (exception_text e)
  | StdoutFixed2 text _ suffix => contains p text || contains p suffix
  end.

(** Two object tables that differ at most in the stream (data, [/Filter],
    [/DecodeParms]) of image objects, the new filter being DCTDecode. *)
Definition only_image_streams_differ (objs objs' : gmap nat pdfobj) : Prop :=
  ∀ ref,
    objs' !! ref = objs !! ref
    ∨ ∃ obj data,
        objs !! ref = Some obj ∧ is_image obj = true
        ∧ objs' !! ref = Some (obj_write data "/DCTDecode" obj).

(** The four lines [optimize_pdf] prints on success. *)
Definition size_report (original_size optimized_size : Z) : list line :=
  [ Stdout "Successfully optimized PDF:";
    StdoutFixed2 "  Original size: "
      (PrimFloat.div (float_of_Z original_size) (float_of_Z 1024)) " KB";
    StdoutFixed2 "  Optimized size: "
      (PrimFloat.div (float_of_Z optimized_size) (float_of_Z 1024)) " KB";
    StdoutFixed2 "  Reduction: "
      (PrimFloat.mul
         (PrimFloat.div (float_of_Z (original_size - optimized_size))
            (float_of_Z original_size))
         (float_of_Z 100)) "%" ].

(** [os.path.getsize] of a file that exists. *)
Definition size_of (p : string) (f : filesystem) : Z :=
  from_option (λ data : bytes, Z.of_nat (length data)) 0 (files f !! p).

(** The entries of the XObject table of a page, in the order of the loop. *)
Definition page_xobjects (pg : page) : list (string * nat) :=
  match page_Resources pg with
  | Some res => default [] (XObject res)
  | None => []
  end.

(** The entries the two loops of [optimize_pdf] go through, page after
    page. *)
Definition xobject_entries (doc : pdf) : list (string * nat) :=
  pg ← pages doc; page_xobjects pg.

(** The entry points to a dictionary or a stream of the table. *)
Definition resolves (objs : gmap nat pdfobj) (entry : string * nat) : Prop :=
  is_Some (objs !! entry.2).

(** [x] stands once in [l]. *)
Definition once {A} (x : A) (l : list A) : Prop :=
  ∃ pre post, l = pre ++ x :: post ∧ (x ∉ pre) ∧ (x ∉ post).

(** The world when the loops of [optimize_pdf] begin. *)
Definition started (input_file : string) (w : world) : world :=
  say [Stdout ("Optimizing: " +:+ input_file)] w.

Section Vocabulary.
Context `{Externals}.

(** The object is not written when the loop visits it (again): its bytes do
    not read, are at most 1024 long, or do not decode, flatten or encode. *)
Definition settled (s : settings) (obj : pdfobj) : Prop :=
  ∀ again, recompress s obj ≠ inr (Some again).

(** What the loop of [merge_pdfs] prints and builds over files that all
    exist: one line per file up to the first one PyPDF2 refuses. *)
Fixpoint append_trace (merger : Merger) (todo : list string) (f : filesystem)
    : list line * (exception + Merger) :=
  match todo with
  | [] => ([], inr merger)
  | pdf_file :: todo' =>
      match merger_append merger pdf_file f with
      | inl e => ([Stdout ("Adding: " +:+ pdf_file)], inl e)
      | inr merger' =>
          let r := append_trace merger' todo' f in
          (Stdout ("Adding: " +:+ pdf_file) :: r.1, r.2)
      end
  end.

(** [rgb] is [img] flattened to RGB onto white where it carries alpha or a
    palette, in the words of the specification: an image of another mode is
    kept; an image with an alpha band (RGBA, LA) is pasted on a white canvas
    of its size through that band, the last of its bands; a palette image is
    converted to RGBA first. *)
Inductive flattened_on_white (img : image) : image → Prop :=
| opaque_kept :
    mode img ∉ ["RGBA"; "LA"; "P"] → flattened_on_white img img
| alpha_on_white (bands : list image) (alpha rgb : image) :
    mode img ∈ ["RGBA"; "LA"] →
    image_split img = inr bands → last bands = Some alpha →
    image_paste (Image_new "RGB" (size img) (255, 255, 255)) img (Some alpha)
    = inr rgb →
    flattened_on_white img rgb
| palette_on_white (src : image) (bands : list image) (alpha rgb : image) :
    mode img = "P" →
    image_convert img "RGBA" = inr src →
    image_split src = inr bands → last bands = Some alpha →
    image_paste (Image_new "RGB" (size img) (255, 255, 255)) src (Some alpha)
    = inr rgb →
    flattened_on_white img rgb.

(** The ways the inner [try] of [optimize_pdf] fails on an image object. *)
Inductive image_failure (s : settings) (obj : pdfobj) : exception → Prop :=
| read_failure e :
    read_bytes obj = inl e → image_failure s obj e
| decode_failure raw e :
    read_bytes obj = inr raw → (1024 < length raw)%nat →
    Image_open raw = inl e → image_failure s obj e
| flatten_failure raw img e :
    read_bytes obj = inr raw → (1024 < length raw)%nat →
    Image_open raw = inr img → to_rgb img = inl e → image_failure s obj e
| encode_failure raw img rgb e :
    read_bytes obj = inr raw → (1024 < length raw)%nat →
    Image_open raw = inr img → to_rgb img = inr rgb →
    image_save_jpeg rgb (jpeg_quality s) (optimize_flag s) None = inl e →
    image_failure s obj e.

End Vocabulary.

(** * Vocabulary of the statements on whole runs *)

(** Two file systems with the same directories and the same files, the file
    at [out] apart. *)
Definition same_but (out : string) (f f' : filesystem) : Prop :=
  dirs f' = dirs f ∧ ∀ p, p ≠ out → files f' !! p = files f !! p.

(** The object references in the XObject tables of the pages. *)
Definition page_refs (doc : pdf) : list nat :=
  pg ← pages doc;
  match page_Resources pg with
  | Some res => (default [] (XObject res)).*2
  | None => []
  end.

Section Traces.
Context `{Externals}.

(** The JPEG bytes the program makes of the bytes of one image: decoded,
    made RGB, saved at the preset's quality with the DPI tag [dpi_tag]. *)
Definition jpeg_of (s : settings) (dpi_tag : option (Z * Z)) (data : bytes)
    : exception + bytes :=
  img ← Image_open data;
  rgb ← to_rgb img;
  image_save_jpeg rgb (jpeg_quality s) (optimize_flag s) dpi_tag.

(** What the second loop of [image_to_pdf] prints and collects: one line
    per image up to the first one that fails. *)
Fixpoint process_trace (s : settings) (image_files : list string)
    (f : filesystem) : list line * (exception + list bytes) :=
  match image_files with
  | [] => ([], inr [])
  | img_file :: rest =>
      match files f !! img_file with
      | None => ([Stdout ("Processing: " +:+ img_file)], inl (OSError img_file))
      | Some data =>
          match jpeg_of s (Some (dpi s, dpi s)) data with
          | inl e => ([Stdout ("Processing: " +:+ img_file)], inl e)
          | inr img_bytes =>
              let r := process_trace s rest f in
              (Stdout ("Processing: " +:+ img_file) :: r.1,
               match r.2 with
               | inl e => inl e
               | inr processed_images => inr (img_bytes :: processed_images)
               end)
          end
      end
  end.

(** The body of the [try] of [batch] (lines 303-324). *)
Definition batch_steps (image_files pdf_files : list string)
    (output quality temp_dir : string) : M unit :=
  let converter := PDFConverter (Some quality) in
  (if negb (bool_decide (image_files = [])) then
     let temp_img_pdf := path_join temp_dir "temp_images.pdf" in
     ok ← image_to_pdf converter image_files temp_img_pdf;
     (if negb ok then sys_exit 1 else mret tt);;
     temp_files ← get_temp_files;
     set_temp_files (temp_files ++ [temp_img_pdf])
   else mret tt);;
  temp_files ← get_temp_files;
  let all_pdfs := temp_files ++ pdf_files in
  let temp_merged := path_join temp_dir "temp_merged.pdf" in
  ok ← merge_pdfs converter all_pdfs temp_merged;
  (if negb ok then sys_exit 1 else mret tt);;
  temp_files ← get_temp_files;
  set_temp_files (temp_files ++ [temp_merged]);;
  ok ← optimize_pdf converter temp_merged output;
  (if negb ok then sys_exit 1 else mret tt);;
  echo (Stdout (String "010"%char "Batch processing complete: "
                +:+ output));;
  sys_exit 0.

End Traces.


(** * A small library instance, to run the program on concrete inputs

    Files are PDF documents or images by their bytes: an empty file is
    refused by every reader, an image whose first byte is zero does not
    decode, and a document read by pikepdf has one page with one image
    [/Im0] holding the file's bytes. *)
Module Toy.

Definition decode (data : bytes) : exception + image :=
  match data with
  | [] => inl (LibraryError "cannot identify image file")
  | Byte.x00 :: _ => inl (LibraryError "cannot identify image file")
  | _ => inr {| mode := "RGB"; size := (1, 1)%nat; pixels := data |}
  end.

Definition parse (data : bytes) : exception + pdf :=
  match data with
  | [] => inl (LibraryError "Cannot read an empty file")
  | _ =>
      inr {| pages :=
               [ {| page_Resources :=
                      Some {| XObject := Some [("/Im0", 1%nat)];
                              resource_entries := [] |};
                    page_entries := [] |} ];
             objects :=
               {[ 1%nat := {| Subtype := Some "/Image"; Filter := None;
                              DecodeParms := None; stream_data := data;
                              obj_entries := [] |} ]} |}
  end.

Definition serialize (doc : pdf) : bytes :=
  Byte.x25 :: mjoin (stream_data <$> (map_to_list (objects doc)).*2).

(** The instance, given what img2pdf does. *)
Definition lib_with (img2pdf : list bytes → exception + bytes) : Externals := {|
  Merger := list bytes;
  PdfMerger := [];
  merger_append := λ m p f,
    match files f !! p with
    | Some [] => inl (LibraryError "Cannot read an empty file")
    | Some data => inr (m ++ [data])
    | None => inl (OSError p)
    end;
  merger_write := λ m p f, WriteOk (mjoin m);
  Image_open := decode;
  Image_new := λ m sz c, {| mode := m; size := sz; pixels := [] |};
  image_convert := λ img m,
    inr {| mode := m; size := size img; pixels := pixels img |};
  image_split := λ img, inr [img];
  image_paste := λ canvas img mask,
    inr {| mode := mode canvas; size := size canvas; pixels := pixels img |};
  image_save_jpeg := λ img q o d, inr (take 16 (pixels img));
  img2pdf_convert := img2pdf;
  open_wb := λ p f, None;
  file_write := λ p d f, None;
  pikepdf_open := parse;
  read_bytes := λ o, inr (stream_data o);
  pdf_save := λ doc p f, WriteOk (serialize doc);
  mkdtemp := λ f, inr "/tmp/tmp0";
  remove_denied := λ p f, false;
  rmdir_denied := λ p f, false
|}.

Definition lib : Externals := lib_with (λ imgs, inr (Byte.x25 :: mjoin imgs)).

(** An img2pdf that refuses every image. *)
Definition lib_img2pdf_fails : Externals :=
  lib_with (λ imgs, inl (LibraryError "Invalid image dimensions")).

Definition empty_fs : filesystem := {| files := ∅; dirs := ∅ |}.

Definition world_of (f : filesystem) : world :=
  {| fs := f; console := []; temp_files := [] |}.

(** One sound two-byte document, one empty file, one image. *)
Definition some_files : filesystem :=
  {| files := {[ "a.pdf" := [Byte.x01; Byte.x02]; "bad.pdf" := [];
                 "scan.png" := [Byte.x89; Byte.x50] ]};
     dirs := ∅ |}.

(** An image object of [n] bytes, the first of them [b]. *)
Definition image_obj (b : Byte.byte) (n : nat) : pdfobj :=
  {| Subtype := Some "/Image"; Filter := Some "/FlateDecode";
     DecodeParms := None; stream_data := b :: replicate (pred n) Byte.x01;
     obj_entries := [] |}.

Definition high : settings :=
  {| dpi := 300; jpeg_quality := 95; optimize_flag := true |}.

End Toy.

(** * Further instances and inputs for the statements on whole runs *)
Module Scenario.

(** The bands Pillow splits an image into: four for RGBA, two for LA, three
    for RGB and one otherwise, each named by its letter; the alpha band
    comes last. *)
Definition bands_of (img : image) : list image :=
  (λ c, {| mode := "L"; size := size img; pixels := [c] |}) <$>
    (if bool_decide (mode img = "RGBA")
     then [Byte.x52; Byte.x47; Byte.x42; Byte.x41]
     else if bool_decide (mode img = "LA") then [Byte.x4c; Byte.x41]
     else if bool_decide (mode img = "RGB") then [Byte.x52; Byte.x47; Byte.x42]
     else [Byte.x4c]).

(** A decoder that tells the mode by the first byte: a PNG signature is an
    RGBA image, [L] an LA image, [P] a palette image. *)
Definition decode (data : bytes) : exception + image :=
  match data with
  | [] => inl (LibraryError "cannot identify image file")
  | Byte.x00 :: _ => inl (LibraryError "cannot identify image file")
  | Byte.x89 :: _ => inr {| mode := "RGBA"; size := (1, 1)%nat; pixels := data |}
  | Byte.x4c :: _ => inr {| mode := "LA"; size := (1, 1)%nat; pixels := data |}
  | Byte.x50 :: _ => inr {| mode := "P"; size := (1, 1)%nat; pixels := data |}
  | _ => inr {| mode := "RGB"; size := (1, 1)%nat; pixels := data |}
  end.

(** A paste that shows whether it was given a mask. *)
Definition paste (canvas img : image) (mask : option image)
    : exception + image :=
  inr {| mode := mode canvas; size := size canvas;
         pixels := match mask with
                   | Some m => pixels m ++ pixels img
                   | None => pixels img
                   end |}.

(** A stream is twice as long once it is inflated. *)
Definition inflated (o : pdfobj) : bytes := stream_data o ++ stream_data o.

(** [read_bytes] as pikepdf has it: a FlateDecode stream is decoded, a
    DCTDecode stream is refused. *)
Definition read (o : pdfobj) : exception + bytes :=
  if bool_decide (Filter o = Some "/DCTDecode")
  then inl (LibraryError "unfilterable stream")
  else if bool_decide (Filter o = Some "/FlateDecode")
  then inr (inflated o)
  else inr (stream_data o).

(** [Toy.lib] with these Pillow and pikepdf calls, given what opening a
    document and writing a merged document do. *)
Definition lib_of (open_pdf : bytes → exception + pdf)
    (write_merged : list bytes → string → filesystem → write_outcome)
    : Externals := {|
  Merger := list bytes;
  PdfMerger := [];
  merger_append := @merger_append Toy.lib;
  merger_write := write_merged;
  Image_open := decode;
  Image_new := @Image_new Toy.lib;
  image_convert := @image_convert Toy.lib;
  image_split := λ img, inr (bands_of img);
  image_paste := paste;
  image_save_jpeg := @image_save_jpeg Toy.lib;
  img2pdf_convert := @img2pdf_convert Toy.lib;
  open_wb := @open_wb Toy.lib;
  file_write := @file_write Toy.lib;
  pikepdf_open := open_pdf;
  read_bytes := read;
  pdf_save := @pdf_save Toy.lib;
  mkdtemp := @mkdtemp Toy.lib;
  remove_denied := @remove_denied Toy.lib;
  rmdir_denied := @rmdir_denied Toy.lib
|}.

(** A PyPDF2 whose write fails after the first byte. *)
Definition lib_disk_full : Externals :=
  lib_of Toy.parse
    (λ m p f, WriteFailed (Some (take 1 (mjoin m)))
                (OSError "No space left on device")).

(** A pikepdf that reads every file that is not empty as [doc]. *)
Definition lib_on (doc : pdf) : Externals :=
  lib_of (λ data, match data with
                  | [] => inl (LibraryError "Cannot read an empty file")
                  | _ => inr doc
                  end)
    (@merger_write Toy.lib).

(** One page with the entries [entries]. *)
Definition one_page (entries : list (string * nat)) : list page :=
  [ {| page_Resources :=
         Some {| XObject := Some entries; resource_entries := [] |};
       page_entries := [] |} ].

(** Three images: one that decodes above the threshold, one that decodes
    below it, and one whose stream is below the threshold as it is stored
    and above it once decoded. *)
Definition three_images : pdf :=
  {| pages := one_page [("/Im0", 1%nat); ("/Im1", 2%nat); ("/Im2", 3%nat)];
     objects := {[ 1%nat := Toy.image_obj Byte.x89 1025;
                   2%nat := Toy.image_obj Byte.x89 400;
                   3%nat := Toy.image_obj Byte.x89 600 ]} |}.

(** An image that does not decode, before one that does. *)
Definition bad_then_good : pdf :=
  {| pages := one_page [("/Bad", 1%nat); ("/Im1", 2%nat)];
     objects := {[ 1%nat := Toy.image_obj Byte.x00 1025;
                   2%nat := Toy.image_obj Byte.x89 1025 ]} |}.

(** An image, then an entry that points to no dictionary or stream. *)
Definition stray_entry : pdf :=
  {| pages := one_page [("/Im0", 1%nat); ("/Num", 7%nat)];
     objects := {[ 1%nat := Toy.image_obj Byte.x89 1025 ]} |}.

(** Two pages that show the same image, object 1; object 2 is an image
    that no page shows. *)
Definition two_pages : pdf :=
  {| pages :=
       [ {| page_Resources :=
              Some {| XObject := Some [("/Im0", 1%nat)];
                      resource_entries := [] |};
            page_entries := [] |};
         {| page_Resources :=
              Some {| XObject := Some [("/Logo", 1%nat)];
                      resource_entries := [] |};
            page_entries := [] |} ];
     objects := {[ 1%nat := Toy.image_obj Byte.x89 1025;
                   2%nat := Toy.image_obj Byte.x89 2000 ]} |}.

End Scenario.


(** * Properties *)

Ltac unfold_M :=
  repeat (progress
    unfold mbind, M_bind, mret, M_ret, lift, raise, sys_exit, echo, get_fs,
      put_fs, get_temp_files, set_temp_files, os_path_exists in * );
  cbv beta iota zeta in *.

Section Properties.
Context `{Externals}.

Implicit Types (w : world) (q : string) (s : settings).

(** ** The presets *)

Lemma preset_lookup q s :
  (q, s) ∈ presets → quality_settings (PDFConverter (Some q)) !! q = Some s.
Proof.
  unfold presets. rewrite !elem_of_cons, elem_of_nil.
  intros [E | [E | [E | []]]]; inversion E; subst; reflexivity.
Qed.

Lemma no_preset_lookup (arg : option string) q :
  q ∉ ["high"; "medium"; "low"] → quality_settings (PDFConverter arg) !! q = None.
Proof.
  rewrite !not_elem_of_cons. intros (Hh & Hm & Hl & _). simpl.
  rewrite !lookup_insert_ne by congruence. apply lookup_empty.
Qed.

Lemma get_settings_invalid q w :
  q ∉ ["high"; "medium"; "low"] →
  get_settings (PDFConverter (Some q)) w = (Raise (Exc (KeyError q)), w).
Proof.
  intros Hq. unfold get_settings.
  change (quality (PDFConverter (Some q))) with q.
  rewrite (no_preset_lookup (Some q) q Hq). reflexivity.
Qed.

(** ** Missing files *)

Lemma verify_exist_all (todo : list string) (after : M bool) w :
  Forall (λ p, path_exists p (fs w) = true) todo →
  verify_exist todo after w = after w.
Proof.
  induction 1 as [| p todo Hp _ IH]; [reflexivity |].
  cbn [verify_exist]. unfold_M. rewrite Hp. exact IH.
Qed.

(** ** The quality label *)

(** C9: merging does not read the quality preset: under any two labels,
    valid or not, or with the label omitted, a merge of the same files to the
    same output in the same world ends with the same result, the same file
    system and the same console. *)
Theorem merge_pdfs_ignores_quality (q1 q2 : option string)
    (input_files : list string) (output_file : string) w :
  merge_pdfs (PDFConverter q1) input_files output_file w
  = merge_pdfs (PDFConverter q2) input_files output_file w.
Proof. reflexivity. Qed.

(** ** The command line *)

Lemma usage_error_rejected (param : string) w :
  rejected (usage_error param w) w.
Proof. repeat split. Qed.

Lemma click_required_cases (param : string) (values : list string) w :
  click_required param values w = (Return tt, w)
  ∨ rejected (click_required param values w) w.
Proof.
  destruct values; [right; apply usage_error_rejected | left; reflexivity].
Qed.

Lemma click_Path_exists_cases (param : string) (values : list string) w :
  click_Path_exists param values w = (Return tt, w)
  ∨ rejected (click_Path_exists param values w) w.
Proof.
  unfold click_Path_exists.
  induction values as [| p values IH]; [left; reflexivity |].
  cbn [for_each]. unfold_M.
  destruct (path_exists p (fs w)); [exact IH | right; repeat split].
Qed.

Lemma click_quality_valid q w :
  q ∈ ["high"; "medium"; "low"] → click_quality (Some q) w = (Return q, w).
Proof.
  intros Hq. unfold click_quality, click_Choice.
  rewrite bool_decide_eq_true_2 by exact Hq. reflexivity.
Qed.

Lemma click_quality_invalid q w :
  q ∉ ["high"; "medium"; "low"] →
  click_quality (Some q) w = usage_error "'-q' / '--quality'" w.
Proof.
  intros Hq. unfold click_quality, click_Choice.
  rewrite bool_decide_eq_false_2 by exact Hq. reflexivity.
Qed.

Lemma rejected_after (m : M unit) (k : unit → M unit) w :
  m w = (Return tt, w) ∨ rejected (m w) w →
  rejected (k tt w) w →
  rejected ((m ≫= k) w) w.
Proof.
  unfold mbind, M_bind. intros [-> | (E & Hfs & Htf)] Hk; [exact Hk |].
  destruct (m w) as [[[] | r] w']; simpl in *; [discriminate |].
  injection E as ->. repeat split; assumption.
Qed.

(** C3: a label among high, medium and low binds the converter to its row
    of the table; the omitted label is "high", in the constructor and on the
    command line; any other label given to [convert], [optimize] or [batch]
    ends the run in click's usage error, exit code 2, with nothing written,
    so that no converter method runs. *)
Theorem quality_label_selects_preset q (image_files pdf_files : list string)
    (input_file output : string) w :
  (∀ s, (q, s) ∈ presets →
     get_settings (PDFConverter (Some q)) w = (Return s, w))
  ∧ presets
    = [ ("high", {| dpi := 300; jpeg_quality := 95; optimize_flag := true |});
        ("medium", {| dpi := 200; jpeg_quality := 85; optimize_flag := true |});
        ("low", {| dpi := 150; jpeg_quality := 75; optimize_flag := true |}) ]
  ∧ PDFConverter None = PDFConverter (Some "high")
  ∧ click_quality None w = (Return "high", w)
  ∧ (q ∉ ["high"; "medium"; "low"] →
     rejected (cli_convert image_files output (Some q) w) w
     ∧ rejected (cli_optimize input_file output (Some q) w) w
     ∧ rejected (cli_batch image_files pdf_files output (Some q) w) w).
Proof.
  split; [| split; [reflexivity | split; [reflexivity | split; [reflexivity |]]]].
  - intros s Hs. unfold get_settings.
    change (quality (PDFConverter (Some q))) with q.
    rewrite (preset_lookup q s Hs). reflexivity.
  - intros Hq.
    assert (Hbad : ∀ k, rejected ((click_quality (Some q) ≫= k) w) w).
    { intros k. unfold mbind, M_bind.
      rewrite click_quality_invalid by exact Hq. repeat split. }
    split; [| split].
    + apply rejected_after; [apply click_required_cases |].
      apply rejected_after; [apply click_Path_exists_cases | apply Hbad].
    + apply rejected_after; [apply click_Path_exists_cases | apply Hbad].
    + apply rejected_after; [apply click_Path_exists_cases |].
      apply rejected_after; [apply click_Path_exists_cases | apply Hbad].
Qed.

(** ** Missing input files *)

Lemma first_missing_split (l : list string) (f : filesystem) :
  (∃ p, p ∈ l ∧ path_exists p f = false) →
  ∃ pre p post,
    l = pre ++ p :: post
    ∧ Forall (λ x, path_exists x f = true) pre
    ∧ path_exists p f = false.
Proof.
  induction l as [| x l IH]; intros (p & Hin & Hp).
  - inversion Hin.
  - destruct (path_exists x f) eqn:Hx.
    + destruct IH as (pre & p' & post & -> & Hpre & Hp').
      { exists p. split; [| exact Hp].
        apply elem_of_cons in Hin as [-> |]; [congruence | assumption]. }
      exists (x :: pre), p', post. split; [reflexivity |].
      split; [constructor; assumption | assumption].
    + exists [], x, l. split; [reflexivity |]. split; [constructor | exact Hx].
Qed.

Lemma prefix_refl (p : string) : String.prefix p p = true.
Proof.
  induction p as [| c p IH]; [reflexivity |].
  simpl. destruct (ascii_dec c c); [exact IH | congruence].
Qed.

Lemma contains_app_r (p s : string) : contains p (s +:+ p) = true.
Proof.
  induction s as [| c s IH].
  - change ("" +:+ p) with p.
    destruct p; simpl; [reflexivity |]. rewrite prefix_refl.
    destruct (ascii_dec a a); [reflexivity | congruence].
  - change (String c s +:+ p) with (String c (s +:+ p)).
    cbn [contains]. rewrite IH. apply orb_true_r.
Qed.

Lemma not_found_mentions (p : string) :
  mentions p (Stderr ("Error: File not found: " +:+ p)) = true.
Proof. apply contains_app_r. Qed.

Lemma verify_exist_missing (pre post : list string) (p : string)
    (after : M bool) w :
  Forall (λ x, path_exists x (fs w) = true) pre →
  path_exists p (fs w) = false →
  verify_exist (pre ++ p :: post) after w
  = (Return false, say [Stderr ("Error: File not found: " +:+ p)] w).
Proof.
  intros Hpre Hp. induction Hpre as [| x pre Hx _ IH].
  - cbn [app verify_exist]. unfold_M. rewrite Hp. reflexivity.
  - cbn [app verify_exist]. unfold_M. rewrite Hx. exact IH.
Qed.

Lemma say_say (l1 l2 : list line) w : say l2 (say l1 w) = say (l1 ++ l2) w.
Proof. unfold say. simpl. rewrite app_assoc. reflexivity. Qed.

Lemma merge_pdfs_from_existing (pre : list string) :
  ∀ (merger : Merger) (rest : list string) (after : Merger → M bool) w,
  Forall (λ x, path_exists x (fs w) = true) pre →
  merge_pdfs_from merger (pre ++ rest) after w
  = match (append_trace merger pre (fs w)).2 with
    | inr merger' =>
        merge_pdfs_from merger' rest after
          (say (append_trace merger pre (fs w)).1 w)
    | inl e => (Raise (Exc e), say (append_trace merger pre (fs w)).1 w)
    end.
Proof.
  induction pre as [| x pre IH]; intros merger rest after w Hpre.
  - cbn [app append_trace]. simpl. unfold say. rewrite app_nil_r.
    destruct w; reflexivity.
  - inversion Hpre as [| ? ? Hx Hpre']; subst.
    cbn [app merge_pdfs_from append_trace]. unfold_M. rewrite Hx.
    cbn [negb fs].
    destruct (merger_append merger x (fs w)) as [e | merger']; [reflexivity |].
    cbn [fst snd]. rewrite IH by exact Hpre'. cbn [fs].
    destruct (append_trace merger' pre (fs w)) as [ls [e | m]]; cbn [fst snd];
      unfold say; cbn [fs console temp_files]; rewrite <- app_assoc;
      reflexivity.
Qed.

Lemma merge_pdfs_missing (self : converter) (pre post : list string)
    (p output_file : string) w :
  Forall (λ x, path_exists x (fs w) = true) pre →
  path_exists p (fs w) = false →
  merge_pdfs self (pre ++ p :: post) output_file w
  = (Return false,
     say ((append_trace PdfMerger pre (fs w)).1 ++
          [match (append_trace PdfMerger pre (fs w)).2 with
           | inr _ => Stderr ("Error: File not found: " +:+ p)
           | inl e => StderrExc "Error merging PDFs: " e
           end]) w).
Proof.
  intros Hpre Hp. unfold merge_pdfs, try_except.
  rewrite merge_pdfs_from_existing by exact Hpre.
  destruct (append_trace PdfMerger pre (fs w)) as [ls [e | m]]; cbn [fst snd].
  - unfold_M. unfold say. cbn [fs console temp_files].
    rewrite <- app_assoc. reflexivity.
  - cbn [merge_pdfs_from]. unfold_M. cbn [say fs]. rewrite Hp. cbn [negb].
    unfold say. cbn [fs console temp_files]. rewrite <- app_assoc. reflexivity.
Qed.

Lemma optimize_pdf_missing (self : converter) (input_file output_file : string)
    w :
  path_exists input_file (fs w) = false →
  optimize_pdf self input_file output_file w
  = (Return false, say [Stderr ("Error: File not found: " +:+ input_file)] w).
Proof.
  intros Hp. unfold optimize_pdf, try_except. unfold_M. rewrite Hp. reflexivity.
Qed.

(** C4, amended: when the list holds a path that does not exist, with [p]
    the first such path, each operation returns [False] and leaves the file
    system as it was.  [image_to_pdf] and [optimize_pdf] print the line
    naming the missing path; [merge_pdfs] prints it too when PyPDF2 accepted
    every file listed before [p], and otherwise ends on the error of the
    earlier file that PyPDF2 refused. *)
Theorem missing_path_is_a_failure_result (self : converter)
    (input_files : list string) (output_file : string) w :
  (∃ p, p ∈ input_files ∧ path_exists p (fs w) = false) →
  ∃ pre p post,
    input_files = pre ++ p :: post
    ∧ Forall (λ x, path_exists x (fs w) = true) pre
    ∧ path_exists p (fs w) = false
    ∧ mentions p (Stderr ("Error: File not found: " +:+ p)) = true
    ∧ merge_pdfs self input_files output_file w
      = (Return false,
         say ((append_trace PdfMerger pre (fs w)).1 ++
              [match (append_trace PdfMerger pre (fs w)).2 with
               | inr _ => Stderr ("Error: File not found: " +:+ p)
               | inl e => StderrExc "Error merging PDFs: " e
               end]) w)
    ∧ image_to_pdf self input_files output_file w
      = (Return false, say [Stderr ("Error: File not found: " +:+ p)] w)
    ∧ (input_files = [p] →
       optimize_pdf self p output_file w
       = (Return false, say [Stderr ("Error: File not found: " +:+ p)] w)).
Proof.
  intros Hmiss.
  destruct (first_missing_split _ _ Hmiss) as (pre & p & post & -> & Hpre & Hp).
  exists pre, p, post. split; [reflexivity |]. split; [exact Hpre |].
  split; [exact Hp |]. split; [apply not_found_mentions |].
  split; [apply merge_pdfs_missing; assumption |]. split.
  - unfold image_to_pdf, try_except.
    rewrite verify_exist_missing by assumption. reflexivity.
  - intros _. apply optimize_pdf_missing. exact Hp.
Qed.

(** C10: a converter is constructed for any label; a label that is not a
    preset makes [image_to_pdf] (all inputs existing) and [optimize_pdf]
    (input existing) return [False], the [KeyError] of the preset lookup being
    reported by the catch-all handler, with nothing written.  The label shows
    nowhere else: [merge_pdfs] runs as under the default label, and so do
    [image_to_pdf] and [optimize_pdf] when an input is missing. *)
Theorem invalid_quality_is_a_failure_result q (image_files : list string)
    (input_file output_file : string) w :
  q ∉ ["high"; "medium"; "low"] →
  quality (PDFConverter (Some q)) = q
  ∧ (Forall (λ p, path_exists p (fs w) = true) image_files →
     image_to_pdf (PDFConverter (Some q)) image_files output_file w
     = (Return false,
        {| fs := fs w;
           console := console w ++
             [StderrExc "Error converting images to PDF: " (KeyError q)];
           temp_files := temp_files w |}))
  ∧ (path_exists input_file (fs w) = true →
     optimize_pdf (PDFConverter (Some q)) input_file output_file w
     = (Return false,
        {| fs := fs w;
           console := console w ++
             [Stdout ("Optimizing: " +:+ input_file);
              StderrExc "Error optimizing PDF: " (KeyError q)];
           temp_files := temp_files w |}))
  ∧ (∀ input_files,
     merge_pdfs (PDFConverter (Some q)) input_files output_file w
     = merge_pdfs (PDFConverter None) input_files output_file w)
  ∧ ((∃ p, p ∈ image_files ∧ path_exists p (fs w) = false) →
     image_to_pdf (PDFConverter (Some q)) image_files output_file w
     = image_to_pdf (PDFConverter None) image_files output_file w)
  ∧ (path_exists input_file (fs w) = false →
     optimize_pdf (PDFConverter (Some q)) input_file output_file w
     = optimize_pdf (PDFConverter None) input_file output_file w).
Proof.
  intros Hq. split; [reflexivity |].
  split; [| split; [| split; [reflexivity | split]]].
  - intros Hall. unfold image_to_pdf, try_except.
    rewrite verify_exist_all by exact Hall.
    unfold mbind at 1; unfold M_bind.
    rewrite get_settings_invalid by exact Hq. reflexivity.
  - intros Hin. unfold optimize_pdf, try_except.
    unfold_M. rewrite Hin. simpl.
    rewrite get_settings_invalid by exact Hq. simpl.
    rewrite <- app_assoc. reflexivity.
  - intros Hmiss.
    destruct (first_missing_split _ _ Hmiss)
      as (pre & p & post & -> & Hpre & Hp).
    unfold image_to_pdf, try_except.
    rewrite !verify_exist_missing by assumption. reflexivity.
  - intros Hmiss. rewrite !optimize_pdf_missing by exact Hmiss. reflexivity.
Qed.

(** ** The image loop of [optimize_pdf] *)

(** With Pillow's band counts (an RGBA image has four bands, and converting
    to RGBA gives an RGBA image), lines 171-177 flatten every image that is
    not of mode LA onto white. *)
Lemma to_rgb_on_white (img rgb : image) :
  to_rgb img = inr rgb → mode img ≠ "LA" →
  (∀ src bands,
     mode src = "RGBA" → image_split src = inr bands → length bands = 4%nat) →
  (∀ src, image_convert img "RGBA" = inr src → mode src = "RGBA") →
  flattened_on_white img rgb.
Proof.
  intros Hrgb HLA Hbands Hconv. revert Hrgb.
  unfold to_rgb, mbind, result_bind.
  destruct (bool_decide_reflect (mode img ∈ ["RGBA"; "LA"; "P"])) as [Hm | Hm].
  2:{ intros [= <-]. apply opaque_kept. exact Hm. }
  assert (Hlast : ∀ bands : list image,
             length bands = 4%nat → ∃ alpha, last bands = Some alpha).
  { intros [| a [| b [| c [| d [| x l]]]]]; intros [=]. eexists. reflexivity. }
  destruct (bool_decide_reflect (mode img = "P")) as [HP | HP].
  - destruct (image_convert img "RGBA") as [e | src] eqn:Hsrc; [intros [=] |].
    pose proof (Hconv src eq_refl) as Hmode.
    rewrite bool_decide_eq_true_2 by (rewrite Hmode; apply list_elem_of_here).
    destruct (image_split src) as [e | bands] eqn:Hsplit; [intros [=] |].
    pose proof (Hbands src bands Hmode Hsplit) as Hlen.
    rewrite bool_decide_eq_true_2 by lia.
    destruct (Hlast bands Hlen) as [alpha Halpha]. rewrite Halpha.
    intros Hpaste. eapply palette_on_white; eassumption.
  - assert (Hmode : mode img = "RGBA").
    { rewrite !elem_of_cons in Hm.
      destruct Hm as [? | [? | [? | Hnil]]];
        [assumption | contradiction | contradiction | inversion Hnil]. }
    rewrite bool_decide_eq_true_2 by (rewrite Hmode; apply list_elem_of_here).
    destruct (image_split img) as [e | bands] eqn:Hsplit; [intros [=] |].
    pose proof (Hbands img bands Hmode Hsplit) as Hlen.
    rewrite bool_decide_eq_true_2 by lia.
    destruct (Hlast bands Hlen) as [alpha Halpha]. rewrite Halpha.
    intros Hpaste. eapply alpha_on_white; try eassumption.
    rewrite Hmode. apply list_elem_of_here.
Qed.

(** An LA image has two bands: line 176 pastes it without a mask. *)
Lemma to_rgb_LA (img : image) (bands : list image) :
  mode img = "LA" → image_split img = inr bands → (length bands ≤ 3)%nat →
  to_rgb img
  = image_paste (Image_new "RGB" (size img) (255, 255, 255)) img None.
Proof.
  intros Hmode Hsplit Hlen. unfold to_rgb, mbind, result_bind.
  rewrite Hmode.
  rewrite bool_decide_eq_true_2
    by (apply list_elem_of_further, list_elem_of_here).
  rewrite (bool_decide_eq_false_2 ("LA" = "P")) by discriminate.
  rewrite Hmode.
  rewrite bool_decide_eq_true_2
    by (apply list_elem_of_further, list_elem_of_here).
  rewrite Hsplit. rewrite bool_decide_eq_false_2 by lia. reflexivity.
Qed.

Lemma image_failure_recompress s (obj : pdfobj) (e : exception) :
  image_failure s obj e ↔ recompress s obj = inl e.
Proof.
  unfold recompress. split.
  - intros [e' Hr | raw e' Hr Hlen Ho | raw img e' Hr Hlen Ho Hf
            | raw img rgb e' Hr Hlen Ho Hf Hs];
      rewrite Hr; cbn [mbind result_bind];
      try (rewrite bool_decide_eq_true_2 by exact Hlen; rewrite Ho;
           cbn [mbind result_bind]);
      try (rewrite Hf; cbn [mbind result_bind]);
      try (rewrite Hs; cbn [mbind result_bind]); reflexivity.
  - destruct (read_bytes obj) as [e' | raw] eqn:Hr; cbn [mbind result_bind].
    { intros [= ->]. apply read_failure. exact Hr. }
    destruct (bool_decide_reflect (1024 < length raw)%nat) as [Hlen | Hlen];
      [| intros [=]].
    destruct (Image_open raw) as [e' | img] eqn:Ho; cbn [mbind result_bind].
    { intros [= ->]. eapply decode_failure; eassumption. }
    destruct (to_rgb img) as [e' | rgb] eqn:Hf; cbn [mbind result_bind].
    { intros [= ->]. eapply flatten_failure; eassumption. }
    destruct (image_save_jpeg rgb _ _ None) as [e' | img_bytes] eqn:Hs;
      cbn [mbind result_bind]; [| intros [=]].
    intros [= ->]. eapply encode_failure; eassumption.
Qed.

Lemma recompress_small s (obj : pdfobj) (raw : bytes) :
  read_bytes obj = inr raw → (length raw ≤ 1024)%nat →
  recompress s obj = inr None.
Proof.
  intros Hr Hlen. unfold recompress, mbind, result_bind. rewrite Hr.
  rewrite bool_decide_eq_false_2 by lia. reflexivity.
Qed.

Lemma recompress_large s (obj : pdfobj) (raw : bytes) (img rgb : image)
    (img_bytes : bytes) :
  read_bytes obj = inr raw → (1024 < length raw)%nat →
  Image_open raw = inr img → to_rgb img = inr rgb →
  image_save_jpeg rgb (jpeg_quality s) (optimize_flag s) None = inr img_bytes →
  recompress s obj = inr (Some (obj_write img_bytes "/DCTDecode" obj)).
Proof.
  intros Hr Hlen Ho Hf Hs. unfold recompress, mbind, result_bind. rewrite Hr.
  rewrite bool_decide_eq_true_2 by exact Hlen. rewrite Ho, Hf, Hs. reflexivity.
Qed.

Lemma recompress_written s (obj obj' : pdfobj) :
  recompress s obj = inr (Some obj') →
  ∃ data, obj' = obj_write data "/DCTDecode" obj.
Proof.
  unfold recompress, mbind, result_bind.
  destruct (read_bytes obj) as [e | raw]; [intros [=] |].
  destruct (bool_decide (1024 < length raw)%nat); [| intros [=]].
  destruct (Image_open raw) as [e | img]; [intros [=] |].
  destruct (to_rgb img) as [e | rgb]; [intros [=] |].
  destruct (image_save_jpeg rgb _ _ None) as [e | data]; [intros [=] |].
  intros [= <-]. exists data. reflexivity.
Qed.

(** *** One visit *)

Lemma optimize_xobject_image s (objs : gmap nat pdfobj) (name : string)
    (ref : nat) (obj : pdfobj) w :
  objs !! ref = Some obj → is_image obj = true →
  optimize_xobject s objs (name, ref) w
  = match recompress s obj with
    | inr (Some obj') => (Return (<[ref := obj']> objs), w)
    | inr None => (Return objs, w)
    | inl e => (Return objs, say [warning name e] w)
    end.
Proof.
  intros Hobj Himg. unfold optimize_xobject. cbn [fst snd].
  rewrite Hobj, Himg. unfold try_except. unfold_M.
  destruct (recompress s obj) as [e | [obj' |]]; reflexivity.
Qed.

Lemma optimize_xobject_other s (objs : gmap nat pdfobj)
    (entry : string * nat) (obj : pdfobj) w :
  objs !! entry.2 = Some obj → is_image obj = false →
  optimize_xobject s objs entry w = (Return objs, w).
Proof.
  intros Hobj Himg. unfold optimize_xobject. rewrite Hobj, Himg. reflexivity.
Qed.

Lemma optimize_xobject_not_a_dictionary s (objs : gmap nat pdfobj)
    (entry : string * nat) w :
  objs !! entry.2 = None →
  optimize_xobject s objs entry w = (Raise (Exc not_a_dictionary), w).
Proof. intros Hobj. unfold optimize_xobject. rewrite Hobj. reflexivity. Qed.

Lemma say_nil w : say [] w = w.
Proof. destruct w. unfold say. simpl. rewrite app_nil_r. reflexivity. Qed.

(** A visit that returns left the table as it was, or wrote one image. *)
Lemma optimize_xobject_return s (objs objs' : gmap nat pdfobj) (name : string)
    (ref : nat) w w' :
  optimize_xobject s objs (name, ref) w = (Return objs', w') →
  objs' = objs
  ∨ ∃ obj obj',
      objs !! ref = Some obj ∧ is_image obj = true
      ∧ recompress s obj = inr (Some obj') ∧ objs' = <[ref := obj']> objs.
Proof.
  destruct (objs !! ref) as [obj |] eqn:Hobj.
  2:{ rewrite optimize_xobject_not_a_dictionary by exact Hobj. intros [=]. }
  destruct (is_image obj) eqn:Himg.
  - rewrite (optimize_xobject_image s objs name ref obj w Hobj Himg).
    destruct (recompress s obj) as [e | [obj' |]] eqn:Hrec;
      intros [= <- _]; [left; reflexivity | | left; reflexivity].
    right. exists obj, obj'. auto.
  - rewrite (optimize_xobject_other s objs (name, ref) obj w Hobj Himg).
    intros [= <- _]. left. reflexivity.
Qed.

#[local] Instance only_image_streams_differ_refl :
  Reflexive only_image_streams_differ.
Proof. intros objs ref. left. reflexivity. Qed.

#[local] Instance only_image_streams_differ_trans :
  Transitive only_image_streams_differ.
Proof.
  intros objs1 objs2 objs3 H12 H23 ref.
  destruct (H23 ref) as [E23 | (obj2 & d2 & Hobj2 & Himg2 & E3)].
  - rewrite E23. apply H12.
  - destruct (H12 ref) as [E12 | (obj1 & d1 & Hobj1 & Himg1 & E2)].
    + right. exists obj2, d2. rewrite <- E12. auto.
    + right. exists obj1, d2. split; [exact Hobj1 |]. split; [exact Himg1 |].
      rewrite E3. rewrite Hobj2 in E2. injection E2 as ->. reflexivity.
Qed.

Lemma differ_resolves (objs objs' : gmap nat pdfobj) (entry : string * nat) :
  only_image_streams_differ objs objs' →
  resolves objs entry ↔ resolves objs' entry.
Proof.
  intros Hd. unfold resolves.
  destruct (Hd entry.2) as [E | (obj & data & Hobj & _ & E)].
  - rewrite E. reflexivity.
  - rewrite Hobj, E. split; eauto.
Qed.

(** The body of the image loop prints warnings and rewrites image streams,
    and does nothing else, on an entry that points to a dictionary or a
    stream; on another entry it raises and changes nothing. *)
Lemma optimize_xobject_outcome s (objs : gmap nat pdfobj)
    (entry : string * nat) w :
  match objs !! entry.2 with
  | Some _ =>
      ∃ objs' ls,
        optimize_xobject s objs entry w = (Return objs', say ls w)
        ∧ only_image_streams_differ objs objs'
  | None => optimize_xobject s objs entry w = (Raise (Exc not_a_dictionary), w)
  end.
Proof.
  destruct entry as [name ref]. cbn [snd].
  destruct (objs !! ref) as [obj |] eqn:Hobj.
  2:{ apply optimize_xobject_not_a_dictionary. exact Hobj. }
  destruct (is_image obj) eqn:Himg.
  - rewrite (optimize_xobject_image s objs name ref obj w Hobj Himg).
    destruct (recompress s obj) as [e | [obj' |]] eqn:Hrec.
    + exists objs, [warning name e]. split; reflexivity.
    + exists (<[ref := obj']> objs), []. rewrite say_nil. split; [reflexivity |].
      destruct (recompress_written _ _ _ Hrec) as [data ->].
      intros ref'. destruct (decide (ref = ref')) as [<- | Hne].
      * right. exists obj, data. rewrite lookup_insert_eq. auto.
      * left. apply lookup_insert_ne. exact Hne.
    + exists objs, []. rewrite say_nil. split; reflexivity.
  - exists objs, []. rewrite say_nil. split; [| reflexivity].
    apply (optimize_xobject_other s objs (name, ref) obj w Hobj Himg).
Qed.

(** *** The loops *)

Lemma for_fold_app {A B} (body : B → A → M B) (l1 l2 : list A) (b : B) w :
  for_fold body (l1 ++ l2) b w
  = match for_fold body l1 b w with
    | (Return b1, w1) => for_fold body l2 b1 w1
    | (Raise r, w1) => (Raise r, w1)
    end.
Proof.
  revert b w. induction l1 as [| x l1 IH]; intros b w; [reflexivity |].
  cbn [app for_fold]. unfold mbind, M_bind.
  destruct (body b x w) as [[b1 | r] w1]; [apply IH | reflexivity].
Qed.

(** The two loops go through the entries of all pages in order. *)
Lemma optimize_pages_flat s (pgs : list page) (objs : gmap nat pdfobj) w :
  for_fold (optimize_page s) pgs objs w
  = for_fold (optimize_xobject s) (pg ← pgs; page_xobjects pg) objs w.
Proof.
  revert objs w. induction pgs as [| pg pgs IH]; intros objs w; [reflexivity |].
  cbn [mbind list_bind]. rewrite for_fold_app. cbn [for_fold].
  unfold mbind at 1; unfold M_bind.
  assert (Hpage : optimize_page s objs pg w
                  = for_fold (optimize_xobject s) (page_xobjects pg) objs w).
  { unfold optimize_page, page_xobjects.
    destruct (page_Resources pg) as [res |]; [| reflexivity].
    destruct (XObject res) as [xobjects |]; reflexivity. }
  rewrite Hpage.
  destruct (for_fold (optimize_xobject s) (page_xobjects pg) objs w)
    as [[objs1 | r] w1]; [apply IH | reflexivity].
Qed.

Lemma optimize_images_flat s (doc : pdf) w :
  optimize_images s doc w
  = match for_fold (optimize_xobject s) (xobject_entries doc) (objects doc) w
    with
    | (Return objs, w1) =>
        (Return {| pages := pages doc; objects := objs |}, w1)
    | (Raise r, w1) => (Raise r, w1)
    end.
Proof.
  unfold optimize_images, xobject_entries. unfold mbind at 1; unfold M_bind.
  rewrite optimize_pages_flat.
  destruct (for_fold _ _ _ _) as [[objs1 | r] w1]; reflexivity.
Qed.

Lemma optimize_images_return s (doc doc' : pdf) w w' :
  optimize_images s doc w = (Return doc', w') →
  pages doc' = pages doc
  ∧ for_fold (optimize_xobject s) (xobject_entries doc) (objects doc) w
    = (Return (objects doc'), w').
Proof.
  rewrite optimize_images_flat.
  destruct (for_fold _ _ _ _) as [[objs1 | r] w1]; intros [= <- <-].
  split; reflexivity.
Qed.

Lemma page_refs_entries (doc : pdf) : page_refs doc = (xobject_entries doc).*2.
Proof.
  unfold page_refs, xobject_entries.
  induction (pages doc) as [| pg pgs IH]; [reflexivity |].
  cbn [mbind list_bind]. rewrite fmap_app, <- IH. f_equal.
  unfold page_xobjects. destruct (page_Resources pg); reflexivity.
Qed.

(** The loop over entries ends normally when each of them points to a
    dictionary or a stream, and raises at the first that does not. *)
Lemma xobjects_outcome s (l : list (string * nat)) :
  ∀ (objs : gmap nat pdfobj) w, ∃ ls,
    (Forall (resolves objs) l
     ∧ ∃ objs',
         for_fold (optimize_xobject s) l objs w = (Return objs', say ls w)
         ∧ only_image_streams_differ objs objs')
    ∨ (¬ Forall (resolves objs) l
       ∧ for_fold (optimize_xobject s) l objs w
         = (Raise (Exc not_a_dictionary), say ls w)).
Proof.
  induction l as [| [name ref] l IH]; intros objs w.
  - exists []. left. split; [constructor |]. exists objs. rewrite say_nil.
    split; reflexivity.
  - cbn [for_fold]. unfold mbind, M_bind.
    pose proof (optimize_xobject_outcome s objs (name, ref) w) as Hv.
    cbn [snd] in Hv. destruct (objs !! ref) as [obj |] eqn:Hobj.
    + destruct Hv as (objs1 & ls1 & E1 & D1). rewrite E1.
      destruct (IH objs1 (say ls1 w))
        as (ls2 & [(Hall & objs2 & E2 & D2) | (Hnot & E2)]);
        exists (ls1 ++ ls2); rewrite E2, say_say.
      * left. split.
        -- constructor; [exists obj; exact Hobj |].
           eapply Forall_impl; [exact Hall |]. intros entry.
           apply (differ_resolves objs objs1 entry D1).
        -- exists objs2. split; [reflexivity | etransitivity; eassumption].
      * right. split; [| reflexivity]. intros Hall. apply Hnot.
        apply Forall_cons in Hall as [_ Hall].
        eapply Forall_impl; [exact Hall |]. intros entry.
        apply (differ_resolves objs objs1 entry D1).
    + rewrite Hv. exists []. rewrite say_nil. right. split; [| reflexivity].
      intros Hall. apply Forall_cons in Hall as [[o Ho] _].
      cbn [snd] in Ho. congruence.
Qed.

Lemma xobjects_run s (l : list (string * nat)) (objs : gmap nat pdfobj) w :
  Forall (resolves objs) l →
  ∃ objs' ls,
    for_fold (optimize_xobject s) l objs w = (Return objs', say ls w)
    ∧ only_image_streams_differ objs objs'.
Proof.
  intros Hall.
  destruct (xobjects_outcome s l objs w)
    as (ls & [(_ & objs' & E & D) | (Hnot & _)]); [eauto | contradiction].
Qed.

Lemma xobjects_differ s (l : list (string * nat)) (objs objs' : gmap nat pdfobj)
    w w' :
  for_fold (optimize_xobject s) l objs w = (Return objs', w') →
  only_image_streams_differ objs objs'.
Proof.
  destruct (xobjects_outcome s l objs w)
    as (ls & [(_ & objs1 & E & D) | (_ & E)]); rewrite E; intros [= <- _].
  exact D.
Qed.

(** The image loop over a list of entries none of which points to [ref]. *)
Lemma for_fold_xobjects_other s (ref : nat) (xobjects : list (string * nat)) :
  ref ∉ xobjects.*2 →
  ∀ (objs : gmap nat pdfobj) w objs' w',
    for_fold (optimize_xobject s) xobjects objs w = (Return objs', w') →
    objs' !! ref = objs !! ref.
Proof.
  induction xobjects as [| [name ref'] l IH]; intros Hnot objs w objs' w'.
  - intros [= <- _]. reflexivity.
  - cbn [fmap list_fmap snd] in Hnot.
    apply not_elem_of_cons in Hnot as [Hne Hnot].
    cbn [for_fold]. unfold mbind, M_bind.
    destruct (optimize_xobject s objs (name, ref') w) as [[objs1 | r] w1]
      eqn:E; [| intros [=]].
    intros Hrest. rewrite (IH Hnot _ _ _ _ Hrest).
    destruct (optimize_xobject_return s objs objs1 name ref' w w1 E)
      as [-> | (obj & obj' & _ & _ & _ & ->)]; [reflexivity |].
    apply lookup_insert_ne. congruence.
Qed.

(** An object that a visit would not write is the same after the loop. *)
Lemma xobjects_settled s (ref : nat) (obj : pdfobj) :
  settled s obj →
  ∀ (l : list (string * nat)) (objs : gmap nat pdfobj) w objs' w',
    objs !! ref = Some obj →
    for_fold (optimize_xobject s) l objs w = (Return objs', w') →
    objs' !! ref = Some obj.
Proof.
  intros Hset. induction l as [| [name ref'] l IH]; intros objs w objs' w' Hobj.
  - intros [= <- _]. exact Hobj.
  - cbn [for_fold]. unfold mbind, M_bind.
    destruct (optimize_xobject s objs (name, ref') w) as [[objs1 | r] w1]
      eqn:E; [| intros [=]].
    apply IH.
    destruct (optimize_xobject_return s objs objs1 name ref' w w1 E)
      as [-> | (obj0 & obj' & Hobj0 & _ & Hrec & ->)]; [exact Hobj |].
    destruct (decide (ref' = ref)) as [-> | Hne].
    + rewrite Hobj in Hobj0. injection Hobj0 as <-.
      destruct (Hset obj' Hrec).
    + rewrite lookup_insert_ne by exact Hne. exact Hobj.
Qed.

Lemma once_head {A} (x : A) (l : list A) : once x (x :: l) → x ∉ l.
Proof.
  intros (pre & post & E & Hpre & Hpost). destruct pre as [| y pre].
  - injection E as <-. exact Hpost.
  - injection E as -> _. destruct Hpre. apply list_elem_of_here.
Qed.

Lemma once_tail {A} (x y : A) (l : list A) :
  x ≠ y → once x (y :: l) → once x l.
Proof.
  intros Hne (pre & post & E & Hpre & Hpost). destruct pre as [| z pre].
  - injection E as -> _. congruence.
  - injection E as _ ->. exists pre, post. split; [reflexivity |].
    split; [| exact Hpost]. intros Hin. apply Hpre.
    apply list_elem_of_further. exact Hin.
Qed.

(** An image that a visit writes holds a DCTDecode stream after the loop:
    the one of the first visit when no other entry points to it, or when a
    later visit does not write it again. *)
Lemma xobjects_rewritten s (ref : nat) (obj obj1 : pdfobj) :
  is_image obj = true → recompress s obj = inr (Some obj1) →
  ∀ (l : list (string * nat)) (objs : gmap nat pdfobj) w objs' w',
    objs !! ref = Some obj → ref ∈ l.*2 →
    for_fold (optimize_xobject s) l objs w = (Return objs', w') →
    (∃ stream, objs' !! ref = Some (obj_write stream "/DCTDecode" obj))
    ∧ (once ref l.*2 ∨ settled s obj1 → objs' !! ref = Some obj1).
Proof.
  intros Himg Hrec. destruct (recompress_written s obj obj1 Hrec) as [d1 Hd1].
  induction l as [| [name r] l IH]; intros objs w objs' w' Hobj Hin.
  - inversion Hin.
  - cbn [for_fold]. unfold mbind, M_bind.
    destruct (optimize_xobject s objs (name, r) w) as [[objs1 | rr] w1]
      eqn:E1; [| intros [=]].
    intros Hrest. destruct (decide (r = ref)) as [-> | Hne].
    + rewrite (optimize_xobject_image s objs name ref obj w Hobj Himg), Hrec
        in E1.
      injection E1 as <- <-.
      assert (H1 : (<[ref := obj1]> objs) !! ref = Some obj1)
        by apply lookup_insert_eq.
      split.
      * destruct (xobjects_differ s l _ objs' w w' Hrest ref)
          as [Esame | (o & d & Ho & _ & Eo)].
        -- exists d1. rewrite Esame, H1, Hd1. reflexivity.
        -- exists d. rewrite Eo. rewrite H1 in Ho. injection Ho as <-.
           rewrite Hd1. reflexivity.
      * intros [Honce | Hset].
        -- cbn [fmap list_fmap snd] in Honce. apply once_head in Honce.
           rewrite (for_fold_xobjects_other s ref l Honce _ _ _ _ Hrest).
           exact H1.
        -- exact (xobjects_settled s ref obj1 Hset l _ w objs' w' H1 Hrest).
    + cbn [fmap list_fmap snd] in Hin.
      apply elem_of_cons in Hin as [-> | Hin]; [congruence |].
      assert (Hobj1 : objs1 !! ref = Some obj).
      { destruct (optimize_xobject_return s objs objs1 name r w w1 E1)
          as [-> | (o & o' & _ & _ & _ & ->)]; [exact Hobj |].
        rewrite lookup_insert_ne by exact Hne. exact Hobj. }
      destruct (IH objs1 w1 objs' w' Hobj1 Hin Hrest) as [Hex Hfin].
      split; [exact Hex |]. intros [Honce | Hset]; apply Hfin.
      * left. cbn [fmap list_fmap snd] in Honce.
        eapply once_tail; [| exact Honce]. congruence.
      * right. exact Hset.
Qed.

(** An image on which the inner [try] fails, among entries that all point
    to dictionaries or streams: the entries before it are gone through, the
    visit prints the warning and changes nothing, and the loop goes on with
    the entries after it. *)
Lemma xobjects_failure s (name : string) (ref : nat) (obj : pdfobj)
    (e : exception) (pre post : list (string * nat))
    (objs : gmap nat pdfobj) w :
  Forall (resolves objs) (pre ++ (name, ref) :: post) →
  objs !! ref = Some obj → is_image obj = true → recompress s obj = inl e →
  ∃ objs1 ls1 objs' ls2,
    for_fold (optimize_xobject s) pre objs w = (Return objs1, say ls1 w)
    ∧ optimize_xobject s objs1 (name, ref) (say ls1 w)
      = (Return objs1, say (ls1 ++ [warning name e]) w)
    ∧ for_fold (optimize_xobject s) post objs1
        (say (ls1 ++ [warning name e]) w)
      = (Return objs', say (ls1 ++ warning name e :: ls2) w)
    ∧ for_fold (optimize_xobject s) (pre ++ (name, ref) :: post) objs w
      = (Return objs', say (ls1 ++ warning name e :: ls2) w)
    ∧ only_image_streams_differ objs objs'
    ∧ objs' !! ref = Some obj.
Proof.
  intros Hall Hobj Himg Hfail.
  assert (Hset : settled s obj) by (intros again; rewrite Hfail; discriminate).
  apply Forall_app in Hall as [Hpre Hpost].
  apply Forall_cons in Hpost as [_ Hpost].
  destruct (xobjects_run s pre objs w Hpre) as (objs1 & ls1 & E1 & D1).
  pose proof (xobjects_settled s ref obj Hset pre objs w objs1 _ Hobj E1)
    as Hobj1.
  assert (Ev : optimize_xobject s objs1 (name, ref) (say ls1 w)
               = (Return objs1, say (ls1 ++ [warning name e]) w)).
  { rewrite (optimize_xobject_image s objs1 name ref obj _ Hobj1 Himg), Hfail.
    rewrite say_say. reflexivity. }
  assert (Hpost1 : Forall (resolves objs1) post).
  { eapply Forall_impl; [exact Hpost |]. intros entry.
    apply (differ_resolves objs objs1 entry D1). }
  destruct (xobjects_run s post objs1 (say (ls1 ++ [warning name e]) w) Hpost1)
    as (objs' & ls2 & E2 & D2).
  rewrite say_say, <- app_assoc in E2. cbn [app] in E2.
  exists objs1, ls1, objs', ls2.
  split; [exact E1 |]. split; [exact Ev |]. split; [exact E2 |]. split.
  - rewrite for_fold_app, E1. cbn [for_fold]. unfold mbind, M_bind.
    rewrite Ev. exact E2.
  - split; [etransitivity; eassumption |].
    exact (xobjects_settled s ref obj Hset post objs1 _ objs' _ Hobj1 E2).
Qed.

(** The loops of [optimize_pdf]: they end normally, with warnings printed
    and image streams rewritten, when every entry points to a dictionary or a
    stream, and raise otherwise; the file system is not touched. *)
Lemma optimize_images_outcome s (doc : pdf) w :
  ∃ ls,
    (Forall (resolves (objects doc)) (xobject_entries doc)
     ∧ ∃ objs',
         optimize_images s doc w
         = (Return {| pages := pages doc; objects := objs' |}, say ls w)
         ∧ only_image_streams_differ (objects doc) objs')
    ∨ (¬ Forall (resolves (objects doc)) (xobject_entries doc)
       ∧ optimize_images s doc w = (Raise (Exc not_a_dictionary), say ls w)).
Proof.
  rewrite optimize_images_flat.
  destruct (xobjects_outcome s (xobject_entries doc) (objects doc) w)
    as (ls & [(Hall & objs' & E & D) | (Hnot & E)]); exists ls; rewrite E.
  - left. split; [exact Hall |]. exists objs'. split; [reflexivity | exact D].
  - right. split; [exact Hnot | reflexivity].
Qed.

(** ** Equations of the primitive steps *)

Lemma get_settings_some (self : converter) s w :
  quality_settings self !! quality self = Some s →
  get_settings self w = (Return s, w).
Proof. intros Hs. unfold get_settings. rewrite Hs. reflexivity. Qed.

Lemma read_file_some (p : string) (data : bytes) w :
  files (fs w) !! p = Some data → read_file p w = (Return data, w).
Proof. intros Hp. unfold read_file. unfold_M. rewrite Hp. reflexivity. Qed.

Lemma os_path_getsize_some (p : string) (data : bytes) w :
  files (fs w) !! p = Some data →
  os_path_getsize p w = (Return (Z.of_nat (length data)), w).
Proof.
  intros Hp. unfold os_path_getsize, mbind, M_bind.
  rewrite (read_file_some p data w Hp). reflexivity.
Qed.

Lemma write_to_run (p : string) (o : filesystem → write_outcome) w :
  write_to p o w
  = match o (fs w) with
    | WriteOk data =>
        (Return tt,
         {| fs := set_file p data (fs w); console := console w;
            temp_files := temp_files w |})
    | WriteFailed (Some part) e =>
        (Raise (Exc e),
         {| fs := set_file p part (fs w); console := console w;
            temp_files := temp_files w |})
    | WriteFailed None e => (Raise (Exc e), w)
    end.
Proof.
  unfold write_to. unfold_M.
  destruct (o (fs w)) as [data | [part |] e]; reflexivity.
Qed.

(** ** A run of [optimize_pdf] on a file that opens *)

Lemma optimize_pdf_run (self : converter) (input_file output_file : string)
    s (data : bytes) (doc doc' : pdf) (ls : list line) w :
  path_exists input_file (fs w) = true →
  quality_settings self !! quality self = Some s →
  files (fs w) !! input_file = Some data →
  pikepdf_open data = inr doc →
  optimize_images s doc (say [Stdout ("Optimizing: " +:+ input_file)] w)
  = (Return doc', say (Stdout ("Optimizing: " +:+ input_file) :: ls) w) →
  optimize_pdf self input_file output_file w
  = match pdf_save doc' output_file (fs w) with
    | WriteOk out =>
        let f' := set_file output_file out (fs w) in
        if bool_decide (size_of input_file f' = 0) then
          (Return false,
           {| fs := f';
              console := console w
                ++ Stdout ("Optimizing: " +:+ input_file) :: ls
                ++ [StderrExc "Error optimizing PDF: " ZeroDivisionError];
              temp_files := temp_files w |})
        else
          (Return true,
           {| fs := f';
              console := console w
                ++ Stdout ("Optimizing: " +:+ input_file) :: ls
                ++ size_report (size_of input_file f') (size_of output_file f');
              temp_files := temp_files w |})
    | WriteFailed part e =>
        (Return false,
         {| fs := match part with
                  | Some written => set_file output_file written (fs w)
                  | None => fs w
                  end;
            console := console w
              ++ Stdout ("Optimizing: " +:+ input_file) :: ls
              ++ [StderrExc "Error optimizing PDF: " e];
            temp_files := temp_files w |})
    end.
Proof.
  intros Hex Hs Hdata Hopen Hloop.
  unfold optimize_pdf, try_except. unfold_M. rewrite Hex. cbn [negb].
  rewrite (get_settings_some self s _ Hs).
  rewrite read_file_some with (data := data) by exact Hdata. rewrite Hopen.
  fold (say [Stdout ("Optimizing: " +:+ input_file)] w). rewrite Hloop.
  rewrite write_to_run. cbn [say fs console temp_files].
  destruct (pdf_save doc' output_file (fs w)) as [out | [written |] e];
    unfold say; cbn [fs console temp_files];
    [| rewrite <- app_assoc; reflexivity ..].
  assert (∃ data', files (set_file output_file out (fs w)) !! input_file
                   = Some data') as [data' Hdata'].
  { cbn [set_file files].
    destruct (decide (output_file = input_file)) as [-> | Hne].
    - exists out. apply lookup_insert_eq.
    - exists data. rewrite lookup_insert_ne by exact Hne. exact Hdata. }
  assert (files (set_file output_file out (fs w)) !! output_file = Some out)
    as Hout by apply lookup_insert_eq.
  rewrite os_path_getsize_some with (data := data') by exact Hdata'.
  rewrite os_path_getsize_some with (data := out) by exact Hout.
  cbv zeta. unfold size_of. rewrite Hdata', Hout. cbn [from_option].
  unfold reduction_of, true_div, mbind, result_bind.
  destruct (bool_decide (Z.of_nat (length data') = 0)).
  - cbn [fs console temp_files]. rewrite <- app_assoc. reflexivity.
  - change (bool_decide (1024 = 0)) with false. cbv beta iota.
    unfold size_report. cbn [fs console temp_files].
    rewrite <- !app_assoc. reflexivity.
Qed.

Lemma optimize_images_outcome_after (line0 : line) s (doc : pdf) w :
  ∃ ls,
    (Forall (resolves (objects doc)) (xobject_entries doc)
     ∧ ∃ objs',
         optimize_images s doc (say [line0] w)
         = (Return {| pages := pages doc; objects := objs' |},
            say (line0 :: ls) w)
         ∧ only_image_streams_differ (objects doc) objs')
    ∨ (¬ Forall (resolves (objects doc)) (xobject_entries doc)
       ∧ optimize_images s doc (say [line0] w)
         = (Raise (Exc not_a_dictionary), say (line0 :: ls) w)).
Proof.
  destruct (optimize_images_outcome s doc (say [line0] w))
    as (ls & [(Hall & objs' & E & D) | (Hnot & E)]); exists ls;
    rewrite E, say_say.
  - left. split; [exact Hall |]. exists objs'. split; [reflexivity | exact D].
  - right. split; [exact Hnot | reflexivity].
Qed.

(** A run of [optimize_pdf] whose loops raise: the handler of line 207
    prints the error and nothing is written. *)
Lemma optimize_pdf_aborted (self : converter) (input_file output_file : string)
    s (data : bytes) (doc : pdf) (ls : list line) (e : exception) w :
  path_exists input_file (fs w) = true →
  quality_settings self !! quality self = Some s →
  files (fs w) !! input_file = Some data →
  pikepdf_open data = inr doc →
  optimize_images s doc (say [Stdout ("Optimizing: " +:+ input_file)] w)
  = (Raise (Exc e), say (Stdout ("Optimizing: " +:+ input_file) :: ls) w) →
  optimize_pdf self input_file output_file w
  = (Return false,
     {| fs := fs w;
        console := console w
          ++ Stdout ("Optimizing: " +:+ input_file) :: ls
          ++ [StderrExc "Error optimizing PDF: " e];
        temp_files := temp_files w |}).
Proof.
  intros Hex Hs Hdata Hopen Hloop.
  unfold optimize_pdf, try_except. unfold_M. rewrite Hex. cbn [negb].
  rewrite (get_settings_some self s _ Hs).
  rewrite read_file_some with (data := data) by exact Hdata. rewrite Hopen.
  fold (say [Stdout ("Optimizing: " +:+ input_file)] w). rewrite Hloop.
  unfold say. cbn [fs console temp_files]. rewrite <- app_assoc. reflexivity.
Qed.

(** What a successful run of [optimize_pdf] went through. *)
Lemma optimize_pdf_true_inv (self : converter) (input_file output_file : string)
    w w' :
  optimize_pdf self input_file output_file w = (Return true, w') →
  ∃ s data doc objs' ls out,
    path_exists input_file (fs w) = true
    ∧ quality_settings self !! quality self = Some s
    ∧ files (fs w) !! input_file = Some data
    ∧ pikepdf_open data = inr doc
    ∧ optimize_images s doc (say [Stdout ("Optimizing: " +:+ input_file)] w)
      = (Return {| pages := pages doc; objects := objs' |},
         say (Stdout ("Optimizing: " +:+ input_file) :: ls) w)
    ∧ only_image_streams_differ (objects doc) objs'
    ∧ pdf_save {| pages := pages doc; objects := objs' |} output_file (fs w)
      = WriteOk out
    ∧ size_of input_file (set_file output_file out (fs w)) ≠ 0
    ∧ w' = {| fs := set_file output_file out (fs w);
              console := console w
                ++ Stdout ("Optimizing: " +:+ input_file) :: ls
                ++ size_report
                     (size_of input_file (set_file output_file out (fs w)))
                     (size_of output_file (set_file output_file out (fs w)));
              temp_files := temp_files w |}.
Proof.
  destruct (path_exists input_file (fs w)) eqn:Hex.
  2:{ rewrite optimize_pdf_missing by exact Hex. intros [=]. }
  destruct (quality_settings self !! quality self) as [s |] eqn:Hs.
  2:{ unfold optimize_pdf, try_except, get_settings. unfold_M.
      rewrite Hex, Hs. cbn [negb]. unfold_M. intros [=]. }
  destruct (files (fs w) !! input_file) as [data |] eqn:Hdata.
  2:{ unfold optimize_pdf, try_except. unfold_M. rewrite Hex. cbn [negb].
      rewrite (get_settings_some self s _ Hs). unfold read_file. unfold_M.
      cbn [fs]. rewrite Hdata. unfold_M. intros [=]. }
  destruct (pikepdf_open data) as [e | doc] eqn:Hopen.
  { unfold optimize_pdf, try_except. unfold_M. rewrite Hex. cbn [negb].
    rewrite (get_settings_some self s _ Hs).
    rewrite read_file_some with (data := data) by exact Hdata.
    rewrite Hopen. intros [=]. }
  destruct (optimize_images_outcome_after
              (Stdout ("Optimizing: " +:+ input_file)) s doc w)
    as (ls & [(_ & objs' & Hloop & Hdiff) | (_ & Hloop)]).
  2:{ rewrite (optimize_pdf_aborted self input_file output_file s data doc ls
                 _ w Hex Hs Hdata Hopen Hloop). intros [=]. }
  rewrite (optimize_pdf_run self input_file output_file s data doc _ ls w
             Hex Hs Hdata Hopen Hloop).
  destruct (pdf_save _ output_file (fs w)) as [out | part e] eqn:Hsave;
    [| intros [=]].
  cbv zeta. case_bool_decide as Hsize; [intros [=] |].
  intros [= <-]. exists s, data, doc, objs', ls, out. repeat split; assumption.
Qed.

(** ** Images below and above the threshold *)

Lemma settled_small s (obj : pdfobj) (raw : bytes) :
  read_bytes obj = inr raw → (length raw ≤ 1024)%nat → settled s obj.
Proof.
  intros Hr Hlen again. rewrite (recompress_small s obj raw Hr Hlen).
  discriminate.
Qed.

(** C5 (amended): in a run of [optimize_pdf] that returns [True], the
    document that was saved relates to the document that was opened as
    follows, for every entry of a page's XObject table that points to an image
    object whose bytes [read_bytes] gives as [raw] (the stream with its
    general filters decoded, not the stream as it is stored).  Up to 1024
    bytes the object is the same.  Above 1024 bytes, when [raw] decodes as
    [img], is made RGB as [rgb] and encodes at the preset's JPEG quality and
    optimize flag as [img_bytes]: the object has the same dictionary with a
    new stream under the DCTDecode filter, at the same reference; the stream
    is [img_bytes] when no other entry points to the object, or when the
    rewritten object is not written again on a later visit; and [rgb] is
    [img] flattened onto white whenever the image is not of mode LA, Pillow
    giving four bands for an RGBA image. *)
Theorem recompression_threshold (self : converter)
    (input_file output_file : string) w w' :
  optimize_pdf self input_file output_file w = (Return true, w') →
  ∃ s data doc doc' out,
    quality_settings self !! quality self = Some s
    ∧ files (fs w) !! input_file = Some data
    ∧ pikepdf_open data = inr doc
    ∧ pdf_save doc' output_file (fs w) = WriteOk out
    ∧ files (fs w') !! output_file = Some out
    ∧ ∀ name ref obj raw,
        (name, ref) ∈ xobject_entries doc →
        objects doc !! ref = Some obj → is_image obj = true →
        read_bytes obj = inr raw →
        ((length raw ≤ 1024)%nat → objects doc' !! ref = Some obj)
        ∧ ((1024 < length raw)%nat →
           ∀ img rgb img_bytes,
             Image_open raw = inr img → to_rgb img = inr rgb →
             image_save_jpeg rgb (jpeg_quality s) (optimize_flag s) None
             = inr img_bytes →
             (∃ stream,
                objects doc' !! ref
                = Some (obj_write stream "/DCTDecode" obj))
             ∧ (once ref (page_refs doc)
                ∨ settled s (obj_write img_bytes "/DCTDecode" obj) →
                objects doc' !! ref
                = Some (obj_write img_bytes "/DCTDecode" obj))
             ∧ (mode img ≠ "LA" →
                (∀ src bands,
                   mode src = "RGBA" → image_split src = inr bands →
                   length bands = 4%nat) →
                (∀ src, image_convert img "RGBA" = inr src →
                        mode src = "RGBA") →
                flattened_on_white img rgb)).
Proof.
  intros Hrun.
  destruct (optimize_pdf_true_inv self input_file output_file w w' Hrun)
    as (s & data & doc & objs' & ls & out & _ & Hs & Hdata & Hopen & Hloop
        & _ & Hsave & _ & ->).
  exists s, data, doc, {| pages := pages doc; objects := objs' |}, out.
  split; [exact Hs |]. split; [exact Hdata |]. split; [exact Hopen |].
  split; [exact Hsave |]. split; [apply lookup_insert_eq |].
  apply optimize_images_return in Hloop as [_ Hfold]. cbn [objects] in *.
  intros name ref obj raw Hentry Hobj Himg Hr. split.
  - intros Hlen.
    exact (xobjects_settled s ref obj (settled_small s obj raw Hr Hlen)
             _ _ _ _ _ Hobj Hfold).
  - intros Hlen img rgb img_bytes Ho Hf Henc.
    pose proof (recompress_large s obj raw img rgb img_bytes Hr Hlen Ho Hf Henc)
      as Hrec.
    assert (Hin : ref ∈ (xobject_entries doc).*2).
    { apply list_elem_of_fmap. exists (name, ref). split; [reflexivity |].
      exact Hentry. }
    destruct (xobjects_rewritten s ref obj _ Himg Hrec _ _ _ _ _ Hobj Hin Hfold)
      as [Hex Hfin].
    split; [exact Hex |]. split.
    + rewrite page_refs_entries. exact Hfin.
    + intros HLA Hbands Hconv. exact (to_rgb_on_white img rgb Hf HLA Hbands Hconv).
Qed.

(** ** Images that fail *)

Lemma warning_mentions (name : string) (e : exception) :
  mentions name (warning name e) = true.
Proof.
  unfold warning, mentions. apply orb_true_intro. left.
  induction "Warning: Could not optimize image " as [| c pre IH].
  - change ("" +:+ name +:+ ": ") with (name +:+ ": ").
    destruct name as [| a name]; [reflexivity |].
    cbn [contains]. apply orb_true_intro. left.
    change (String a name +:+ ": ") with (String a (name +:+ ": ")).
    simpl. destruct (ascii_dec a a); [| congruence].
    clear. induction name as [| b name IH]; [reflexivity |].
    simpl. destruct (ascii_dec b b); [exact IH | congruence].
  - change (String c pre +:+ name +:+ ": ")
      with (String c (pre +:+ name +:+ ": ")).
    cbn [contains]. rewrite IH. apply orb_true_r.
Qed.

(** C7: a run of [optimize_pdf] on a document that opens and whose XObject
    entries all point to dictionaries or streams, one of them, [name], to an
    image object on which the inner [try] fails with [e] (its bytes cannot be
    read, decoded, flattened or re-encoded).  The loops go through the
    entries before [name]; the visit of [name] prints one warning on standard
    error that names the image and carries the error, and changes nothing
    else; the loops go on with the entries after it and end normally; the
    object is the same in the document handed to the save; and
    [optimize_pdf] returns [True], the warning among its lines, whenever the
    save succeeds on a non-empty input. *)
Theorem image_failure_is_skipped_with_a_warning (self : converter)
    (input_file output_file : string) s (data : bytes) (doc : pdf)
    (name : string) (ref : nat) (obj : pdfobj) (e : exception)
    (pre post : list (string * nat)) w :
  path_exists input_file (fs w) = true →
  quality_settings self !! quality self = Some s →
  files (fs w) !! input_file = Some data →
  pikepdf_open data = inr doc →
  Forall (resolves (objects doc)) (xobject_entries doc) →
  xobject_entries doc = pre ++ (name, ref) :: post →
  objects doc !! ref = Some obj → is_image obj = true →
  image_failure s obj e →
  ∃ objs1 ls1 objs' ls2,
    for_fold (optimize_xobject s) pre (objects doc) (started input_file w)
    = (Return objs1, say ls1 (started input_file w))
    ∧ optimize_xobject s objs1 (name, ref) (say ls1 (started input_file w))
      = (Return objs1,
         say [StderrExc
                ("Warning: Could not optimize image " +:+ name +:+ ": ") e]
           (say ls1 (started input_file w)))
    ∧ mentions name
        (StderrExc ("Warning: Could not optimize image " +:+ name +:+ ": ") e)
      = true
    ∧ for_fold (optimize_xobject s) post objs1
        (say (ls1 ++ [warning name e]) (started input_file w))
      = (Return objs', say (ls1 ++ warning name e :: ls2) (started input_file w))
    ∧ optimize_images s doc (started input_file w)
      = (Return {| pages := pages doc; objects := objs' |},
         say (ls1 ++ warning name e :: ls2) (started input_file w))
    ∧ objs' !! ref = Some obj
    ∧ ∀ out,
        pdf_save {| pages := pages doc; objects := objs' |} output_file (fs w)
        = WriteOk out →
        size_of input_file (set_file output_file out (fs w)) ≠ 0 →
        optimize_pdf self input_file output_file w
        = (Return true,
           {| fs := set_file output_file out (fs w);
              console := console w
                ++ Stdout ("Optimizing: " +:+ input_file)
                   :: (ls1 ++ warning name e :: ls2)
                ++ size_report
                     (size_of input_file (set_file output_file out (fs w)))
                     (size_of output_file (set_file output_file out (fs w)));
              temp_files := temp_files w |}).
Proof.
  intros Hex Hs Hdata Hopen Hall Hentries Hobj Himg Hfail.
  apply image_failure_recompress in Hfail. rewrite Hentries in Hall.
  destruct (xobjects_failure s name ref obj e pre post (objects doc)
              (started input_file w) Hall Hobj Himg Hfail)
    as (objs1 & ls1 & objs' & ls2 & Epre & Ev & Epost & Eall & _ & Hkept).
  assert (Hloop : optimize_images s doc (started input_file w)
                  = (Return {| pages := pages doc; objects := objs' |},
                     say (ls1 ++ warning name e :: ls2) (started input_file w))).
  { rewrite optimize_images_flat, Hentries, Eall. reflexivity. }
  exists objs1, ls1, objs', ls2.
  split; [exact Epre |]. split; [rewrite say_say; exact Ev |].
  split; [apply warning_mentions |]. split; [exact Epost |].
  split; [exact Hloop |]. split; [exact Hkept |].
  intros out Hsave Hsize. unfold started in Hloop. rewrite say_say in Hloop.
  rewrite (optimize_pdf_run self input_file output_file s data doc _ _ w
             Hex Hs Hdata Hopen Hloop).
  rewrite Hsave. cbv zeta.
  rewrite bool_decide_eq_false_2 by exact Hsize. reflexivity.
Qed.

(** ** The report and the document *)

(** C6: a run of [optimize_pdf] that returns [True] ends on the line
    "Reduction:" whose value is [((original_size - optimized_size) /
    original_size) * 100] in binary64 arithmetic, with the sizes of the input
    and of the output file as they are when the run ends; the value is
    printed as computed, negative when the output is the larger file. *)
Theorem reduction_is_reported_as_computed (self : converter)
    (input_file output_file : string) w w' :
  optimize_pdf self input_file output_file w = (Return true, w') →
  let original_size := size_of input_file (fs w') in
  let optimized_size := size_of output_file (fs w') in
  let reduction :=
    PrimFloat.mul
      (PrimFloat.div (float_of_Z (original_size - optimized_size))
         (float_of_Z original_size))
      (float_of_Z 100) in
  original_size ≠ 0
  ∧ reduction_of original_size optimized_size = inr reduction
  ∧ last (console w') = Some (StdoutFixed2 "  Reduction: " reduction "%")
  ∧ (input_file ≠ output_file →
     original_size = size_of input_file (fs w)).
Proof.
  intros Hrun.
  destruct (optimize_pdf_true_inv _ _ _ _ _ Hrun)
    as (s & data & doc & objs' & ls & out & _ & _ & _ & _ & _ & _ & _
        & Hsize & ->).
  cbn [fs console]. split; [exact Hsize |]. split; [| split].
  - unfold reduction_of, true_div, mbind, result_bind.
    rewrite bool_decide_eq_false_2 by exact Hsize. reflexivity.
  - unfold size_report.
    match goal with
    | |- last (?a ++ ?b :: ?l ++ [?x1; ?x2; ?x3; ?x4]) = _ =>
        replace (a ++ b :: l ++ [x1; x2; x3; x4])
          with ((a ++ b :: l ++ [x1; x2; x3]) ++ [x4])
          by (rewrite <- app_assoc; simpl; rewrite <- app_assoc; reflexivity)
    end.
    apply last_snoc.
  - intros Hne. unfold size_of, set_file. cbn [files].
    rewrite lookup_insert_ne by congruence. reflexivity.
Qed.

(** C8: in a run of [optimize_pdf] that returns [True], the document that
    is saved to the output has the pages of the document that was opened, in
    the same order and so in the same number, and the same object table up
    to the streams of image objects: every object that is not an image is
    the same, and an image object keeps its dictionary apart from the stream
    data and its filter.  The run writes the output file and no other. *)
Theorem optimize_keeps_pages_and_other_content (self : converter)
    (input_file output_file : string) w w' :
  optimize_pdf self input_file output_file w = (Return true, w') →
  ∃ data doc doc' out,
    files (fs w) !! input_file = Some data
    ∧ pikepdf_open data = inr doc
    ∧ pdf_save doc' output_file (fs w) = WriteOk out
    ∧ fs w' = set_file output_file out (fs w)
    ∧ pages doc' = pages doc
    ∧ length (pages doc') = length (pages doc)
    ∧ only_image_streams_differ (objects doc) (objects doc')
    ∧ (∀ ref obj,
         objects doc !! ref = Some obj → is_image obj = false →
         objects doc' !! ref = Some obj)
    ∧ (∀ ref, is_Some (objects doc' !! ref) ↔ is_Some (objects doc !! ref))
    ∧ (∀ ref obj obj',
         objects doc !! ref = Some obj → objects doc' !! ref = Some obj' →
         Subtype obj' = Subtype obj ∧ obj_entries obj' = obj_entries obj).
Proof.
  intros Hrun.
  destruct (optimize_pdf_true_inv _ _ _ _ _ Hrun)
    as (s & data & doc & objs' & ls & out & _ & _ & Hdata & Hopen & _
        & Hdiff & Hsave & _ & ->).
  exists data, doc, {| pages := pages doc; objects := objs' |}, out.
  cbn [fs pages objects].
  repeat (split; [first [assumption | reflexivity] |]). split; [| split].
  - intros ref obj Hobj Hni.
    destruct (Hdiff ref) as [-> | (obj0 & d & Hobj0 & Himg & _)];
      [exact Hobj | congruence].
  - intros ref.
    destruct (Hdiff ref) as [-> | (obj0 & d & -> & _ & ->)];
      [reflexivity | split; eauto].
  - intros ref obj obj' Hobj Hobj'.
    destruct (Hdiff ref) as [E | (obj0 & d & Hobj0 & _ & E)].
    + rewrite E, Hobj in Hobj'. injection Hobj' as <-. split; reflexivity.
    + rewrite E in Hobj'. injection Hobj' as <-.
      rewrite Hobj in Hobj0. injection Hobj0 as <-. split; reflexivity.
Qed.

(** ** The batch pipeline *)

Lemma batch_without_input (output quality d : string) w :
  mkdtemp (fs w) = inr d →
  batch [] [] output quality w
  = (Raise (SystemExit 1),
     {| fs := add_dir d (fs w);
        console := console w ++
          [Stderr "Error: At least one image file or PDF file must be provided"];
        temp_files := [] |}).
Proof.
  intros Hd. unfold batch, tempfile_mkdtemp. unfold_M. cbn [fs].
  rewrite Hd. reflexivity.
Qed.

(** The [finally] block of [batch] never raises: a deletion that fails is
    passed over. *)
Lemma batch_cleanup_never_raises (temp_dir : string) w :
  ∃ w', batch_cleanup temp_dir w = (Return tt, w') ∧ console w' = console w.
Proof.
  assert (Hremove : ∀ p w0, ∃ w1,
             try_except_OSError (os_remove p) w0 = (Return tt, w1)
             ∧ console w1 = console w0 ∧ temp_files w1 = temp_files w0).
  { intros p w0. unfold try_except_OSError, os_remove. unfold_M.
    destruct (bool_decide (is_Some (files (fs w0) !! p))
              && negb (remove_denied p (fs w0))); eexists; repeat split. }
  assert (Hloop : ∀ l w0, ∃ w1,
             for_each l (λ temp_file,
               found ← os_path_exists temp_file;
               if found : bool then try_except_OSError (os_remove temp_file)
               else mret tt) w0 = (Return tt, w1)
             ∧ console w1 = console w0).
  { induction l as [| p l IH]; intros w0; [eexists; split; reflexivity |].
    cbn [for_each]. unfold_M.
    destruct (path_exists p (fs w0)).
    - destruct (Hremove p w0) as (w1 & -> & Hc & _).
      destruct (IH w1) as (w2 & -> & Hc2). exists w2. split; congruence.
    - apply IH. }
  unfold batch_cleanup. unfold_M.
  destruct (Hloop (temp_files w) w) as (w1 & -> & Hc).
  unfold try_except_OSError, os_rmdir. unfold_M.
  destruct (bool_decide (temp_dir ∈ dirs (fs w1)) && dir_empty temp_dir (fs w1)
            && negb (rmdir_denied temp_dir (fs w1)));
    eexists; split; first [reflexivity | exact Hc].
Qed.

(** C1: the behaviour of [batch] with no image and no PDF: the directory
    that [tempfile.mkdtemp] made is still there when the process exits with
    code 1, because [sys.exit(1)] is reached before the [try] whose [finally]
    holds the cleanup. *)
Theorem batch_without_input_leaves_temp_dir (output quality d : string) w :
  mkdtemp (fs w) = inr d →
  ∃ w',
    batch [] [] output quality w = (Raise (SystemExit 1), w')
    ∧ d ∈ dirs (fs w')
    ∧ path_exists d (fs w') = true.
Proof.
  intros Hd. rewrite (batch_without_input output quality d w Hd).
  eexists. split; [reflexivity |]. cbn [fs add_dir dirs].
  split; [set_solver |]. unfold path_exists. apply orb_true_iff. right.
  apply bool_decide_eq_true_2. cbn [add_dir dirs]. set_solver.
Qed.

(** C2: the behaviour of [batch] with no image and no PDF: exit code 1 and
    the diagnostic on standard error, after [tempfile.mkdtemp] has created a
    directory that did not exist before: the file system has changed. *)
Theorem batch_without_input_creates_a_directory (output quality d : string) w :
  mkdtemp (fs w) = inr d →
  path_exists d (fs w) = false →
  ∃ r w',
    batch [] [] output quality w = (r, w')
    ∧ exit_code r = 1
    ∧ console w' = console w ++
        [Stderr "Error: At least one image file or PDF file must be provided"]
    ∧ fs w' = add_dir d (fs w)
    ∧ dirs (fs w') ≠ dirs (fs w).
Proof.
  intros Hd Hnew. rewrite (batch_without_input output quality d w Hd).
  eexists _, _. split; [reflexivity |]. cbn [fs console exit_code].
  repeat (split; [reflexivity |]). cbn [add_dir dirs]. intros Heq.
  unfold path_exists in Hnew. apply orb_false_elim in Hnew as [_ Hnew].
  apply bool_decide_eq_false in Hnew. apply Hnew. rewrite <- Heq.
  apply elem_of_union_l, elem_of_singleton. reflexivity.
Qed.

End Properties.

(** * Whole runs of the operations *)

Section Runs.
Context `{Externals}.

Implicit Types (w : world) (q : string) (s : settings).

(** ** [merge_pdfs] *)

Lemma merge_pdfs_run (self : converter) (input_files : list string)
    (output_file : string) w :
  Forall (λ x, path_exists x (fs w) = true) input_files →
  merge_pdfs self input_files output_file w
  = match (append_trace PdfMerger input_files (fs w)).2 with
    | inl e =>
        (Return false,
         say ((append_trace PdfMerger input_files (fs w)).1
              ++ [StderrExc "Error merging PDFs: " e]) w)
    | inr merger =>
        match merger_write merger output_file (fs w) with
        | WriteOk data =>
            (Return true,
             {| fs := set_file output_file data (fs w);
                console := console w
                  ++ (append_trace PdfMerger input_files (fs w)).1
                  ++ [Stdout ("Successfully merged "
                              +:+ pretty (length input_files)
                              +:+ " PDFs into " +:+ output_file)];
                temp_files := temp_files w |})
        | WriteFailed part e =>
            (Return false,
             {| fs := match part with
                      | Some written => set_file output_file written (fs w)
                      | None => fs w
                      end;
                console := console w
                  ++ (append_trace PdfMerger input_files (fs w)).1
                  ++ [StderrExc "Error merging PDFs: " e];
                temp_files := temp_files w |})
        end
    end.
Proof.
  intros Hall. unfold merge_pdfs, try_except.
  rewrite <- (app_nil_r input_files) at 1.
  rewrite merge_pdfs_from_existing by exact Hall.
  destruct (append_trace PdfMerger input_files (fs w)) as [ls [e | m]];
    cbn [fst snd].
  - unfold_M. unfold say. cbn [fs console temp_files].
    rewrite <- app_assoc. reflexivity.
  - cbn [merge_pdfs_from]. unfold mbind at 1; unfold M_bind.
    rewrite write_to_run. cbn [say fs console temp_files].
    destruct (merger_write m output_file (fs w)) as [data | [part |] e];
      unfold_M; unfold say; cbn [fs console temp_files];
      rewrite <- ?app_assoc; reflexivity.
Qed.

Lemma all_exist_or_missing (l : list string) (f : filesystem) :
  Forall (λ x, path_exists x f = true) l
  ∨ ∃ p, p ∈ l ∧ path_exists p f = false.
Proof.
  induction l as [| x l [IH | (p & Hin & Hp)]].
  - left. constructor.
  - destruct (path_exists x f) eqn:Hx.
    + left. constructor; assumption.
    + right. exists x. split; [left | exact Hx].
  - right. exists p. split; [right; exact Hin | exact Hp].
Qed.

Lemma exist_not_missing (l : list string) (f : filesystem) :
  Forall (λ x, path_exists x f = true) l →
  ¬ ∃ p, p ∈ l ∧ path_exists p f = false.
Proof.
  intros Hall (p & Hin & Hp). rewrite Forall_forall in Hall.
  rewrite (Hall p Hin) in Hp. discriminate.
Qed.

Lemma append_trace_lines (merger merger' : Merger) (l : list string)
    (f : filesystem) :
  (append_trace merger l f).2 = inr merger' →
  (append_trace merger l f).1 = (λ p, Stdout ("Adding: " +:+ p)) <$> l.
Proof.
  revert merger. induction l as [| x l IH]; intros merger; [reflexivity |].
  cbn [append_trace]. destruct (merger_append merger x f) as [e | m1];
    cbn [fst snd]; [intros [=] |].
  intros Hm. rewrite (IH m1 Hm). reflexivity.
Qed.

Lemma same_but_refl (out : string) (f : filesystem) : same_but out f f.
Proof. split; reflexivity. Qed.

Lemma same_but_set_file (out : string) (data : bytes) (f : filesystem) :
  same_but out f (set_file out data f).
Proof.
  split; [reflexivity |]. intros p Hp. cbn [set_file files].
  apply lookup_insert_ne. congruence.
Qed.

Lemma same_but_trans (out : string) (f1 f2 f3 : filesystem) :
  same_but out f1 f2 → same_but out f2 f3 → same_but out f1 f3.
Proof.
  intros [Hd1 Hf1] [Hd2 Hf2]. split; [congruence |].
  intros p Hp. rewrite Hf2, Hf1 by exact Hp. reflexivity.
Qed.

(** What every run of [merge_pdfs] is like. *)
Lemma merge_pdfs_outcome (self : converter) (input_files : list string)
    (output_file : string) w :
  ∃ b w',
    merge_pdfs self input_files output_file w = (Return b, w')
    ∧ same_but output_file (fs w) (fs w')
    ∧ temp_files w' = temp_files w.
Proof.
  destruct (all_exist_or_missing input_files (fs w))
    as [Hall | Hmiss].
  - rewrite (merge_pdfs_run self input_files output_file w Hall).
    destruct (append_trace PdfMerger input_files (fs w)).2 as [e | m].
    { eexists _, _. split; [reflexivity |]. split; [apply same_but_refl |].
      reflexivity. }
    destruct (merger_write m output_file (fs w)) as [data | [part |] e];
      eexists _, _; (split; [reflexivity |]); cbn [fs temp_files];
      (split; [| reflexivity]);
      first [apply same_but_set_file | apply same_but_refl].
  - destruct (first_missing_split _ _ Hmiss)
      as (pre & p & post & -> & Hpre & Hp).
    rewrite (merge_pdfs_missing self pre post p output_file w Hpre Hp).
    eexists _, _. split; [reflexivity |]. split; [apply same_but_refl |].
    reflexivity.
Qed.

(** X1: [merge_pdfs] returns [True] exactly when every input path exists,
    PyPDF2 accepts each file, appended in list order, and writes the output
    completely; the output file then holds what PyPDF2 wrote for that merger,
    nothing else has changed, and the console shows one "Adding:" line per
    input in list order and then the line of success with their number. *)
Theorem merge_pdfs_true_iff (self : converter) (input_files : list string)
    (output_file : string) w w' :
  merge_pdfs self input_files output_file w = (Return true, w')
  ↔ Forall (λ x, path_exists x (fs w) = true) input_files
    ∧ ∃ merger data,
        (append_trace PdfMerger input_files (fs w)).2 = inr merger
        ∧ merger_write merger output_file (fs w) = WriteOk data
        ∧ w' = {| fs := set_file output_file data (fs w);
                  console := console w
                    ++ ((λ p, Stdout ("Adding: " +:+ p)) <$> input_files)
                    ++ [Stdout ("Successfully merged "
                                +:+ pretty (length input_files)
                                +:+ " PDFs into " +:+ output_file)];
                  temp_files := temp_files w |}.
Proof.
  split.
  - intros Hrun.
    destruct (all_exist_or_missing input_files (fs w)) as [Hall | Hmiss].
    2:{ destruct (first_missing_split _ _ Hmiss)
          as (pre & p & post & -> & Hpre & Hp).
        rewrite (merge_pdfs_missing self pre post p output_file w Hpre Hp)
          in Hrun. discriminate. }
    split; [exact Hall |].
    rewrite (merge_pdfs_run self input_files output_file w Hall) in Hrun.
    destruct (append_trace PdfMerger input_files (fs w)).2 as [e | m] eqn:Hm;
      [discriminate |].
    destruct (merger_write m output_file (fs w)) as [data | part e] eqn:Hw;
      [| discriminate].
    injection Hrun as <-. exists m, data. split; [reflexivity |].
    split; [exact Hw |]. rewrite (append_trace_lines _ _ _ _ Hm).
    reflexivity.
  - intros (Hall & m & data & Hm & Hw & ->).
    rewrite (merge_pdfs_run self input_files output_file w Hall).
    rewrite Hm, Hw, (append_trace_lines _ _ _ _ Hm). reflexivity.
Qed.

(** X2: [merge_pdfs] never raises, whatever PyPDF2 and the file system do:
    it returns a boolean; and it changes no directory and no file other than
    the one at the output path. *)
Theorem merge_pdfs_returns_and_writes_only_output (self : converter)
    (input_files : list string) (output_file : string) w :
  ∃ b w',
    merge_pdfs self input_files output_file w = (Return b, w')
    ∧ dirs (fs w') = dirs (fs w)
    ∧ ∀ p, p ≠ output_file → files (fs w') !! p = files (fs w) !! p.
Proof.
  destruct (merge_pdfs_outcome self input_files output_file w)
    as (b & w' & Hrun & [Hd Hf] & _).
  exists b, w'. auto.
Qed.

(** ** [image_to_pdf] *)

Lemma process_image_run s (img_file : string) w :
  process_image s img_file w
  = (match files (fs w) !! img_file with
     | None => Raise (Exc (OSError img_file))
     | Some data =>
         match jpeg_of s (Some (dpi s, dpi s)) data with
         | inl e => Raise (Exc e)
         | inr img_bytes => Return img_bytes
         end
     end,
     say [Stdout ("Processing: " +:+ img_file)] w).
Proof.
  unfold process_image, read_file, jpeg_of. unfold_M. cbn [fs].
  destruct (files (fs w) !! img_file) as [data |]; [| reflexivity].
  unfold mbind, result_bind.
  destruct (Image_open data) as [e | img]; [reflexivity |].
  destruct (to_rgb img) as [e | rgb]; [reflexivity |].
  destruct (image_save_jpeg rgb _ _ _); reflexivity.
Qed.

Lemma process_images_run s (image_files : list string) w :
  process_images s image_files w
  = (match (process_trace s image_files (fs w)).2 with
     | inl e => Raise (Exc e)
     | inr processed_images => Return processed_images
     end,
     say (process_trace s image_files (fs w)).1 w).
Proof.
  revert w. induction image_files as [| x l IH]; intros w.
  - cbn. rewrite say_nil. reflexivity.
  - cbn [process_images process_trace]. unfold mbind at 1; unfold M_bind.
    rewrite process_image_run.
    destruct (files (fs w) !! x) as [data |]; [| reflexivity].
    destruct (jpeg_of s _ data) as [e | img_bytes]; [reflexivity |].
    unfold mbind at 1; unfold M_bind. rewrite IH. cbn [say fs fst snd].
    rewrite say_say.
    destruct (process_trace s l (fs w)).2; reflexivity.
Qed.

(** The images collected by the loop: one JPEG for each input file, in the
    order of the list. *)
Lemma process_trace_collects s (image_files : list string) (f : filesystem)
    (processed_images : list bytes) :
  (process_trace s image_files f).2 = inr processed_images
  ↔ Forall2 (λ p img_bytes, ∃ data,
       files f !! p = Some data
       ∧ jpeg_of s (Some (dpi s, dpi s)) data = inr img_bytes)
      image_files processed_images.
Proof.
  revert processed_images.
  induction image_files as [| x l IH]; intros imgs; cbn [process_trace].
  - cbn. split.
    + intros [= <-]. constructor.
    + intros Hall. inversion Hall. reflexivity.
  - split.
    + destruct (files f !! x) as [data |] eqn:Hx; [| intros [=]].
      destruct (jpeg_of s _ data) as [e | b] eqn:Hb; [intros [=] |].
      cbn [snd].
      destruct (process_trace s l f).2 as [e | bs] eqn:Hl; [intros [=] |].
      intros [= <-]. constructor; [eauto | apply IH; reflexivity].
    + intros Hall. inversion Hall as [| ? b ? bs (data & Hx & Hb) Hrest];
        subst.
      rewrite Hx, Hb. cbn [snd]. apply IH in Hrest. rewrite Hrest.
      reflexivity.
Qed.

Lemma process_trace_lines s (image_files : list string) (f : filesystem)
    (processed_images : list bytes) :
  (process_trace s image_files f).2 = inr processed_images →
  (process_trace s image_files f).1
  = (λ p, Stdout ("Processing: " +:+ p)) <$> image_files.
Proof.
  revert processed_images.
  induction image_files as [| x l IH]; intros imgs; [reflexivity |].
  cbn [process_trace].
  destruct (files f !! x) as [data |]; [| intros [=]].
  destruct (jpeg_of s _ data) as [e | b]; [intros [=] |]. cbn [fst snd].
  destruct (process_trace s l f).2 as [e | bs] eqn:Hl; [intros [=] |].
  intros _. rewrite (IH bs eq_refl). reflexivity.
Qed.

Lemma open_and_write_run (output_file : string) (data : exception + bytes) w :
  open_and_write output_file data w
  = match open_wb output_file (fs w) with
    | Some e => (Raise (Exc e), w)
    | None =>
        match data with
        | inl e =>
            (Raise (Exc e),
             {| fs := set_file output_file [] (fs w); console := console w;
                temp_files := temp_files w |})
        | inr content =>
            match file_write output_file content
                    (set_file output_file [] (fs w)) with
            | None =>
                (Return tt,
                 {| fs := set_file output_file content
                            (set_file output_file [] (fs w));
                    console := console w; temp_files := temp_files w |})
            | Some (n, e) =>
                (Raise (Exc e),
                 {| fs := set_file output_file (take n content)
                            (set_file output_file [] (fs w));
                    console := console w; temp_files := temp_files w |})
            end
        end
    end.
Proof.
  unfold open_and_write. unfold_M.
  destruct (open_wb output_file (fs w)); [reflexivity |].
  destruct data as [e | content]; [reflexivity |]. cbn [fs].
  destruct (file_write output_file content _) as [[n e] |]; reflexivity.
Qed.

Lemma set_file_set_file (p : string) (d1 d2 : bytes) (f : filesystem) :
  set_file p d2 (set_file p d1 f) = set_file p d2 f.
Proof. unfold set_file. cbn [files dirs]. rewrite insert_insert_eq. reflexivity. Qed.

Lemma image_to_pdf_no_settings (self : converter) (image_files : list string)
    (output_file : string) w :
  Forall (λ x, path_exists x (fs w) = true) image_files →
  quality_settings self !! quality self = None →
  image_to_pdf self image_files output_file w
  = (Return false,
     say [StderrExc "Error converting images to PDF: "
            (KeyError (quality self))] w).
Proof.
  intros Hall Hs. unfold image_to_pdf, try_except.
  rewrite verify_exist_all by exact Hall.
  unfold mbind at 1; unfold M_bind. unfold get_settings. rewrite Hs.
  reflexivity.
Qed.

Lemma image_to_pdf_run (self : converter) s (image_files : list string)
    (output_file : string) w :
  Forall (λ x, path_exists x (fs w) = true) image_files →
  quality_settings self !! quality self = Some s →
  image_to_pdf self image_files output_file w
  = let lines := (process_trace s image_files (fs w)).1 in
    let failed e f' :=
      (Return false,
       {| fs := f';
          console := console w ++ lines
            ++ [StderrExc "Error converting images to PDF: " e];
          temp_files := temp_files w |}) in
    match (process_trace s image_files (fs w)).2 with
    | inl e => failed e (fs w)
    | inr processed_images =>
        match open_wb output_file (fs w) with
        | Some e => failed e (fs w)
        | None =>
            match img2pdf_convert processed_images with
            | inl e => failed e (set_file output_file [] (fs w))
            | inr content =>
                match file_write output_file content
                        (set_file output_file [] (fs w)) with
                | Some (n, e) =>
                    failed e (set_file output_file (take n content) (fs w))
                | None =>
                    (Return true,
                     {| fs := set_file output_file content (fs w);
                        console := console w ++ lines
                          ++ [Stdout ("Successfully converted "
                                      +:+ pretty (length image_files)
                                      +:+ " images to " +:+ output_file)];
                        temp_files := temp_files w |})
                end
            end
        end
    end.
Proof.
  intros Hall Hs. unfold image_to_pdf, try_except.
  rewrite verify_exist_all by exact Hall.
  unfold mbind at 1; unfold M_bind.
  rewrite (get_settings_some self s w Hs).
  unfold mbind at 1; unfold M_bind. rewrite process_images_run. cbv zeta.
  destruct (process_trace s image_files (fs w)) as [lines [e | imgs]];
    cbn [fst snd].
  { unfold_M. unfold say. cbn [fs console temp_files].
    rewrite <- app_assoc. reflexivity. }
  unfold mbind at 1; unfold M_bind. rewrite open_and_write_run.
  unfold say. cbn [fs console temp_files].
  destruct (open_wb output_file (fs w)) as [e |].
  { unfold_M. cbn [fs console temp_files]. rewrite <- app_assoc.
    reflexivity. }
  destruct (img2pdf_convert imgs) as [e | content].
  { unfold_M. cbn [fs console temp_files]. rewrite <- app_assoc.
    reflexivity. }
  destruct (file_write output_file content _) as [[n e] |];
    rewrite set_file_set_file; unfold_M; cbn [fs console temp_files];
    rewrite <- app_assoc; reflexivity.
Qed.

(** What every run of [image_to_pdf] is like. *)
Lemma image_to_pdf_outcome (self : converter) (image_files : list string)
    (output_file : string) w :
  ∃ b w',
    image_to_pdf self image_files output_file w = (Return b, w')
    ∧ same_but output_file (fs w) (fs w')
    ∧ temp_files w' = temp_files w.
Proof.
  destruct (all_exist_or_missing image_files (fs w)) as [Hall | Hmiss].
  2:{ destruct (first_missing_split _ _ Hmiss)
        as (pre & p & post & -> & Hpre & Hp).
      unfold image_to_pdf, try_except.
      rewrite verify_exist_missing by assumption.
      eexists _, _. split; [reflexivity |]. split; [apply same_but_refl |].
      reflexivity. }
  destruct (quality_settings self !! quality self) as [s |] eqn:Hs.
  2:{ rewrite image_to_pdf_no_settings by assumption.
      eexists _, _. split; [reflexivity |]. split; [apply same_but_refl |].
      reflexivity. }
  rewrite (image_to_pdf_run self s image_files output_file w Hall Hs).
  cbv zeta.
  destruct (process_trace s image_files (fs w)).2 as [e | imgs];
    [| destruct (open_wb output_file (fs w)) as [e |];
       [| destruct (img2pdf_convert imgs) as [e | content];
          [| destruct (file_write output_file content _) as [[n e] |]]]];
    eexists _, _; (split; [reflexivity |]); cbn [fs temp_files];
    (split; [| reflexivity]);
    first [apply same_but_set_file | apply same_but_refl].
Qed.

(** X3: [image_to_pdf] returns [True] exactly when every input path exists,
    the quality label is a preset, every image decodes, is made RGB and is
    saved as a JPEG at the preset's quality, optimize flag and DPI tag, the
    output opens, img2pdf accepts the JPEGs and the bytes are written; img2pdf
    then got one JPEG for each input file, in the order of the list, the
    output file holds what img2pdf made of them, and nothing else has
    changed. *)
Theorem image_to_pdf_true_iff (self : converter) (image_files : list string)
    (output_file : string) w w' :
  image_to_pdf self image_files output_file w = (Return true, w')
  ↔ Forall (λ x, path_exists x (fs w) = true) image_files
    ∧ ∃ s processed_images content,
        quality_settings self !! quality self = Some s
        ∧ Forall2 (λ p img_bytes, ∃ data,
            files (fs w) !! p = Some data
            ∧ jpeg_of s (Some (dpi s, dpi s)) data = inr img_bytes)
            image_files processed_images
        ∧ open_wb output_file (fs w) = None
        ∧ img2pdf_convert processed_images = inr content
        ∧ file_write output_file content (set_file output_file [] (fs w))
          = None
        ∧ w' = {| fs := set_file output_file content (fs w);
                  console := console w
                    ++ ((λ p, Stdout ("Processing: " +:+ p)) <$> image_files)
                    ++ [Stdout ("Successfully converted "
                                +:+ pretty (length image_files)
                                +:+ " images to " +:+ output_file)];
                  temp_files := temp_files w |}.
Proof.
  split.
  - intros Hrun.
    destruct (all_exist_or_missing image_files (fs w)) as [Hall | Hmiss].
    2:{ destruct (first_missing_split _ _ Hmiss)
          as (pre & p & post & -> & Hpre & Hp).
        unfold image_to_pdf, try_except in Hrun.
        rewrite verify_exist_missing in Hrun by assumption. discriminate. }
    split; [exact Hall |].
    destruct (quality_settings self !! quality self) as [s |] eqn:Hs.
    2:{ rewrite image_to_pdf_no_settings in Hrun by assumption.
        discriminate. }
    rewrite (image_to_pdf_run self s image_files output_file w Hall Hs)
      in Hrun. cbv zeta in Hrun.
    destruct (process_trace s image_files (fs w)).2 as [e | imgs] eqn:Himgs;
      [discriminate |].
    destruct (open_wb output_file (fs w)) as [e |] eqn:Hopen; [discriminate |].
    destruct (img2pdf_convert imgs) as [e | content] eqn:Hconv;
      [discriminate |].
    destruct (file_write output_file content _) as [[n e] |] eqn:Hwrite;
      [discriminate |].
    injection Hrun as <-. exists s, imgs, content. split; [reflexivity |].
    split; [apply process_trace_collects; exact Himgs |].
    split; [reflexivity |]. split; [exact Hconv |]. split; [exact Hwrite |].
    rewrite (process_trace_lines _ _ _ _ Himgs). reflexivity.
  - intros (Hall & s & imgs & content & Hs & Himgs & Hopen & Hconv & Hwrite
            & ->).
    apply process_trace_collects in Himgs.
    rewrite (image_to_pdf_run self s image_files output_file w Hall Hs).
    cbv zeta.
    rewrite Himgs, Hopen, Hconv, Hwrite, (process_trace_lines _ _ _ _ Himgs).
    reflexivity.
Qed.

(** X4: [image_to_pdf] never raises: it returns a boolean; and it changes
    no directory and no file other than the one at the output path. *)
Theorem image_to_pdf_returns_and_writes_only_output (self : converter)
    (image_files : list string) (output_file : string) w :
  ∃ b w',
    image_to_pdf self image_files output_file w = (Return b, w')
    ∧ dirs (fs w') = dirs (fs w)
    ∧ ∀ p, p ≠ output_file → files (fs w') !! p = files (fs w) !! p.
Proof.
  destruct (image_to_pdf_outcome self image_files output_file w)
    as (b & w' & Hrun & [Hd Hf] & _).
  exists b, w'. auto.
Qed.

(** X5: one image that cannot be read, decoded, made RGB or saved makes
    the whole of [image_to_pdf] fail before the output is opened: the result
    is [False], the file system is as it was (an output file that existed is
    not truncated), and the error of that image is the last line. *)
Theorem image_to_pdf_bad_image_aborts (self : converter) s
    (image_files : list string) (output_file : string) (e : exception) w :
  Forall (λ x, path_exists x (fs w) = true) image_files →
  quality_settings self !! quality self = Some s →
  (process_trace s image_files (fs w)).2 = inl e →
  ∃ w',
    image_to_pdf self image_files output_file w = (Return false, w')
    ∧ fs w' = fs w
    ∧ last (console w')
      = Some (StderrExc "Error converting images to PDF: " e).
Proof.
  intros Hall Hs He.
  rewrite (image_to_pdf_run self s image_files output_file w Hall Hs).
  cbv zeta. rewrite He. eexists. split; [reflexivity |].
  split; [reflexivity |]. cbn [console]. rewrite app_assoc. apply last_snoc.
Qed.

(** X6: when img2pdf refuses the JPEGs, the output file has already been
    opened for writing: [image_to_pdf] returns [False] and leaves an empty
    file at the output path, whatever was there before. *)
Theorem image_to_pdf_failed_layout_truncates_output (self : converter) s
    (image_files : list string) (output_file : string)
    (processed_images : list bytes) (e : exception) w :
  Forall (λ x, path_exists x (fs w) = true) image_files →
  quality_settings self !! quality self = Some s →
  (process_trace s image_files (fs w)).2 = inr processed_images →
  open_wb output_file (fs w) = None →
  img2pdf_convert processed_images = inl e →
  ∃ w',
    image_to_pdf self image_files output_file w = (Return false, w')
    ∧ files (fs w') !! output_file = Some [].
Proof.
  intros Hall Hs Himgs Hopen Hconv.
  rewrite (image_to_pdf_run self s image_files output_file w Hall Hs).
  cbv zeta. rewrite Himgs, Hopen, Hconv. eexists. split; [reflexivity |].
  cbn [fs set_file files]. apply lookup_insert_eq.
Qed.

(** ** [optimize_pdf] *)

Lemma optimize_pdf_outcome (self : converter) (input_file output_file : string)
    w :
  ∃ b w',
    optimize_pdf self input_file output_file w = (Return b, w')
    ∧ same_but output_file (fs w) (fs w')
    ∧ temp_files w' = temp_files w.
Proof.
  destruct (path_exists input_file (fs w)) eqn:Hex.
  2:{ rewrite optimize_pdf_missing by exact Hex. eexists _, _.
      split; [reflexivity |]. split; [apply same_but_refl | reflexivity]. }
  destruct (quality_settings self !! quality self) as [s |] eqn:Hs.
  2:{ unfold optimize_pdf, try_except, get_settings. unfold_M.
      rewrite Hex, Hs. cbn [negb]. unfold_M. eexists _, _.
      split; [reflexivity |]. split; [apply same_but_refl | reflexivity]. }
  destruct (files (fs w) !! input_file) as [data |] eqn:Hdata.
  2:{ unfold optimize_pdf, try_except. unfold_M. rewrite Hex. cbn [negb].
      rewrite (get_settings_some self s _ Hs). unfold read_file. unfold_M.
      cbn [fs]. rewrite Hdata. unfold_M. eexists _, _.
      split; [reflexivity |]. split; [apply same_but_refl | reflexivity]. }
  destruct (pikepdf_open data) as [e | doc] eqn:Hopen.
  { unfold optimize_pdf, try_except. unfold_M. rewrite Hex. cbn [negb].
    rewrite (get_settings_some self s _ Hs).
    rewrite read_file_some with (data := data) by exact Hdata.
    rewrite Hopen. eexists _, _.
    split; [reflexivity |]. split; [apply same_but_refl | reflexivity]. }
  destruct (optimize_images_outcome_after
              (Stdout ("Optimizing: " +:+ input_file)) s doc w)
    as (ls & [(_ & objs' & Hloop & _) | (_ & Hloop)]).
  2:{ rewrite (optimize_pdf_aborted self input_file output_file s data doc ls
                 _ w Hex Hs Hdata Hopen Hloop). eexists _, _.
      split; [reflexivity |]. split; [apply same_but_refl | reflexivity]. }
  rewrite (optimize_pdf_run self input_file output_file s data doc _ ls w
             Hex Hs Hdata Hopen Hloop).
  destruct (pdf_save _ output_file (fs w)) as [out | [part |] e].
  - cbv zeta. case_bool_decide; eexists _, _; (split; [reflexivity |]);
      (split; [apply same_but_set_file | reflexivity]).
  - eexists _, _. split; [reflexivity |].
    split; [apply same_but_set_file | reflexivity].
  - eexists _, _. split; [reflexivity |].
    split; [apply same_but_refl | reflexivity].
Qed.

(** X7: [optimize_pdf] never raises: it returns a boolean; it changes no
    directory and no file other than the one at the output path, so the
    input file is as it was whenever the two paths differ. *)
Theorem optimize_pdf_returns_and_writes_only_output (self : converter)
    (input_file output_file : string) w :
  ∃ b w',
    optimize_pdf self input_file output_file w = (Return b, w')
    ∧ dirs (fs w') = dirs (fs w)
    ∧ (∀ p, p ≠ output_file → files (fs w') !! p = files (fs w) !! p)
    ∧ (input_file ≠ output_file →
       files (fs w') !! input_file = files (fs w) !! input_file).
Proof.
  destruct (optimize_pdf_outcome self input_file output_file w)
    as (b & w' & Hrun & [Hd Hf] & _).
  exists b, w'. auto.
Qed.

(** X8: the image loop only walks the XObject tables of the pages: an
    object that no page's table points to is the same after the loop, also
    when it is an image above the threshold. *)
Theorem optimize_images_skips_unreferenced s (doc doc' : pdf) (ref : nat)
    w w' :
  ref ∉ page_refs doc →
  optimize_images s doc w = (Return doc', w') →
  objects doc' !! ref = objects doc !! ref.
Proof.
  rewrite page_refs_entries. intros Hnot Hrun.
  apply optimize_images_return in Hrun as [_ Hfold].
  exact (for_fold_xobjects_other s ref _ Hnot _ _ _ _ Hfold).
Qed.


(** X19: on a document that opens and has an XObject entry that points to
    no dictionary or stream, [optimize_pdf] gives up at the test of line 161:
    it returns [False] after the message of the outer handler, and writes
    nothing, whatever it did to the images before that entry. *)
Theorem optimize_pdf_gives_up_on_a_non_dictionary_entry (self : converter)
    (input_file output_file : string) s (data : bytes) (doc : pdf) w :
  path_exists input_file (fs w) = true →
  quality_settings self !! quality self = Some s →
  files (fs w) !! input_file = Some data →
  pikepdf_open data = inr doc →
  ¬ Forall (resolves (objects doc)) (xobject_entries doc) →
  ∃ ls,
    optimize_pdf self input_file output_file w
    = (Return false,
       {| fs := fs w;
          console := console w
            ++ Stdout ("Optimizing: " +:+ input_file) :: ls
            ++ [StderrExc "Error optimizing PDF: " not_a_dictionary];
          temp_files := temp_files w |}).
Proof.
  intros Hex Hs Hdata Hopen Hnot.
  destruct (optimize_images_outcome_after
              (Stdout ("Optimizing: " +:+ input_file)) s doc w)
    as (ls & [(Hall & _) | (_ & Hloop)]); [contradiction |].
  exists ls.
  exact (optimize_pdf_aborted self input_file output_file s data doc ls _ w
           Hex Hs Hdata Hopen Hloop).
Qed.

(** ** The commands *)

(** X10: [merge], [convert] and [optimize] never return and never let an
    exception through: they end in [sys.exit], with code 0 when the method
    returned [True] and code 1 when it returned [False], in the world the
    method left. *)
Theorem commands_exit_with_the_method_result (files : list string)
    (input_file output quality : string) w :
  (∃ b w',
     merge_pdfs (PDFConverter None) files output w = (Return b, w')
     ∧ merge files output w
       = (Raise (SystemExit (if b then 0 else 1)), w'))
  ∧ (∃ b w',
       image_to_pdf (PDFConverter (Some quality)) files output w
       = (Return b, w')
       ∧ convert files output quality w
         = (Raise (SystemExit (if b then 0 else 1)), w'))
  ∧ (∃ b w',
       optimize_pdf (PDFConverter (Some quality)) input_file output w
       = (Return b, w')
       ∧ optimize input_file output quality w
         = (Raise (SystemExit (if b then 0 else 1)), w')).
Proof.
  split; [| split].
  - destruct (merge_pdfs_outcome (PDFConverter None) files output w)
      as (b & w' & Hrun & _).
    exists b, w'. split; [exact Hrun |].
    unfold merge. cbv zeta. unfold mbind, M_bind. rewrite Hrun. reflexivity.
  - destruct (image_to_pdf_outcome (PDFConverter (Some quality)) files output
                w) as (b & w' & Hrun & _).
    exists b, w'. split; [exact Hrun |].
    unfold convert. cbv zeta. unfold mbind, M_bind. rewrite Hrun. reflexivity.
  - destruct (optimize_pdf_outcome (PDFConverter (Some quality)) input_file
                output w) as (b & w' & Hrun & _).
    exists b, w'. split; [exact Hrun |].
    unfold optimize. cbv zeta. unfold mbind, M_bind. rewrite Hrun.
    reflexivity.
Qed.

Lemma click_Path_exists_all (param : string) (values : list string) w :
  Forall (λ x, path_exists x (fs w) = true) values →
  click_Path_exists param values w = (Return tt, w).
Proof.
  unfold click_Path_exists. induction 1 as [| p l Hp _ IH]; [reflexivity |].
  cbn [for_each]. unfold_M. rewrite Hp. exact IH.
Qed.

Lemma click_Path_exists_missing (param : string) (values : list string) w :
  (∃ p, p ∈ values ∧ path_exists p (fs w) = false) →
  rejected (click_Path_exists param values w) w.
Proof.
  intros Hmiss.
  destruct (click_Path_exists_cases param values w) as [Hok | Hrej];
    [| exact Hrej].
  exfalso. revert Hmiss Hok. unfold click_Path_exists.
  induction values as [| x l IH]; intros (p & Hin & Hp).
  - inversion Hin.
  - cbn [for_each]. unfold_M. destruct (path_exists x (fs w)) eqn:Hx.
    + apply IH. exists p. split; [| exact Hp].
      apply elem_of_cons in Hin as [-> |]; [congruence | assumption].
    + intros [=].
Qed.

(** X11: a path that does not exist, given to any subcommand, and an empty
    list of inputs given to [merge] or [convert], end the run in click's
    usage error, exit code 2, nothing written: the method and its own check
    for a missing file are not reached. *)
Theorem cli_rejects_missing_and_empty_input (files pdf_files : list string)
    (input_file output : string) (quality : option string) w :
  (files = [] ∨ (∃ p, p ∈ files ∧ path_exists p (fs w) = false) →
     rejected (cli_merge files output w) w
     ∧ rejected (cli_convert files output quality w) w)
  ∧ (path_exists input_file (fs w) = false →
     rejected (cli_optimize input_file output quality w) w)
  ∧ ((∃ p, p ∈ files ++ pdf_files ∧ path_exists p (fs w) = false) →
     rejected (cli_batch files pdf_files output quality w) w).
Proof.
  split; [| split].
  - intros [-> | Hmiss].
    + split; repeat split.
    + split; (apply rejected_after; [apply click_required_cases |]);
        unfold mbind, M_bind;
        destruct (click_Path_exists_missing "'INPUT_FILES...'" files w Hmiss)
          as (E1 & ? & ?);
        destruct (click_Path_exists_missing "'IMAGE_FILES...'" files w Hmiss)
          as (E2 & ? & ?).
      * destruct (click_Path_exists "'INPUT_FILES...'" files w) as [[] ?];
          cbn in *; [discriminate | subst; repeat split; assumption].
      * destruct (click_Path_exists "'IMAGE_FILES...'" files w) as [[] ?];
          cbn in *; [discriminate | subst; repeat split; assumption].
  - intros Hmiss. unfold cli_optimize, mbind, M_bind.
    destruct (click_Path_exists_missing "'INPUT_FILE'" [input_file] w)
      as (E & ? & ?).
    { exists input_file. split; [left | exact Hmiss]. }
    destruct (click_Path_exists "'INPUT_FILE'" [input_file] w) as [[] ?];
      cbn in *; [discriminate | subst; repeat split; assumption].
  - intros (p & Hin & Hp). apply elem_of_app in Hin as [Hin | Hin].
    + unfold cli_batch, mbind, M_bind.
      destruct (click_Path_exists_missing "'[IMAGE_FILES]...'" files w)
        as (E & ? & ?); [eauto |].
      destruct (click_Path_exists "'[IMAGE_FILES]...'" files w) as [[] ?];
        cbn in *; [discriminate | subst; repeat split; assumption].
    + apply rejected_after; [apply click_Path_exists_cases |].
      unfold mbind, M_bind.
      destruct (click_Path_exists_missing "'--pdf'" pdf_files w)
        as (E & ? & ?); [eauto |].
      destruct (click_Path_exists "'--pdf'" pdf_files w) as [[] ?];
        cbn in *; [discriminate | subst; repeat split; assumption].
Qed.

(** X12: with every path existing, the list not empty where the command
    requires one, and the label a preset or omitted, click lets the
    arguments through unchanged and supplies "high" for an omitted label;
    the label the converter is built with always has its settings, so that
    the preset lookup cannot fail in a run started from the command line. *)
Theorem cli_passes_valid_arguments (files pdf_files : list string)
    (input_file output : string) (label : option string) w :
  Forall (λ x, path_exists x (fs w) = true) files →
  Forall (λ x, path_exists x (fs w) = true) pdf_files →
  path_exists input_file (fs w) = true →
  default "high" label ∈ ["high"; "medium"; "low"] →
  (files ≠ [] →
     cli_merge files output w = merge files output w
     ∧ cli_convert files output label w
       = convert files output (default "high" label) w)
  ∧ cli_optimize input_file output label w
    = optimize input_file output (default "high" label) w
  ∧ cli_batch files pdf_files output label w
    = batch files pdf_files output (default "high" label) w
  ∧ is_Some (quality_settings (PDFConverter (Some (default "high" label)))
             !! quality (PDFConverter (Some (default "high" label)))).
Proof.
  intros Hfiles Hpdfs Hin Hq.
  assert (Hquality : click_quality label w
                     = (Return (default "high" label), w)).
  { destruct label as [q |]; [apply click_quality_valid; exact Hq |].
    reflexivity. }
  split; [| split; [| split]].
  - intros Hne. unfold cli_merge, cli_convert.
    assert (Hreq : ∀ param, click_required param files w = (Return tt, w))
      by (intros param; destruct files; [congruence | reflexivity]).
    unfold mbind, M_bind. rewrite !Hreq.
    rewrite !click_Path_exists_all by exact Hfiles.
    rewrite Hquality. split; reflexivity.
  - unfold cli_optimize, mbind, M_bind.
    rewrite click_Path_exists_all by (constructor; [exact Hin | constructor]).
    rewrite Hquality. reflexivity.
  - unfold cli_batch, mbind, M_bind.
    rewrite !click_Path_exists_all by assumption.
    rewrite Hquality. reflexivity.
  - change (quality (PDFConverter (Some (default "high" label))))
      with (default "high" label).
    revert Hq. generalize (default "high" label) as q. intros q.
    rewrite !elem_of_cons, elem_of_nil.
    intros [-> | [-> | [-> | []]]]; eexists; reflexivity.
Qed.

(** ** [batch] *)

Lemma batch_with_input (image_files pdf_files : list string)
    (output quality d : string) w :
  mkdtemp (fs w) = inr d →
  image_files ≠ [] ∨ pdf_files ≠ [] →
  batch image_files pdf_files output quality w
  = try_finally (batch_steps image_files pdf_files output quality d)
      (batch_cleanup d)
      {| fs := add_dir d (fs w); console := console w; temp_files := [] |}.
Proof.
  intros Hd Hinput. unfold batch, tempfile_mkdtemp.
  unfold mbind at 1; unfold M_bind. unfold set_temp_files at 1.
  cbv beta iota zeta.
  unfold mbind at 1; unfold M_bind. unfold_M. cbn [fs]. rewrite Hd.
  cbn [fs console temp_files].
  assert (bool_decide (image_files = []) && bool_decide (pdf_files = [])
          = false) as ->.
  { destruct Hinput as [Hne | Hne];
      [rewrite (bool_decide_eq_false_2 _ Hne); reflexivity |].
    rewrite (bool_decide_eq_false_2 (pdf_files = []) Hne).
    apply andb_false_r. }
  reflexivity.
Qed.

Ltac step_outcome lem :=
  match goal with
  | |- context [merge_pdfs ?c ?l ?o ?w0] =>
      destruct (lem c l o w0) as ([] & ? & -> & _)
  | |- context [image_to_pdf ?c ?l ?o ?w0] =>
      destruct (lem c l o w0) as ([] & ? & -> & _)
  | |- context [optimize_pdf ?c ?i ?o ?w0] =>
      destruct (lem c i o w0) as ([] & ? & -> & _)
  end;
  cbn [negb fs console temp_files];
  [| eexists _, _; split; [reflexivity | right; reflexivity]].

Lemma batch_steps_exits (image_files pdf_files : list string)
    (output quality d : string) w :
  ∃ c w',
    batch_steps image_files pdf_files output quality d w
    = (Raise (SystemExit c), w')
    ∧ (c = 0 ∧ last (console w')
               = Some (Stdout (String "010"%char "Batch processing complete: "
                               +:+ output))
       ∨ c = 1).
Proof.
  unfold batch_steps. cbv zeta.
  destruct (bool_decide (image_files = [])); cbn [negb]; unfold_M.
  - step_outcome merge_pdfs_outcome. step_outcome optimize_pdf_outcome.
    eexists _, _. split; [reflexivity |]. left. split; [reflexivity |].
    cbn [console]. apply last_snoc.
  - step_outcome image_to_pdf_outcome. step_outcome merge_pdfs_outcome.
    step_outcome optimize_pdf_outcome.
    eexists _, _. split; [reflexivity |]. left. split; [reflexivity |].
    cbn [console]. apply last_snoc.
Qed.

Lemma try_finally_cleanup {A} (body : M A) (d : string) w :
  ∃ w', try_finally body (batch_cleanup d) w = ((body w).1, w')
        ∧ batch_cleanup d (body w).2 = (Return tt, w').
Proof.
  unfold try_finally. destruct (body w) as [r w1]. cbn [fst snd].
  destruct (batch_cleanup_never_raises d w1) as (w' & E & _).
  exists w'. rewrite E. split; reflexivity.
Qed.

(** X13: once the temporary directory is made, [batch] ends in [sys.exit]
    with code 0 or 1 and never lets an exception through, whatever the
    libraries and the deletions of the cleanup do; with code 0 the last line
    printed is the line of completion. *)
Theorem batch_exits_with_0_or_1 (image_files pdf_files : list string)
    (output quality d : string) w :
  mkdtemp (fs w) = inr d →
  ∃ c w',
    batch image_files pdf_files output quality w = (Raise (SystemExit c), w')
    ∧ (c = 0 ∧ last (console w')
               = Some (Stdout (String "010"%char "Batch processing complete: "
                               +:+ output))
       ∨ c = 1).
Proof.
  intros Hd.
  destruct (decide (image_files = [] ∧ pdf_files = [])) as [[-> ->] | Hne].
  - rewrite (batch_without_input output quality d w Hd).
    eexists _, _. split; [reflexivity | right; reflexivity].
  - rewrite (batch_with_input image_files pdf_files output quality d w Hd).
    2:{ destruct image_files; [| left; congruence].
        destruct pdf_files; [exfalso; auto | right; congruence]. }
    match goal with
    | |- context [try_finally ?body _ ?w1] =>
        destruct (try_finally_cleanup body d w1) as (w' & -> & Hclean);
        destruct (batch_steps_exits image_files pdf_files output quality d w1)
          as (c & w2 & Hsteps & Hc)
    end.
    rewrite Hsteps in Hclean |- *. cbn [fst snd] in Hclean |- *.
    exists c, w'. split; [reflexivity |].
    destruct (batch_cleanup_never_raises d w2) as (w'' & E & Hcons).
    rewrite E in Hclean. injection Hclean as <-. rewrite Hcons. exact Hc.
Qed.

Lemma del_file_absent (p : string) (f : filesystem) :
  files f !! p = None → del_file p f = f.
Proof.
  intros Hp. destruct f as [fl ds]. unfold del_file. cbn [files dirs] in *.
  rewrite delete_id by exact Hp. reflexivity.
Qed.

(** One turn of the loop of the cleanup, when the system allows deletions. *)
Lemma cleanup_step (p : string) w :
  (∀ x f, remove_denied x f = false) →
  (found ← os_path_exists p;
   if found : bool then try_except_OSError (os_remove p) else mret tt) w
  = (Return tt,
     {| fs := del_file p (fs w); console := console w;
        temp_files := temp_files w |}).
Proof.
  intros Hallow. unfold_M.
  destruct (files (fs w) !! p) as [data |] eqn:Hp.
  - assert (path_exists p (fs w) = true) as ->
      by (unfold path_exists; rewrite Hp; reflexivity).
    unfold try_except_OSError, os_remove. unfold_M.
    rewrite Hallow, Hp. cbn [negb]. rewrite bool_decide_eq_true_2 by eauto.
    reflexivity.
  - rewrite (del_file_absent p (fs w) Hp).
    destruct (path_exists p (fs w)); [| destruct w; reflexivity].
    unfold try_except_OSError, os_remove. unfold_M. rewrite Hp.
    rewrite (bool_decide_eq_false_2 (is_Some None)) by (intros [? [=]]).
    destruct w. reflexivity.
Qed.

Lemma cleanup_loop (l : list string) w :
  (∀ x f, remove_denied x f = false) →
  for_each l (λ temp_file,
    found ← os_path_exists temp_file;
    if found : bool then try_except_OSError (os_remove temp_file)
    else mret tt) w
  = (Return tt,
     {| fs := foldl (λ f p, del_file p f) (fs w) l; console := console w;
        temp_files := temp_files w |}).
Proof.
  intros Hallow. revert w. induction l as [| p l IH]; intros w.
  - destruct w. reflexivity.
  - cbn [for_each foldl]. unfold mbind at 1; unfold M_bind. cbv beta.
    match goal with
    | |- (let (o, w') := ?m w in _) = _ =>
        replace (m w)
          with (Return tt,
                {| fs := del_file p (fs w); console := console w;
                   temp_files := temp_files w |})
          by (symmetry; apply (cleanup_step p w Hallow))
    end.
    rewrite IH. reflexivity.
Qed.

Lemma files_after_cleanup (l : list string) (f : filesystem) (p : string) :
  files (foldl (λ f p, del_file p f) f l) !! p
  = if bool_decide (p ∈ l) then None else files f !! p.
Proof.
  revert f. induction l as [| x l IH]; intros f; [reflexivity |].
  cbn [foldl]. rewrite IH. cbn [del_file files].
  destruct (decide (p = x)) as [-> | Hne].
  - rewrite lookup_delete_eq.
    rewrite (bool_decide_eq_true_2 (x ∈ x :: l)) by left.
    destruct (bool_decide (x ∈ l)); reflexivity.
  - rewrite lookup_delete_ne by congruence.
    destruct (bool_decide_reflect (p ∈ l)) as [Hin | Hnot].
    + rewrite bool_decide_eq_true_2 by (right; exact Hin). reflexivity.
    + rewrite bool_decide_eq_false_2; [reflexivity |].
      intros Hin. apply elem_of_cons in Hin as [? | ?]; auto.
Qed.

Lemma dirs_after_cleanup (l : list string) (f : filesystem) :
  dirs (foldl (λ f p, del_file p f) f l) = dirs f.
Proof.
  revert f. induction l as [| x l IH]; intros f; [reflexivity |].
  cbn [foldl]. rewrite IH. reflexivity.
Qed.

Lemma batch_cleanup_run (temp_dir : string) w :
  (∀ x f, remove_denied x f = false) →
  batch_cleanup temp_dir w
  = let f1 := foldl (λ f p, del_file p f) (fs w) (temp_files w) in
    (Return tt,
     {| fs := if bool_decide (temp_dir ∈ dirs f1) && dir_empty temp_dir f1
                 && negb (rmdir_denied temp_dir f1)
              then del_dir temp_dir f1 else f1;
        console := console w; temp_files := temp_files w |}).
Proof.
  intros Hallow. unfold batch_cleanup.
  unfold mbind at 1; unfold M_bind. unfold get_temp_files at 1.
  cbv beta iota. unfold mbind at 1; unfold M_bind.
  match goal with
  | |- (let (o, w') := ?m in _) = _ =>
      replace m
        with (Return tt,
              {| fs := foldl (λ f p, del_file p f) (fs w) (temp_files w);
                 console := console w; temp_files := temp_files w |})
        by (symmetry; apply (cleanup_loop (temp_files w) w Hallow))
  end.
  unfold try_except_OSError, os_rmdir. unfold_M. cbn [fs].
  destruct (bool_decide _ && dir_empty _ _ && negb _); reflexivity.
Qed.

(** X14: when the system refuses no file deletion, the cleanup of [batch]
    returns normally, leaves no file at any path on the list of temporary
    files, changes no other file, prints nothing, and takes at most the
    temporary directory out of the directories. *)
Theorem batch_cleanup_removes_listed_files (temp_dir : string) w :
  (∀ x f, remove_denied x f = false) →
  ∃ w',
    batch_cleanup temp_dir w = (Return tt, w')
    ∧ (∀ p, p ∈ temp_files w → files (fs w') !! p = None)
    ∧ (∀ p, p ∉ temp_files w → files (fs w') !! p = files (fs w) !! p)
    ∧ (dirs (fs w') = dirs (fs w) ∨ dirs (fs w') = dirs (fs w) ∖ {[temp_dir]})
    ∧ console w' = console w.
Proof.
  intros Hallow. rewrite (batch_cleanup_run temp_dir w Hallow). cbv zeta.
  eexists. split; [reflexivity |]. cbn [fs console].
  assert (Hfiles : ∀ p,
    files (if bool_decide
                (temp_dir ∈ dirs (foldl (λ f p, del_file p f) (fs w)
                                    (temp_files w)))
              && dir_empty temp_dir
                   (foldl (λ f p, del_file p f) (fs w) (temp_files w))
              && negb (rmdir_denied temp_dir
                         (foldl (λ f p, del_file p f) (fs w) (temp_files w)))
           then del_dir temp_dir
                  (foldl (λ f p, del_file p f) (fs w) (temp_files w))
           else foldl (λ f p, del_file p f) (fs w) (temp_files w)) !! p
    = if bool_decide (p ∈ temp_files w) then None else files (fs w) !! p).
  { intros p. rewrite <- files_after_cleanup.
    destruct (_ && _ && _); reflexivity. }
  split; [| split; [| split; [| reflexivity]]].
  - intros p Hin. rewrite Hfiles, bool_decide_eq_true_2 by exact Hin.
    reflexivity.
  - intros p Hnot. rewrite Hfiles, bool_decide_eq_false_2 by exact Hnot.
    reflexivity.
  - destruct (_ && _ && _); cbn [del_dir dirs];
      rewrite dirs_after_cleanup; auto.
Qed.

(** ** Paths in the temporary directory *)

Lemma append_assoc (a b c : string) : (a +:+ b) +:+ c = a +:+ b +:+ c.
Proof.
  induction a as [| x a IH]; [reflexivity |].
  change (String x ((a +:+ b) +:+ c) = String x (a +:+ b +:+ c)).
  f_equal. exact IH.
Qed.

Lemma prefix_append (a b : string) : String.prefix a (a +:+ b) = true.
Proof.
  induction a as [| x a IH]; [destruct b; reflexivity |].
  simpl. destruct (ascii_dec x x); [exact IH | congruence].
Qed.

Lemma append_inj_r (a b c : string) : a +:+ b = a +:+ c → b = c.
Proof.
  induction a as [| x a IH]; [auto |]. simpl. intros [= E]. auto.
Qed.

Lemma path_join_relative (d name : string) :
  d ≠ "" → ends_with_sep d = false → String.prefix "/" name = false →
  path_join d name = d +:+ "/" +:+ name.
Proof.
  intros Hd Hsep Hname. unfold path_join. rewrite Hname, Hsep.
  rewrite bool_decide_eq_false_2 by exact Hd. reflexivity.
Qed.

Lemma below_join (d name : string) : below d (d +:+ "/" +:+ name) = true.
Proof. unfold below. rewrite <- append_assoc. apply prefix_append. Qed.

Lemma not_below_self (d : string) : below d d = false.
Proof.
  unfold below. induction d as [| x d IH]; [reflexivity |].
  simpl. destruct (ascii_dec x x); [exact IH | reflexivity].
Qed.

(** The world in which the steps of [batch] end with [sys.exit(0)]. *)
Lemma batch_steps_success (image_files pdf_files : list string)
    (output quality d : string) w1 w2 :
  temp_files w1 = [] →
  batch_steps image_files pdf_files output quality d w1
  = (Raise (SystemExit 0), w2) →
  ∃ data,
    files (fs w2) !! output = Some data
    ∧ dirs (fs w2) = dirs (fs w1)
    ∧ (∀ p, p ≠ path_join d "temp_images.pdf" →
            p ≠ path_join d "temp_merged.pdf" → p ≠ output →
            files (fs w2) !! p = files (fs w1) !! p)
    ∧ path_join d "temp_merged.pdf" ∈ temp_files w2
    ∧ (path_join d "temp_images.pdf" ∈ temp_files w2
       ∨ (path_join d "temp_images.pdf" ≠ path_join d "temp_merged.pdf" →
          path_join d "temp_images.pdf" ≠ output →
          files (fs w2) !! path_join d "temp_images.pdf"
          = files (fs w1) !! path_join d "temp_images.pdf"))
    ∧ (∀ p, p ∈ temp_files w2 →
            p = path_join d "temp_images.pdf"
            ∨ p = path_join d "temp_merged.pdf").
Proof.
  intros Htf Hsteps. unfold batch_steps in Hsteps. cbv zeta in Hsteps.
  set (t1 := path_join d "temp_images.pdf") in *.
  set (t2 := path_join d "temp_merged.pdf") in *.
  assert (Hrest : ∀ wa w2,
    dirs (fs wa) = dirs (fs w1) →
    (temp_files ← get_temp_files;
     ok ← merge_pdfs (PDFConverter (Some quality)) (temp_files ++ pdf_files)
            t2;
     (if negb ok then sys_exit 1 else mret tt);;
     temp_files ← get_temp_files;
     set_temp_files (temp_files ++ [t2]);;
     ok ← optimize_pdf (PDFConverter (Some quality)) t2 output;
     (if negb ok then sys_exit 1 else mret tt);;
     echo (Stdout (String "010"%char "Batch processing complete: "
                   +:+ output));;
     (sys_exit 0 : M unit)) wa = (Raise (SystemExit 0), w2) →
    ∃ data,
      files (fs w2) !! output = Some data
      ∧ dirs (fs w2) = dirs (fs w1)
      ∧ (∀ p, p ≠ t2 → p ≠ output → files (fs w2) !! p = files (fs wa) !! p)
      ∧ temp_files w2 = temp_files wa ++ [t2]).
  { clear Hsteps w2. intros wa w2 Hdirs Hrun. unfold_M.
    match type of Hrun with
    | context [merge_pdfs ?c ?l ?o ?w0] =>
        destruct (merge_pdfs_outcome c l o w0)
          as (b & wb & Eb & [Db Fb] & Tb); rewrite Eb in Hrun
    end.
    destruct b; cbn [negb] in Hrun; [| discriminate].
    cbn [fs console temp_files] in Hrun.
    match type of Hrun with
    | context [optimize_pdf ?c ?i ?o ?w0] =>
        destruct (optimize_pdf_outcome c i o w0) as (b & wc & Ec & _);
          rewrite Ec in Hrun; destruct b; cbn [negb] in Hrun;
          [| discriminate];
          apply optimize_pdf_true_inv in Ec
            as (? & ? & ? & ? & ? & out & _ & _ & _ & _ & _ & _ & _ & _ & ->)
    end.
    cbn [fs console temp_files] in Hrun. injection Hrun as <-.
    cbn [fs console temp_files set_file files dirs].
    exists out. split; [apply lookup_insert_eq |].
    split; [congruence |]. split; [| congruence].
    intros p Hp2 Hpo. rewrite lookup_insert_ne by congruence.
    apply Fb. exact Hp2. }
  unfold mbind at 1 in Hsteps; unfold M_bind in Hsteps.
  destruct (bool_decide (image_files = [])); cbn [negb] in Hsteps.
  - unfold mret at 1 in Hsteps; unfold M_ret at 1 in Hsteps.
    destruct (Hrest w1 w2 eq_refl Hsteps) as (data & Ho & Hd & Hf & Ht).
    exists data. split; [exact Ho |]. split; [exact Hd |].
    split; [intros p _; apply Hf |].
    split; [rewrite Ht; apply elem_of_app; right; left |].
    split; [right; intros H12 H1o; apply Hf; assumption |].
    intros p. rewrite Ht, Htf. cbn [app].
    intros Hin. apply list_elem_of_singleton in Hin. auto.
  - unfold mbind at 1 in Hsteps; unfold M_bind in Hsteps.
    destruct (image_to_pdf_outcome (PDFConverter (Some quality)) image_files
                t1 w1) as (b & wa & Ea & [Da Fa] & Ta).
    rewrite Ea in Hsteps. destruct b; cbn [negb] in Hsteps;
      [| unfold_M; discriminate].
    unfold mbind at 1 in Hsteps; unfold M_bind in Hsteps.
    unfold mret at 1 in Hsteps; unfold M_ret at 1 in Hsteps.
    unfold mbind at 1 in Hsteps; unfold M_bind in Hsteps.
    unfold get_temp_files at 1 in Hsteps.
    unfold set_temp_files at 1 in Hsteps. cbv beta iota in Hsteps.
    match type of Hsteps with
    | _ ?wa' = _ =>
        destruct (Hrest wa' w2 Da Hsteps) as (data & Ho & Hd & Hf & Ht)
    end.
    cbn [fs temp_files] in Hf, Ht.
    exists data. split; [exact Ho |]. split; [exact Hd |].
    split; [intros p Hp1 Hp2 Hpo; rewrite Hf by assumption; apply Fa, Hp1 |].
    split; [rewrite Ht; apply elem_of_app; right; left |].
    split;
      [left; rewrite Ht; apply elem_of_app; left; apply elem_of_app; right;
       left |].
    intros p. rewrite Ht, Ta, Htf. cbn [app]. rewrite !elem_of_cons.
    intros [-> | [-> | Hnil]]; [auto | auto | inversion Hnil].
Qed.

Lemma absent_no_file (p : string) (f : filesystem) :
  path_exists p f = false → files f !! p = None.
Proof.
  unfold path_exists. intros Hp. apply orb_false_elim in Hp as [Hp _].
  apply bool_decide_eq_false in Hp.
  destruct (files f !! p); [exfalso; eauto | reflexivity].
Qed.

Lemma absent_no_dir (p : string) (f : filesystem) :
  path_exists p f = false → p ∉ dirs f.
Proof.
  unfold path_exists. intros Hp. apply orb_false_elim in Hp as [_ Hp].
  apply bool_decide_eq_false in Hp. exact Hp.
Qed.

(** X15: a run of [batch] that exits with code 0 leaves the file system as
    it was before the run but for the output file: the temporary files and
    the temporary directory are gone.  This holds when the system refuses no
    deletion, [tempfile.mkdtemp] has made a directory that did not exist,
    with nothing below it, its name not ending in a separator, and the output
    path is not inside that directory. *)
Theorem batch_success_leaves_only_the_output
    (image_files pdf_files : list string) (output quality d : string) w w' :
  (∀ x f, remove_denied x f = false) →
  (∀ x f, rmdir_denied x f = false) →
  mkdtemp (fs w) = inr d →
  d ≠ "" → ends_with_sep d = false →
  path_exists d (fs w) = false →
  (∀ p, below d p = true → path_exists p (fs w) = false) →
  below d output = false →
  batch image_files pdf_files output quality w = (Raise (SystemExit 0), w') →
  ∃ data, fs w' = set_file output data (fs w).
Proof.
  intros Hrm Hrmdir Hd Hne Hsep Hfresh Hbelow Hout Hrun.
  destruct (decide (image_files = [] ∧ pdf_files = [])) as [[-> ->] | Hin].
  { rewrite (batch_without_input output quality d w Hd) in Hrun.
    discriminate. }
  rewrite (batch_with_input image_files pdf_files output quality d w Hd)
    in Hrun.
  2:{ destruct image_files; [| left; congruence].
      destruct pdf_files; [exfalso; auto | right; congruence]. }
  set (w1 := {| fs := add_dir d (fs w); console := console w;
                temp_files := [] |}) in *.
  destruct (try_finally_cleanup
              (batch_steps image_files pdf_files output quality d) d w1)
    as (w'' & Etf & Hclean).
  rewrite Etf in Hrun. injection Hrun as Hexit <-.
  destruct (batch_steps image_files pdf_files output quality d w1)
    as [r w2] eqn:Hsteps. cbn [fst snd] in Hexit, Hclean. subst r.
  destruct (batch_steps_success _ _ _ _ _ w1 w2 eq_refl Hsteps)
    as (data & Ho & Hdirs & Hframe & Ht2 & Ht1 & Htemp).
  rewrite (path_join_relative d "temp_images.pdf" Hne Hsep eq_refl)
    in Hframe, Ht1, Htemp.
  rewrite (path_join_relative d "temp_merged.pdf" Hne Hsep eq_refl)
    in Hframe, Ht2, Ht1, Htemp.
  set (t1 := d +:+ "/" +:+ "temp_images.pdf") in *.
  set (t2 := d +:+ "/" +:+ "temp_merged.pdf") in *.
  assert (Hb1 : below d t1 = true) by apply below_join.
  assert (Hb2 : below d t2 = true) by apply below_join.
  assert (H1o : t1 ≠ output) by (intros E; rewrite E in Hb1; congruence).
  assert (H2o : t2 ≠ output) by (intros E; rewrite E in Hb2; congruence).
  assert (H12 : t1 ≠ t2).
  { unfold t1, t2. intros E. apply append_inj_r in E. discriminate. }
  assert (Hn1 : files (fs w) !! t1 = None) by auto using absent_no_file.
  assert (Hn2 : files (fs w) !! t2 = None) by auto using absent_no_file.
  cbn [w1 fs add_dir files dirs] in Hframe, Ht1, Hdirs.
  (* the files once the listed ones are deleted *)
  set (f1 := foldl (λ f p, del_file p f) (fs w2) (temp_files w2)) in *.
  assert (Hfiles : ∀ p, files f1 !! p = <[output := data]> (files (fs w)) !! p).
  { intros p. unfold f1. rewrite files_after_cleanup.
    destruct (bool_decide_reflect (p ∈ temp_files w2)) as [Hp | Hp].
    - destruct (Htemp p Hp) as [-> | ->];
        rewrite lookup_insert_ne by congruence; auto.
    - destruct (decide (p = output)) as [-> | Hpo];
        [rewrite lookup_insert_eq; exact Ho |].
      rewrite lookup_insert_ne by congruence.
      destruct (decide (p = t2)) as [-> | Hp2]; [contradiction |].
      destruct (decide (p = t1)) as [-> | Hp1]; [| apply Hframe; assumption].
      destruct Ht1 as [Hin1 | Hsame]; [contradiction | auto]. }
  assert (Hdirs1 : dirs f1 = {[d]} ∪ dirs (fs w))
    by (unfold f1; rewrite dirs_after_cleanup; exact Hdirs).
  assert (Hempty : dir_empty d f1 = true).
  { unfold dir_empty. apply andb_true_intro. split; apply forallb_forall;
      intros p Hp; apply list_elem_of_In, elem_of_elements in Hp;
      apply negb_true_iff; destruct (below d p) eqn:Hbp; try reflexivity;
      exfalso.
    - apply elem_of_dom in Hp. rewrite Hfiles in Hp.
      destruct (decide (p = output)) as [-> | Hpo]; [congruence |].
      rewrite lookup_insert_ne in Hp by congruence.
      rewrite (absent_no_file p (fs w) (Hbelow p Hbp)) in Hp.
      destruct Hp as [? [=]].
    - rewrite Hdirs1 in Hp. apply elem_of_union in Hp as [Hp | Hp].
      + apply elem_of_singleton in Hp as ->. rewrite not_below_self in Hbp.
        discriminate.
      + apply (absent_no_dir p (fs w) (Hbelow p Hbp)). exact Hp. }
  rewrite (batch_cleanup_run d w2 Hrm) in Hclean. cbv zeta in Hclean.
  fold f1 in Hclean. rewrite Hempty, Hrmdir in Hclean.
  rewrite bool_decide_eq_true_2 in Hclean
    by (rewrite Hdirs1; apply elem_of_union_l, elem_of_singleton; reflexivity).
  cbn [andb negb] in Hclean. injection Hclean as <-. cbn [fs].
  exists data. unfold del_dir, set_file. f_equal.
  - apply map_eq. exact Hfiles.
  - rewrite Hdirs1. apply absent_no_dir in Hfresh. apply set_eq. intros x.
    rewrite elem_of_difference, elem_of_union, !elem_of_singleton. split.
    + intros [[-> | Hx] Hxd]; [contradiction | exact Hx].
    + intros Hx. split; [right; exact Hx | intros ->; contradiction].
Qed.

(** X16: the steps of [batch] are gated: when the conversion of the images
    returns [False], neither the merge nor the optimization runs and the
    exit code is 1; the list of temporary files is still empty, so the cleanup
    deletes no file, and when the failed conversion has left its file in
    the temporary directory, that file and the directory are still there
    when the process exits. *)
Theorem batch_stops_after_failed_conversion
    (image_files pdf_files : list string) (output quality d : string) w w2 :
  mkdtemp (fs w) = inr d →
  image_files ≠ [] →
  image_to_pdf (PDFConverter (Some quality)) image_files
    (path_join d "temp_images.pdf")
    {| fs := add_dir d (fs w); console := console w; temp_files := [] |}
  = (Return false, w2) →
  ∃ w',
    batch image_files pdf_files output quality w = (Raise (SystemExit 1), w')
    ∧ console w' = console w2
    ∧ files (fs w') = files (fs w2)
    ∧ (is_Some (files (fs w2) !! path_join d "temp_images.pdf") →
       below d (path_join d "temp_images.pdf") = true →
       d ∈ dirs (fs w')).
Proof.
  intros Hd Hne Himg.
  rewrite (batch_with_input image_files pdf_files output quality d w Hd)
    by (left; exact Hne).
  destruct (image_to_pdf_outcome (PDFConverter (Some quality)) image_files
              (path_join d "temp_images.pdf")
              {| fs := add_dir d (fs w); console := console w;
                 temp_files := [] |})
    as (b & wa & Ea & [Da _] & Ta).
  rewrite Himg in Ea. injection Ea as <- <-. cbn [fs temp_files] in Da, Ta.
  unfold try_finally, batch_steps. cbv zeta.
  rewrite bool_decide_eq_false_2 by exact Hne. cbn [negb].
  unfold mbind at 1; unfold M_bind. unfold mbind at 1; unfold M_bind.
  rewrite Himg. cbn [negb]. unfold_M.
  unfold batch_cleanup, try_except_OSError, os_rmdir. unfold_M.
  rewrite Ta. cbn [for_each]. unfold_M. cbn [fs].
  destruct (bool_decide (d ∈ dirs (fs w2)) && dir_empty d (fs w2)
            && negb (rmdir_denied d (fs w2))) eqn:Hcond;
    eexists; (split; [reflexivity |]); cbn [fs console del_dir files dirs];
    (split; [reflexivity |]); (split; [reflexivity |]); intros Hfile Hbelow.
  - exfalso. apply andb_prop in Hcond as [Hcond _].
    apply andb_prop in Hcond as [_ Hempty]. unfold dir_empty in Hempty.
    apply andb_prop in Hempty as [Hempty _].
    rewrite forallb_forall in Hempty.
    specialize (Hempty (path_join d "temp_images.pdf")).
    rewrite Hbelow in Hempty. discriminate Hempty.
    apply list_elem_of_In, elem_of_elements, elem_of_dom. exact Hfile.
  - rewrite Da. cbn [add_dir dirs].
    apply elem_of_union_l, elem_of_singleton. reflexivity.
Qed.

(** X17: [merge_pdfs] does not remove what a failed write has left: when
    PyPDF2 raises after writing part of the output, the method returns
    [False] and that part is the content of the output file. *)
Theorem merge_pdfs_leaves_partial_output (self : converter)
    (input_files : list string) (output_file : string) (merger : Merger)
    (part : bytes) (e : exception) w :
  Forall (λ x, path_exists x (fs w) = true) input_files →
  (append_trace PdfMerger input_files (fs w)).2 = inr merger →
  merger_write merger output_file (fs w) = WriteFailed (Some part) e →
  ∃ w',
    merge_pdfs self input_files output_file w = (Return false, w')
    ∧ files (fs w') !! output_file = Some part
    ∧ same_but output_file (fs w) (fs w').
Proof.
  intros Hall Hm Hw.
  rewrite (merge_pdfs_run self input_files output_file w Hall), Hm, Hw.
  eexists. split; [reflexivity |]. cbn [fs set_file files].
  split; [apply lookup_insert_eq | apply same_but_set_file].
Qed.

Lemma rejected_exit (r : outcome unit * world) w :
  rejected r w → ∃ w', r = (Raise (SystemExit 2), w').
Proof. destruct r as [o w']. intros (E & _). cbn in E. subst o. eauto. Qed.

Lemma checked_then (m : M unit) (k : unit → M unit) w :
  m w = (Return tt, w) ∨ rejected (m w) w →
  (m ≫= k) w = k tt w ∨ ∃ w', (m ≫= k) w = (Raise (SystemExit 2), w').
Proof.
  unfold mbind, M_bind. intros [-> | Hrej]; [left; reflexivity |].
  right. destruct (rejected_exit _ _ Hrej) as [w' ->]. eauto.
Qed.

Ltac check_step :=
  match goal with
  | |- ∃ c w', (?m ≫= ?k) ?w = _ ∧ _ =>
      let w' := fresh "w'" in
      destruct (checked_then m k w
                  ltac:(first [apply click_required_cases
                              | apply click_Path_exists_cases]))
        as [-> | [w' ->]];
      [| eexists _, _; split; [reflexivity | auto]]
  end.

(** X18: every run of a subcommand ends in [sys.exit] with code 0, 1 or
    2, code 2 being click's usage error, and never lets an exception
    through; for [batch] this holds once [tempfile.mkdtemp] succeeds. *)
Theorem cli_exit_codes (files pdf_files : list string)
    (input_file output d : string) (label : option string) w :
  let ends (r : outcome unit * world) :=
    ∃ c w', r = (Raise (SystemExit c), w') ∧ (c = 0 ∨ c = 1 ∨ c = 2) in
  ends (cli_merge files output w)
  ∧ ends (cli_convert files output label w)
  ∧ ends (cli_optimize input_file output label w)
  ∧ (mkdtemp (fs w) = inr d →
     ends (cli_batch files pdf_files output label w)).
Proof.
  cbv zeta.
  assert (Hq : ∀ k : string → M unit,
    (∀ q, ∃ c w', k q w = (Raise (SystemExit c), w')
                  ∧ (c = 0 ∨ c = 1 ∨ c = 2)) →
    ∃ c w', (click_quality label ≫= k) w = (Raise (SystemExit c), w')
            ∧ (c = 0 ∨ c = 1 ∨ c = 2)).
  { intros k Hk. unfold mbind, M_bind, click_quality, click_Choice.
    destruct label as [q |]; [case_bool_decide |]; [apply Hk | | apply Hk].
    eexists _, _. split; [reflexivity | auto]. }
  assert (Hmerge : ∃ c w', merge files output w = (Raise (SystemExit c), w')
                           ∧ (c = 0 ∨ c = 1 ∨ c = 2)).
  { destruct (commands_exit_with_the_method_result files input_file output ""
                w) as ((b & w' & _ & ->) & _).
    eexists _, _. split; [reflexivity |]. destruct b; auto. }
  assert (Hconvert : ∀ q, ∃ c w',
             convert files output q w = (Raise (SystemExit c), w')
             ∧ (c = 0 ∨ c = 1 ∨ c = 2)).
  { intros q.
    destruct (commands_exit_with_the_method_result files input_file output q
                w) as (_ & (b & w' & _ & ->) & _).
    eexists _, _. split; [reflexivity |]. destruct b; auto. }
  assert (Hoptimize : ∀ q, ∃ c w',
             optimize input_file output q w = (Raise (SystemExit c), w')
             ∧ (c = 0 ∨ c = 1 ∨ c = 2)).
  { intros q.
    destruct (commands_exit_with_the_method_result files input_file output q
                w) as (_ & _ & (b & w' & _ & ->)).
    eexists _, _. split; [reflexivity |]. destruct b; auto. }
  split; [| split; [| split]].
  - unfold cli_merge. do 2 check_step. exact Hmerge.
  - unfold cli_convert. do 2 check_step. apply Hq, Hconvert.
  - unfold cli_optimize. check_step. apply Hq, Hoptimize.
  - intros Hd. unfold cli_batch. do 2 check_step.
    apply Hq. intros q.
    destruct (batch_exits_with_0_or_1 files pdf_files output q d w Hd)
      as (c & w' & -> & Hc).
    eexists _, _. split; [reflexivity |]. destruct Hc as [[-> _] | ->]; auto.
Qed.

End Runs.


(** * The statements on concrete inputs *)

Ltac by_decide := apply (bool_decide_unpack _); vm_compute; exact I.

Lemma quality_label_selects_preset_witness :
  get_settings (PDFConverter (Some "low")) (Toy.world_of Toy.some_files)
  = (Return {| dpi := 150; jpeg_quality := 75; optimize_flag := true |},
     Toy.world_of Toy.some_files)
  ∧ rejected
      (cli_convert (H := Toy.lib) ["scan.png"] "out.pdf" (Some "best")
         (Toy.world_of Toy.some_files))
      (Toy.world_of Toy.some_files).
Proof.
  destruct (quality_label_selects_preset (H := Toy.lib) "low" [] []
              "a.pdf" "out.pdf" (Toy.world_of Toy.some_files))
    as (Hlow & _).
  destruct (quality_label_selects_preset (H := Toy.lib) "best" ["scan.png"] []
              "a.pdf" "out.pdf" (Toy.world_of Toy.some_files))
    as (_ & _ & _ & _ & Hbest).
  split.
  - apply Hlow. unfold presets. repeat constructor.
  - apply Hbest. by_decide.
Defined.

Lemma invalid_quality_is_a_failure_result_witness :
  optimize_pdf (H := Toy.lib) (PDFConverter (Some "best")) "a.pdf" "out.pdf"
    (Toy.world_of Toy.some_files)
  = (Return false,
     {| fs := Toy.some_files;
        console := [Stdout "Optimizing: a.pdf";
                    StderrExc "Error optimizing PDF: " (KeyError "best")];
        temp_files := [] |}).
Proof.
  destruct (invalid_quality_is_a_failure_result (H := Toy.lib) "best"
              ["scan.png"] "a.pdf" "out.pdf" (Toy.world_of Toy.some_files))
    as (_ & _ & Hopt & _).
  - by_decide.
  - apply Hopt. vm_compute. reflexivity.
Defined.

Lemma missing_path_is_a_failure_result_witness :
  ∃ pre p post,
    ["a.pdf"; "missing.pdf"; "gone.pdf"] = pre ++ p :: post
    ∧ p = "missing.pdf"
    ∧ merge_pdfs (H := Toy.lib) (PDFConverter None)
        ["a.pdf"; "missing.pdf"; "gone.pdf"] "out.pdf"
        (Toy.world_of Toy.some_files)
      = (Return false,
         say [Stdout "Adding: a.pdf";
              Stderr "Error: File not found: missing.pdf"]
           (Toy.world_of Toy.some_files))
    ∧ image_to_pdf (H := Toy.lib) (PDFConverter None)
        ["a.pdf"; "missing.pdf"; "gone.pdf"] "out.pdf"
        (Toy.world_of Toy.some_files)
      = (Return false,
         say [Stderr "Error: File not found: missing.pdf"]
           (Toy.world_of Toy.some_files)).
Proof.
  destruct (missing_path_is_a_failure_result (H := Toy.lib) (PDFConverter None)
              ["a.pdf"; "missing.pdf"; "gone.pdf"] "out.pdf"
              (Toy.world_of Toy.some_files))
    as (pre & p & post & Hsplit & Hpre & Hp & _ & Hmerge & Himg & _).
  - exists "missing.pdf". split; [repeat constructor | vm_compute; reflexivity].
  - assert (pre = ["a.pdf"] ∧ p = "missing.pdf") as [-> ->].
    { destruct pre as [| x pre]; injection Hsplit as <- Hsplit.
      - vm_compute in Hp. discriminate.
      - destruct pre as [| y pre]; injection Hsplit as <- Hsplit; [auto |].
        apply Forall_cons in Hpre as [_ Hpre].
        apply Forall_cons in Hpre as [Hy _]. vm_compute in Hy. discriminate. }
    exists ["a.pdf"], "missing.pdf", post.
    split; [exact Hsplit |]. split; [reflexivity |].
    split; [exact Hmerge | exact Himg].
Defined.

(** The counterexample to C4 as stated: [merge_pdfs] on an empty, hence
    unreadable, file followed by a missing one returns [False] without any
    line that names the missing path. *)
Lemma merge_pdfs_does_not_name_missing_path :
  path_exists "missing.pdf" (fs (Toy.world_of Toy.some_files)) = false
  ∧ ∃ w',
      merge_pdfs (H := Toy.lib) (PDFConverter None) ["bad.pdf"; "missing.pdf"]
        "out.pdf" (Toy.world_of Toy.some_files)
      = (Return false, w')
      ∧ console w'
        = [Stdout "Adding: bad.pdf";
           StderrExc "Error merging PDFs: "
             (LibraryError "Cannot read an empty file")]
      ∧ ¬ ∃ l, l ∈ console w' ∧ mentions "missing.pdf" l = true.
Proof.
  split; [vm_compute; reflexivity |].
  eexists. split; [vm_compute; reflexivity |]. split; [reflexivity |].
  intros (l & Hin & Hl). cbn [console] in Hin.
  apply elem_of_cons in Hin as [-> | Hin]; [vm_compute in Hl; discriminate |].
  apply elem_of_cons in Hin as [-> | Hin]; [vm_compute in Hl; discriminate |].
  inversion Hin.
Qed.

(** The claim as worded fails on an image whose stream is below the
    threshold as it is stored and above it once [read_bytes] has decoded it:
    object 3 of [Scenario.three_images] holds 600 bytes and is written. *)
Lemma small_stored_image_is_recompressed :
  is_image (Toy.image_obj Byte.x89 600) = true
  ∧ (length (stream_data (Toy.image_obj Byte.x89 600)) < 1024)%nat
  ∧ objects Scenario.three_images !! 3%nat = Some (Toy.image_obj Byte.x89 600)
  ∧ ("/Im2", 3%nat) ∈ xobject_entries Scenario.three_images
  ∧ ∃ doc' w',
      optimize_images (H := Scenario.lib_on Scenario.three_images) Toy.high
        Scenario.three_images (started "a.pdf" (Toy.world_of Toy.some_files))
      = (Return doc', started "a.pdf" (Toy.world_of Toy.some_files))
      ∧ optimize_pdf (H := Scenario.lib_on Scenario.three_images)
          (PDFConverter None) "a.pdf" "out.pdf" (Toy.world_of Toy.some_files)
        = (Return true, w')
      ∧ files (fs w') !! "out.pdf" = Some (Toy.serialize doc')
      ∧ objects doc' !! 3%nat
        = Some (obj_write (Byte.x41 :: Byte.x89 :: replicate 14 Byte.x01)
                  "/DCTDecode" (Toy.image_obj Byte.x89 600))
      ∧ objects doc' !! 3%nat ≠ Some (Toy.image_obj Byte.x89 600).
Proof.
  split; [reflexivity |]. split; [vm_compute; lia |].
  split; [reflexivity |]. split; [by_decide |].
  destruct (optimize_images (H := Scenario.lib_on Scenario.three_images)
              Toy.high Scenario.three_images
              (started "a.pdf" (Toy.world_of Toy.some_files)))
    as [r w1] eqn:Hloop.
  destruct (optimize_pdf (H := Scenario.lib_on Scenario.three_images)
              (PDFConverter None) "a.pdf" "out.pdf"
              (Toy.world_of Toy.some_files)) as [b w'] eqn:Hrun.
  vm_compute in Hloop. vm_compute in Hrun.
  injection Hloop as <- <-. injection Hrun as <- <-.
  eexists _, _. split; [vm_compute; reflexivity |].
  split; [reflexivity |]. split; [vm_compute; reflexivity |].
  split; [vm_compute; reflexivity |]. vm_compute. intros [=].
Qed.

Lemma recompression_threshold_witness :
  ∃ w' doc' out,
    optimize_pdf (H := Scenario.lib_on Scenario.three_images)
      (PDFConverter None) "a.pdf" "out.pdf" (Toy.world_of Toy.some_files)
    = (Return true, w')
    ∧ pdf_save (Externals := Scenario.lib_on Scenario.three_images) doc'
        "out.pdf" Toy.some_files = WriteOk out
    ∧ files (fs w') !! "out.pdf" = Some out
    ∧ objects doc' !! 2%nat = Some (Toy.image_obj Byte.x89 400)
    ∧ objects doc' !! 1%nat
      = Some (obj_write (Byte.x41 :: Byte.x89 :: replicate 14 Byte.x01)
                "/DCTDecode" (Toy.image_obj Byte.x89 1025))
    ∧ flattened_on_white (H := Scenario.lib_on Scenario.three_images)
        {| mode := "RGBA"; size := (1, 1)%nat;
           pixels := Scenario.inflated (Toy.image_obj Byte.x89 1025) |}
        {| mode := "RGB"; size := (1, 1)%nat;
           pixels := Byte.x41 :: Scenario.inflated (Toy.image_obj Byte.x89 1025) |}.
Proof.
  destruct (optimize_pdf (H := Scenario.lib_on Scenario.three_images)
              (PDFConverter None) "a.pdf" "out.pdf"
              (Toy.world_of Toy.some_files)) as [r w'] eqn:Hrun.
  assert (r = Return true) as -> by (vm_compute in Hrun; congruence).
  destruct (recompression_threshold
              (H := Scenario.lib_on Scenario.three_images)
              (PDFConverter None) "a.pdf" "out.pdf"
              (Toy.world_of Toy.some_files) w' Hrun)
    as (s & data & doc & doc' & out & Hs & Hdata & Hopen & Hsave & Hout
        & Himages).
  assert (s = Toy.high) as ->
    by (vm_compute in Hs; injection Hs as <-; reflexivity).
  assert (data = [Byte.x01; Byte.x02]) as ->
    by (vm_compute in Hdata; congruence).
  change (@inr exception pdf Scenario.three_images = inr doc) in Hopen.
  injection Hopen as <-.
  exists w', doc', out. split; [reflexivity |]. split; [exact Hsave |].
  split; [exact Hout |]. split.
  - destruct (Himages "/Im1" 2%nat (Toy.image_obj Byte.x89 400)
                (Scenario.inflated (Toy.image_obj Byte.x89 400)))
      as [Hsmall _];
      [by_decide | reflexivity | reflexivity | vm_compute; reflexivity |].
    apply Hsmall. vm_compute. lia.
  - destruct (Himages "/Im0" 1%nat (Toy.image_obj Byte.x89 1025)
                (Scenario.inflated (Toy.image_obj Byte.x89 1025)))
      as [_ Hlarge];
      [by_decide | reflexivity | reflexivity | vm_compute; reflexivity |].
    destruct (Hlarge ltac:(vm_compute; lia)
                {| mode := "RGBA"; size := (1, 1)%nat;
                   pixels := Scenario.inflated (Toy.image_obj Byte.x89 1025) |}
                {| mode := "RGB"; size := (1, 1)%nat;
                   pixels := Byte.x41 :: Scenario.inflated (Toy.image_obj Byte.x89 1025) |}
                (Byte.x41 :: Byte.x89 :: replicate 14 Byte.x01))
      as (_ & Hfinal & Hflat);
      [vm_compute; reflexivity | vm_compute; reflexivity
      | vm_compute; reflexivity |].
    split.
    + apply Hfinal. left. exists [], [2%nat; 3%nat].
      split; [vm_compute; reflexivity |]. split; by_decide.
    + apply Hflat.
      * discriminate.
      * intros src bands Hmode [= <-]. unfold Scenario.bands_of.
        rewrite Hmode. reflexivity.
      * intros src [= <-]. reflexivity.
Defined.

(** An LA image has two bands, so line 176 pastes it without a mask: the
    alpha band is not used and the result is not the image flattened onto
    white. *)
Example la_image_is_not_flattened_on_white :
  ∃ rgb,
    to_rgb (H := Scenario.lib_on Scenario.three_images)
      {| mode := "LA"; size := (1, 1)%nat; pixels := [Byte.x4c; Byte.x07] |}
    = inr rgb
    ∧ pixels rgb = [Byte.x4c; Byte.x07]
    ∧ ¬ flattened_on_white (H := Scenario.lib_on Scenario.three_images)
          {| mode := "LA"; size := (1, 1)%nat;
             pixels := [Byte.x4c; Byte.x07] |} rgb.
Proof.
  eexists. split; [vm_compute; reflexivity |]. split; [reflexivity |].
  intros Hflat.
  inversion Hflat as [Hmode | bands alpha rgb Hmode Hsplit Hlast Hpaste
                      | src bands alpha rgb Hmode].
  - vm_compute in Hsplit. injection Hsplit as <-.
    vm_compute in Hlast. injection Hlast as <-.
    vm_compute in Hpaste. discriminate Hpaste.
  - discriminate Hmode.
Qed.


Lemma image_failure_is_skipped_with_a_warning_witness :
  ∃ objs' ls1 ls2 w',
    optimize_images (H := Scenario.lib_on Scenario.bad_then_good) Toy.high
      Scenario.bad_then_good (started "a.pdf" (Toy.world_of Toy.some_files))
    = (Return {| pages := pages Scenario.bad_then_good; objects := objs' |},
       say (ls1
            ++ StderrExc "Warning: Could not optimize image /Bad: "
                 (LibraryError "cannot identify image file") :: ls2)
         (started "a.pdf" (Toy.world_of Toy.some_files)))
    ∧ objs' !! 1%nat = Some (Toy.image_obj Byte.x00 1025)
    ∧ optimize_pdf (H := Scenario.lib_on Scenario.bad_then_good)
        (PDFConverter None) "a.pdf" "out.pdf" (Toy.world_of Toy.some_files)
      = (Return true, w').
Proof.
  destruct (image_failure_is_skipped_with_a_warning
              (H := Scenario.lib_on Scenario.bad_then_good)
              (PDFConverter None) "a.pdf" "out.pdf" Toy.high
              [Byte.x01; Byte.x02] Scenario.bad_then_good "/Bad" 1%nat
              (Toy.image_obj Byte.x00 1025)
              (LibraryError "cannot identify image file")
              [] [("/Im1", 2%nat)] (Toy.world_of Toy.some_files))
    as (objs1 & ls1 & objs' & ls2 & _ & _ & _ & _ & Hloop & Hkept & Hrun).
  - vm_compute. reflexivity.
  - reflexivity.
  - reflexivity.
  - reflexivity.
  - change (Forall (resolves (objects Scenario.bad_then_good))
              [("/Bad", 1%nat); ("/Im1", 2%nat)]).
    apply Forall_cons. split; [eexists; reflexivity |].
    apply Forall_cons. split; [eexists; reflexivity |]. apply Forall_nil.
    exact I.
  - reflexivity.
  - reflexivity.
  - reflexivity.
  - eapply (decode_failure (H := Scenario.lib_on Scenario.bad_then_good));
      [vm_compute; reflexivity | vm_compute; lia | reflexivity].
  - exists objs', ls1, ls2. eexists. split; [exact Hloop |].
    split; [exact Hkept |].
    apply (Hrun (Toy.serialize {| pages := pages Scenario.bad_then_good;
                                  objects := objs' |})); [reflexivity |].
    vm_compute. discriminate.
Defined.

(** The toy pikepdf writes one byte more than it read: the reduction of a
    run on the two-byte document is negative and is printed as such. *)
Lemma reduction_is_reported_as_computed_witness :
  ∃ w',
    optimize_pdf (H := Toy.lib) (PDFConverter None) "a.pdf" "out.pdf"
      (Toy.world_of Toy.some_files) = (Return true, w')
    ∧ size_of "a.pdf" (fs w') = 2
    ∧ size_of "out.pdf" (fs w') = 3
    ∧ last (console w') = Some (StdoutFixed2 "  Reduction: " (-50)%float "%").
Proof.
  destruct (optimize_pdf (H := Toy.lib) (PDFConverter None) "a.pdf" "out.pdf"
              (Toy.world_of Toy.some_files)) as [r w'] eqn:Hrun.
  assert (r = Return true) as -> by (vm_compute in Hrun; congruence).
  exists w'. split; [reflexivity |].
  destruct (reduction_is_reported_as_computed (H := Toy.lib) (PDFConverter None)
              "a.pdf" "out.pdf" (Toy.world_of Toy.some_files) w' Hrun)
    as (_ & _ & Hlast & _).
  rewrite Hlast. vm_compute in Hrun. injection Hrun as <-.
  split; [| split]; vm_compute; reflexivity.
Defined.

Lemma optimize_keeps_pages_and_other_content_witness :
  ∃ w' data doc doc' out,
    optimize_pdf (H := Toy.lib) (PDFConverter None) "a.pdf" "out.pdf"
      (Toy.world_of Toy.some_files) = (Return true, w')
    ∧ files Toy.some_files !! "a.pdf" = Some data
    ∧ Toy.parse data = inr doc
    ∧ fs w' = set_file "out.pdf" out Toy.some_files
    ∧ pages doc' = pages doc
    ∧ only_image_streams_differ (objects doc) (objects doc').
Proof.
  destruct (optimize_pdf (H := Toy.lib) (PDFConverter None) "a.pdf" "out.pdf"
              (Toy.world_of Toy.some_files)) as [r w'] eqn:Hrun.
  assert (r = Return true) as -> by (vm_compute in Hrun; congruence).
  destruct (optimize_keeps_pages_and_other_content (H := Toy.lib)
              (PDFConverter None) "a.pdf" "out.pdf"
              (Toy.world_of Toy.some_files) w' Hrun)
    as (data & doc & doc' & out & Hdata & Hopen & _ & Hfs & Hpages & _ & Hdiff
        & _).
  exists w', data, doc, doc', out. repeat split; assumption.
Defined.

Lemma batch_without_input_leaves_temp_dir_witness :
  ∃ w',
    batch (H := Toy.lib) [] [] "out.pdf" "high" (Toy.world_of Toy.empty_fs)
    = (Raise (SystemExit 1), w')
    ∧ "/tmp/tmp0" ∈ dirs (fs w')
    ∧ path_exists "/tmp/tmp0" (fs w') = true.
Proof.
  apply (batch_without_input_leaves_temp_dir (H := Toy.lib)). reflexivity.
Defined.

Lemma batch_without_input_creates_a_directory_witness :
  ∃ r w',
    batch (H := Toy.lib) [] [] "out.pdf" "high" (Toy.world_of Toy.empty_fs)
    = (r, w')
    ∧ exit_code r = 1
    ∧ console w' = console (Toy.world_of Toy.empty_fs) ++
        [Stderr "Error: At least one image file or PDF file must be provided"]
    ∧ fs w' = add_dir "/tmp/tmp0" (fs (Toy.world_of Toy.empty_fs))
    ∧ dirs (fs w') ≠ dirs (fs (Toy.world_of Toy.empty_fs)).
Proof.
  apply (batch_without_input_creates_a_directory (H := Toy.lib));
    [reflexivity | vm_compute; reflexivity].
Defined.

(** A second way to the same leak: [img2pdf.convert] raises once the
    temporary PDF is open, [image_to_pdf] returns [False], and the file, which
    [batch] has not yet put on its list, stays behind with its directory. *)
Example batch_failed_convert_leaves_file :
  ∃ w',
    batch (H := Toy.lib_img2pdf_fails) ["scan.png"] [] "out.pdf" "high"
      (Toy.world_of Toy.some_files)
    = (Raise (SystemExit 1), w')
    ∧ temp_files w' = []
    ∧ files (fs w') !! "/tmp/tmp0/temp_images.pdf" = Some []
    ∧ "/tmp/tmp0" ∈ dirs (fs w').
Proof.
  eexists. split; [vm_compute; reflexivity |].
  split; [reflexivity |]. split; [vm_compute; reflexivity | by_decide].
Qed.

(** On the path without failure the directory and both temporary files are
    gone when [batch] exits with code 0. *)
Example batch_success_cleans_up :
  ∃ w',
    batch (H := Toy.lib) ["scan.png"] ["a.pdf"] "out.pdf" "high"
      (Toy.world_of Toy.some_files)
    = (Raise (SystemExit 0), w')
    ∧ dirs (fs w') = ∅
    ∧ dom (files (fs w')) = {["a.pdf"; "bad.pdf"; "scan.png"; "out.pdf"]}.
Proof.
  eexists. split; [vm_compute; reflexivity |].
  split; apply (bool_decide_unpack _); vm_compute; exact I.
Qed.

(** * The statements on whole runs, on concrete inputs *)

Lemma merge_pdfs_true_iff_witness :
  merge_pdfs (H := Toy.lib) (PDFConverter None) ["a.pdf"; "a.pdf"] "out.pdf"
    (Toy.world_of Toy.some_files)
  = (Return true,
     {| fs := set_file "out.pdf" [Byte.x01; Byte.x02; Byte.x01; Byte.x02]
                Toy.some_files;
        console := [Stdout "Adding: a.pdf"; Stdout "Adding: a.pdf";
                    Stdout "Successfully merged 2 PDFs into out.pdf"];
        temp_files := [] |}).
Proof.
  apply (merge_pdfs_true_iff (H := Toy.lib)). split.
  - repeat (constructor; [vm_compute; reflexivity |]). constructor.
  - exists [[Byte.x01; Byte.x02]; [Byte.x01; Byte.x02]],
      [Byte.x01; Byte.x02; Byte.x01; Byte.x02].
    split; [reflexivity |]. split; reflexivity.
Defined.

Lemma image_to_pdf_true_iff_witness :
  image_to_pdf (H := Toy.lib) (PDFConverter None) ["scan.png"] "out.pdf"
    (Toy.world_of Toy.some_files)
  = (Return true,
     {| fs := set_file "out.pdf" [Byte.x25; Byte.x89; Byte.x50]
                Toy.some_files;
        console := [Stdout "Processing: scan.png";
                    Stdout "Successfully converted 1 images to out.pdf"];
        temp_files := [] |}).
Proof.
  apply (image_to_pdf_true_iff (H := Toy.lib)). split.
  - constructor; [vm_compute; reflexivity | constructor].
  - exists Toy.high, [[Byte.x89; Byte.x50]], [Byte.x25; Byte.x89; Byte.x50].
    split; [reflexivity |]. split.
    + constructor; [| constructor].
      exists [Byte.x89; Byte.x50]. split; reflexivity.
    + repeat (split; [reflexivity |]). reflexivity.
Defined.

Lemma image_to_pdf_bad_image_aborts_witness :
  ∃ w',
    image_to_pdf (H := Toy.lib) (PDFConverter None) ["scan.png"; "bad.pdf"]
      "a.pdf" (Toy.world_of Toy.some_files) = (Return false, w')
    ∧ fs w' = Toy.some_files
    ∧ last (console w')
      = Some (StderrExc "Error converting images to PDF: "
                (LibraryError "cannot identify image file")).
Proof.
  apply (image_to_pdf_bad_image_aborts (H := Toy.lib) (PDFConverter None)
           Toy.high).
  - repeat (constructor; [vm_compute; reflexivity |]). constructor.
  - reflexivity.
  - reflexivity.
Defined.

Lemma image_to_pdf_failed_layout_truncates_output_witness :
  ∃ w',
    image_to_pdf (H := Toy.lib_img2pdf_fails) (PDFConverter None)
      ["scan.png"] "a.pdf" (Toy.world_of Toy.some_files) = (Return false, w')
    ∧ files (fs w') !! "a.pdf" = Some [].
Proof.
  apply (image_to_pdf_failed_layout_truncates_output
           (H := Toy.lib_img2pdf_fails) (PDFConverter None) Toy.high
           ["scan.png"] "a.pdf" [[Byte.x89; Byte.x50]]
           (LibraryError "Invalid image dimensions")).
  - constructor; [vm_compute; reflexivity | constructor].
  - reflexivity.
  - reflexivity.
  - reflexivity.
  - reflexivity.
Defined.

Lemma optimize_images_skips_unreferenced_witness :
  ∃ doc' w',
    optimize_images (H := Toy.lib) Toy.high Scenario.two_pages
      (Toy.world_of Toy.some_files) = (Return doc', w')
    ∧ objects doc' !! 2%nat = Some (Toy.image_obj Byte.x89 2000).
Proof.
  destruct (optimize_images (H := Toy.lib) Toy.high Scenario.two_pages
              (Toy.world_of Toy.some_files)) as [r w'] eqn:Hrun.
  assert (∃ doc', r = Return doc') as [doc' ->]
    by (vm_compute in Hrun; injection Hrun as <- _; eauto).
  exists doc', w'. split; [reflexivity |].
  rewrite (optimize_images_skips_unreferenced (H := Toy.lib) Toy.high
             Scenario.two_pages doc' 2%nat (Toy.world_of Toy.some_files) w');
    [reflexivity | | exact Hrun].
  apply (bool_decide_unpack _). vm_compute. exact I.
Defined.


Lemma optimize_pdf_gives_up_on_a_non_dictionary_entry_witness :
  ∃ ls,
    optimize_pdf (H := Scenario.lib_on Scenario.stray_entry) (PDFConverter None)
      "a.pdf" "out.pdf" (Toy.world_of Toy.some_files)
    = (Return false,
       {| fs := Toy.some_files;
          console := Stdout "Optimizing: a.pdf" :: ls
            ++ [StderrExc "Error optimizing PDF: " not_a_dictionary];
          temp_files := [] |}).
Proof.
  apply (optimize_pdf_gives_up_on_a_non_dictionary_entry
           (H := Scenario.lib_on Scenario.stray_entry) (PDFConverter None)
           "a.pdf" "out.pdf" Toy.high [Byte.x01; Byte.x02] Scenario.stray_entry
           (Toy.world_of Toy.some_files)).
  - vm_compute. reflexivity.
  - reflexivity.
  - reflexivity.
  - reflexivity.
  - change (¬ Forall (resolves (objects Scenario.stray_entry))
                [("/Im0", 1%nat); ("/Num", 7%nat)]).
    intros Hall. apply Forall_cons in Hall as [_ Hall].
    apply Forall_cons in Hall as [[o Ho] _]. vm_compute in Ho.
    discriminate Ho.
Defined.

Lemma optimize_pdf_returns_and_writes_only_output_witness :
  ∃ b w',
    optimize_pdf (H := Toy.lib) (PDFConverter None) "a.pdf" "out.pdf"
      (Toy.world_of Toy.some_files) = (Return b, w')
    ∧ files (fs w') !! "a.pdf" = Some [Byte.x01; Byte.x02].
Proof.
  destruct (optimize_pdf_returns_and_writes_only_output (H := Toy.lib)
              (PDFConverter None) "a.pdf" "out.pdf"
              (Toy.world_of Toy.some_files))
    as (b & w' & Hrun & _ & _ & Hinput).
  exists b, w'. split; [exact Hrun |].
  etransitivity; [apply Hinput; discriminate | reflexivity].
Defined.

Lemma cli_rejects_missing_and_empty_input_witness :
  rejected (cli_merge (H := Toy.lib) [] "out.pdf"
              (Toy.world_of Toy.some_files))
    (Toy.world_of Toy.some_files)
  ∧ rejected (cli_optimize (H := Toy.lib) "missing.pdf" "out.pdf" None
                (Toy.world_of Toy.some_files))
      (Toy.world_of Toy.some_files)
  ∧ rejected (cli_batch (H := Toy.lib) ["scan.png"] ["missing.pdf"] "out.pdf"
                (Some "low") (Toy.world_of Toy.some_files))
      (Toy.world_of Toy.some_files).
Proof.
  split; [| split].
  - destruct (cli_rejects_missing_and_empty_input (H := Toy.lib) [] []
                "a.pdf" "out.pdf" None (Toy.world_of Toy.some_files))
      as (Hempty & _).
    apply Hempty. left. reflexivity.
  - destruct (cli_rejects_missing_and_empty_input (H := Toy.lib) [] []
                "missing.pdf" "out.pdf" None (Toy.world_of Toy.some_files))
      as (_ & Hopt & _).
    apply Hopt. vm_compute. reflexivity.
  - destruct (cli_rejects_missing_and_empty_input (H := Toy.lib) ["scan.png"]
                ["missing.pdf"] "a.pdf" "out.pdf" (Some "low")
                (Toy.world_of Toy.some_files))
      as (_ & _ & Hbatch).
    apply Hbatch. exists "missing.pdf".
    split; [by_decide | vm_compute; reflexivity].
Defined.

Lemma cli_passes_valid_arguments_witness :
  cli_convert (H := Toy.lib) ["scan.png"] "out.pdf" None
    (Toy.world_of Toy.some_files)
  = convert (H := Toy.lib) ["scan.png"] "out.pdf" "high"
      (Toy.world_of Toy.some_files).
Proof.
  destruct (cli_passes_valid_arguments (H := Toy.lib) ["scan.png"] ["a.pdf"]
              "a.pdf" "out.pdf" None (Toy.world_of Toy.some_files))
    as (Hfiles & _).
  - constructor; [vm_compute; reflexivity | constructor].
  - constructor; [vm_compute; reflexivity | constructor].
  - vm_compute. reflexivity.
  - by_decide.
  - apply Hfiles. discriminate.
Defined.

Lemma batch_exits_with_0_or_1_witness :
  ∃ c w',
    batch (H := Toy.lib) ["bad.pdf"] ["a.pdf"] "out.pdf" "high"
      (Toy.world_of Toy.some_files) = (Raise (SystemExit c), w')
    ∧ (c = 0 ∧ last (console w')
               = Some (Stdout (String "010"%char "Batch processing complete: "
                               +:+ "out.pdf"))
       ∨ c = 1).
Proof.
  apply (batch_exits_with_0_or_1 (H := Toy.lib) ["bad.pdf"] ["a.pdf"]
           "out.pdf" "high" "/tmp/tmp0").
  reflexivity.
Defined.

Lemma batch_cleanup_removes_listed_files_witness :
  ∃ w',
    batch_cleanup (H := Toy.lib) "/tmp/tmp0"
      {| fs := Toy.some_files; console := [];
         temp_files := ["scan.png"; "nowhere.pdf"] |}
    = (Return tt, w')
    ∧ files (fs w') !! "scan.png" = None
    ∧ files (fs w') !! "a.pdf" = Some [Byte.x01; Byte.x02].
Proof.
  destruct (batch_cleanup_removes_listed_files (H := Toy.lib) "/tmp/tmp0"
              {| fs := Toy.some_files; console := [];
                 temp_files := ["scan.png"; "nowhere.pdf"] |})
    as (w' & Hrun & Hgone & Hkept & _).
  - reflexivity.
  - exists w'. split; [exact Hrun |]. split.
    + apply Hgone. cbn [temp_files]. by_decide.
    + etransitivity; [apply Hkept; cbn [temp_files]; by_decide |].
      reflexivity.
Defined.

Lemma nothing_below_tmp (p : string) :
  below "/tmp/tmp0" p = true → path_exists p Toy.some_files = false.
Proof.
  intros Hb.
  destruct (decide (p = "a.pdf")) as [-> | Ha]; [vm_compute in Hb; discriminate |].
  destruct (decide (p = "bad.pdf")) as [-> | Hbad];
    [vm_compute in Hb; discriminate |].
  destruct (decide (p = "scan.png")) as [-> | Hscan];
    [vm_compute in Hb; discriminate |].
  unfold path_exists, Toy.some_files. cbn [files dirs].
  rewrite !lookup_insert_ne, lookup_singleton_ne by congruence.
  rewrite (bool_decide_eq_false_2 (is_Some None)) by (intros [? [=]]).
  rewrite bool_decide_eq_false_2 by apply not_elem_of_empty. reflexivity.
Qed.

Lemma batch_success_leaves_only_the_output_witness :
  ∃ w' data,
    batch (H := Toy.lib) ["scan.png"] ["a.pdf"] "out.pdf" "high"
      (Toy.world_of Toy.some_files) = (Raise (SystemExit 0), w')
    ∧ fs w' = set_file "out.pdf" data Toy.some_files.
Proof.
  destruct (batch (H := Toy.lib) ["scan.png"] ["a.pdf"] "out.pdf" "high"
              (Toy.world_of Toy.some_files)) as [r w'] eqn:Hrun.
  assert (r = Raise (SystemExit 0)) as ->
    by (vm_compute in Hrun; congruence).
  destruct (batch_success_leaves_only_the_output (H := Toy.lib) ["scan.png"]
              ["a.pdf"] "out.pdf" "high" "/tmp/tmp0"
              (Toy.world_of Toy.some_files) w') as [data Hfs].
  - reflexivity.
  - reflexivity.
  - reflexivity.
  - discriminate.
  - reflexivity.
  - vm_compute. reflexivity.
  - exact nothing_below_tmp.
  - vm_compute. reflexivity.
  - exact Hrun.
  - exists w', data. split; [reflexivity | exact Hfs].
Defined.

Lemma batch_stops_after_failed_conversion_witness :
  ∃ w',
    batch (H := Toy.lib_img2pdf_fails) ["scan.png"] ["a.pdf"] "out.pdf" "high"
      (Toy.world_of Toy.some_files) = (Raise (SystemExit 1), w')
    ∧ "/tmp/tmp0" ∈ dirs (fs w').
Proof.
  destruct (image_to_pdf (H := Toy.lib_img2pdf_fails)
              (PDFConverter (Some "high")) ["scan.png"]
              (path_join "/tmp/tmp0" "temp_images.pdf")
              {| fs := add_dir "/tmp/tmp0" Toy.some_files; console := [];
                 temp_files := [] |}) as [r w2] eqn:Himg.
  assert (r = Return false) as -> by (vm_compute in Himg; congruence).
  destruct (batch_stops_after_failed_conversion (H := Toy.lib_img2pdf_fails)
              ["scan.png"] ["a.pdf"] "out.pdf" "high" "/tmp/tmp0"
              (Toy.world_of Toy.some_files) w2)
    as (w' & Hrun & _ & _ & Hdir).
  - reflexivity.
  - discriminate.
  - exact Himg.
  - exists w'. split; [exact Hrun |]. apply Hdir.
    + vm_compute in Himg. injection Himg as <-. vm_compute. eauto.
    + vm_compute. reflexivity.
Defined.

Lemma merge_pdfs_leaves_partial_output_witness :
  ∃ w',
    merge_pdfs (H := Scenario.lib_disk_full) (PDFConverter None) ["a.pdf"]
      "out.pdf" (Toy.world_of Toy.some_files) = (Return false, w')
    ∧ files (fs w') !! "out.pdf" = Some [Byte.x01].
Proof.
  destruct (merge_pdfs_leaves_partial_output (H := Scenario.lib_disk_full)
              (PDFConverter None) ["a.pdf"] "out.pdf"
              [[Byte.x01; Byte.x02]] [Byte.x01]
              (OSError "No space left on device")
              (Toy.world_of Toy.some_files))
    as (w' & Hrun & Hpart & _).
  - constructor; [vm_compute; reflexivity | constructor].
  - reflexivity.
  - reflexivity.
  - exists w'. split; [exact Hrun | exact Hpart].
Defined.

Lemma cli_exit_codes_witness :
  ∃ c w',
    cli_batch (H := Toy.lib) ["scan.png"] ["a.pdf"] "out.pdf" (Some "low")
      (Toy.world_of Toy.some_files) = (Raise (SystemExit c), w')
    ∧ (c = 0 ∨ c = 1 ∨ c = 2).
Proof.
  destruct (cli_exit_codes (H := Toy.lib) ["scan.png"] ["a.pdf"] "a.pdf"
              "out.pdf" "/tmp/tmp0" (Some "low")
              (Toy.world_of Toy.some_files))
    as (_ & _ & _ & Hbatch).
  apply Hbatch. reflexivity.
Defined.
